(** * Sputnik-Enters-Kerbal-Space: the ascent autopilot script

    A shallow embedding of [code.py]: the two loggers ([DualLogger],
    [FlightDataLogger]) and the mission script [main], followed by the
    properties of the mission-phase sequencer.

    Conventions of the embedding.
    - Telemetry values are Python floats.  A value that the script only
      compares with a constant, prints, or uses in the difference of two
      clock readings is a rational [Q]: an order-preserving reading of the
      floats, in which the comparisons come out as in the script.  Where a
      conclusion is drawn from a comparison that failed, it is the negation
      of the comparison, which is what holds in the script also of a reading
      that is not a number.
    - The one value that the script computes step by step and sends to the
      vehicle, the pitch target of phase 3 ([target_pitch -= 0.3]), is a
      binary64 [float] with the IEEE 754 subtraction of the kernel's
      primitive floats, and equalities between targets are equalities of
      floats.
    - Every call that reads the outside world (a kRPC stream, a resource
      amount, [time.time()]) takes its value from an input record; a polling
      loop takes one record per evaluation of its loop test.  A loop whose
      supply of readings ends before its exit test succeeds has no result
      ([None]): the script itself would keep waiting.
    - Calls that the script wraps in [try]/[except] may raise, and their
      inputs say so; every other call is taken to return normally, but for
      the opening of the data file in the part on the calls of the recorder
      in sequence.
    - What the script does to the outside world is recorded as a list of
      [event]s, in program order. *)

From Stdlib Require Import String Ascii List Bool Arith ZArith QArith Lia Lqa.
From Stdlib Require Import Floats.
Import ListNotations.

(* A decimal literal of type [float] stands for the nearest binary64 value,
   as it does in Python. *)
Set Warnings "-inexact-float".

Local Open Scope string_scope.
Local Open Scope Q_scope.

(** ** Numbers *)

(** Python's [<], [>], [<=], [>=] on floats. *)
Definition Qltb (x y : Q) : bool := negb (Qle_bool y x).
Definition Qgtb (x y : Q) : bool := Qltb y x.
Definition Qgeb (x y : Q) : bool := Qle_bool y x.

Notation "x <? y" := (Qltb x y) (at level 70, no associativity) : Q_scope.
Notation "x >? y" := (Qgtb x y) (at level 70, no associativity) : Q_scope.
Notation "x <=? y" := (Qle_bool x y) (at level 70, no associativity) : Q_scope.
Notation "x >=? y" := (Qgeb x y) (at level 70, no associativity) : Q_scope.

(** The number a finite binary64 value stands for. *)
Definition to_Q (x : float) : option Q :=
  match Prim2SF x with
  | S754_zero _ => Some 0
  | S754_finite s m e =>
      let v := inject_Z (Zpos m) * 2 ^ e in
      Some (if s then - v else v)
  | S754_infinity _ | S754_nan => None
  end.

(** ** Exceptions *)

Inductive exn : Type :=
| Exception (text : string).

Inductive result (A : Type) : Type :=
| ok (a : A)
| raise (e : exn).
Arguments ok {A} a.
Arguments raise {A} e.

Definition try_bind {A B : Type} (r : result A) (k : A -> result B) : result B :=
  match r with
  | ok a => k a
  | raise e => raise e
  end.

(** [try: body except Exception as e: handler] *)
Definition try_except {A : Type} (body : result A) (handler : exn -> result A)
  : result A :=
  match body with
  | ok a => ok a
  | raise e => handler e
  end.

Declare Scope result_scope.
Delimit Scope result_scope with result.
Notation "x <- r ;; k" := (try_bind r (fun x => k))
  (at level 61, r at next level, right associativity) : result_scope.

(** ** Formatted text

    An f-string is kept as the list of its parts, so that the values it
    interpolates stay visible. *)

Inductive piece : Type :=
| T (s : string)                 (* literal text *)
| F (spec : string) (v : Q)      (* a float, formatted with [spec] *)
| N (n : Z)                      (* an integer *)
| E (e : exn)                    (* the text of an exception *)
| P (file : string)              (* os.path.abspath(file) *)
| U (s : string).                (* s.upper() *)

Definition message : Type := list piece.

Definition nl : string := String (ascii_of_nat 10) EmptyString.

(** [s * n] on Python strings. *)
Fixpoint times (s : string) (n : nat) : string :=
  match n with
  | O => EmptyString
  | S n' => s ++ times s n'
  end.

(** ** class DualLogger *)

Module DualLogger.

(** The fields of [datetime.now()] that the script prints. *)
Record datetime : Type := {
  year : nat; month : nat; day : nat;
  hour : nat; minute : nat; second : nat
}.

Definition digit (n : nat) : ascii := ascii_of_nat (48 + n mod 10).

Definition two_digits (n : nat) : string :=
  String (digit (n / 10)) (String (digit n) EmptyString).

Definition four_digits (n : nat) : string :=
  String (digit (n / 1000)) (String (digit (n / 100)) (two_digits n)).

(** [strftime('%H:%M:%S')] *)
Definition strftime_HMS (d : datetime) : string :=
  two_digits (hour d) ++ ":" ++ two_digits (minute d) ++ ":" ++ two_digits (second d).

(** [strftime('%Y-%m-%d %H:%M:%S')] *)
Definition strftime_YmdHMS (d : datetime) : string :=
  four_digits (year d) ++ "-" ++ two_digits (month d) ++ "-" ++ two_digits (day d)
    ++ " " ++ strftime_HMS d.

(** The logger object together with what it has written so far: the
    contents of its file and the text sent to the console. *)
Record t : Type := {
  filename : string;
  file : string;
  console : string
}.

(** [__init__]: the file is truncated and the heading written. *)
Definition init (filename : string) (console : string) (now : datetime) : t :=
  {| filename := filename;
     file := ("=== ЛОГ АВТОПИЛОТА KSP ===" ++ nl)
               ++ ("Дата запуска: " ++ strftime_YmdHMS now ++ nl)
               ++ (times "=" 40 ++ nl ++ nl);
     console := console |}.

(** [log(message, show_time=True)]; [now] is the clock reading taken on
    entry. *)
Definition log (self : t) (now : datetime) (message : string) (show_time : bool) : t :=
  let timestamp := strftime_HMS now in
  let log_message :=
    if show_time then "[" ++ timestamp ++ "] " ++ message else message in
  {| filename := filename self;
     file := file self ++ (log_message ++ nl);
     console := console self ++ (log_message ++ nl) |}.

(** [section(title)].  [upper] is Python's [str.upper]; the three calls of
    [log] read the clock one after the other. *)
Definition section (upper : string -> string)
    (self : t) (now1 now2 now3 : datetime) (title : string) : t :=
  let border := times "=" 50 in
  let self := log self now1 border false in
  let self := log self now2 (upper title) false in
  log self now3 border false.

(** The number of line terminators in a text. *)
Fixpoint line_breaks (s : string) : nat :=
  match s with
  | EmptyString => 0
  | String c rest =>
      (if Ascii.eqb c (ascii_of_nat 10) then 1 else 0) + line_breaks rest
  end.

Definition is_digit (c : ascii) : bool :=
  (48 <=? nat_of_ascii c)%nat && (nat_of_ascii c <=? 57)%nat.

(** A logger that has written nothing yet, and a clock reading. *)
Definition fresh : t := {| filename := "ksp.txt"; file := ""; console := "" |}.

Definition noon : datetime :=
  {| year := 2024; month := 5; day := 17; hour := 12; minute := 0; second := 7 |}.

End DualLogger.

(** ** class FlightDataLogger *)

Module FlightDataLogger.

(** What one call of [log_data] reads, in the order it reads it: the clock,
    the eight streams and the two resource amounts.  A stream or a resource
    call may raise. *)
Record sample : Type := {
  s_time : Q;
  s_altitude : result Q;
  s_speed : result Q;
  s_vertical_speed : result Q;
  s_horizontal_speed : result Q;
  s_apoapsis : result Q;
  s_periapsis : result Q;
  s_pitch : result Q;
  s_heading : result Q;
  s_fuel : result Q;
  s_oxidizer : result Q
}.

(** A line of the data file: free text, or cells joined by [" | "]. *)
Inductive line : Type :=
| text (m : message)
| joined (cells : list piece).

(** The recorder object, the contents of [inf.txt] and what the recorder
    printed to the console. *)
Record t : Type := {
  filename : string;
  start_time : Q;
  vessel_name : string;
  body_name : string;
  file : list line;
  printed : list message
}.

Definition headers : list string :=
  [ "Время(с)";
    "Высота(км)";
    "Скорость(м/с)";
    "Верт.скорость(м/с)";
    "Гор.скорость(м/с)";
    "Апоапсис(км)";
    "Периапсис(км)";
    "Тангаж(°)";
    "Курс(°)";
    "Топливо";
    "Окислитель" ].

(** [_init_file] *)
Definition _init_file (self : t) (now : string) : t :=
  {| filename := filename self;
     start_time := start_time self;
     vessel_name := vessel_name self;
     body_name := body_name self;
     file :=
       [ text [T (times "=" 60)];
         text [T "ДАННЫЕ О ПОЛЕТЕ - ПОСТОЯННАЯ ЗАПИСЬ"];
         text [T "Начало записи: "; T now];
         text [T "Корабль: "; T (vessel_name self)];
         text [T "Планета: "; T (body_name self)];
         text [T (times "=" 60)];
         text [];
         joined (map T headers);
         text [T (times "-" 120)] ];
     printed := printed self |}.

(** [__init__]: the streams are subscribed (no output) and the file is
    initialised. *)
Definition init (vessel body : string) (time_now : Q) (now : string) : t :=
  _init_file
    {| filename := "inf.txt"; start_time := time_now;
       vessel_name := vessel; body_name := body;
       file := []; printed := [] |}
    now.

Definition append (self : t) (l : list line) : t :=
  {| filename := filename self;
     start_time := start_time self;
     vessel_name := vessel_name self;
     body_name := body_name self;
     file := file self ++ l;
     printed := printed self |}.

Definition print (self : t) (m : message) : t :=
  {| filename := filename self;
     start_time := start_time self;
     vessel_name := vessel_name self;
     body_name := body_name self;
     file := file self;
     printed := printed self ++ [m] |}.

(** The body of the [try] of [log_data] up to the formatted row. *)
Definition data_line (self : t) (s : sample) : result (list piece) :=
  let current_time := s_time s - start_time self in
  (altitude <- s_altitude s ;;
  speed <- s_speed s ;;
  v_speed <- s_vertical_speed s ;;
  h_speed <- s_horizontal_speed s ;;
  apoapsis <- s_apoapsis s ;;
  periapsis <- s_periapsis s ;;
  pitch <- s_pitch s ;;
  heading <- s_heading s ;;
  fuel <- s_fuel s ;;
  oxidizer <- s_oxidizer s ;;
  ok [ F "6.1f" current_time;
       F "8.2f" (altitude / 1000);
       F "8.1f" speed;
       F "8.1f" v_speed;
       F "8.1f" h_speed;
       F "8.2f" (apoapsis / 1000);
       F "8.2f" (periapsis / 1000);
       F "8.1f" pitch;
       F "8.1f" heading;
       F "8.1f" fuel;
       F "8.1f" oxidizer ])%result.

(** [log_data]: the [try] reads, formats and appends the row; the
    [except Exception] prints. *)
Definition log_data (self : t) (s : sample) : result t :=
  try_except
    (data_line <- data_line self s ;;
     ok (append self [joined data_line]))%result
    (fun e => ok (print self [T "Ошибка записи данных: "; E e])).

(** [log_status(status)]; [now] is [datetime.now().strftime('%H:%M:%S')]. *)
Definition log_status (self : t) (now : string) (status : message) : t :=
  append self [text []; text ([T "["; T now; T "] "] ++ status)%list].

(** [close]; [time_now] is [time.time()], [now] the formatted date. *)
Definition close (self : t) (time_now : Q) (now : string) : t :=
  let elapsed_time := time_now - start_time self in
  append self
    [ text [];
      text [T (times "=" 60)];
      text [T "ИТОГИ ЗАПИСИ"];
      text [T "Общее время полета: "; F ".1f" elapsed_time; T " секунд"];
      text [T "Конец записи: "; T now];
      text [T (times "=" 60)] ].

(** *** What the columns mean

    The columns of the table in the order of [headers], the title of each
    and the cell that a sample with the values [x] has in it. *)

Inductive column : Type :=
| col_time_s | col_altitude_km | col_speed | col_vertical_speed | col_horizontal_speed
| col_apoapsis_km | col_periapsis_km | col_pitch_deg | col_heading_deg | col_fuel | col_oxidizer.

Definition columns : list column :=
  [ col_time_s; col_altitude_km; col_speed; col_vertical_speed; col_horizontal_speed;
    col_apoapsis_km; col_periapsis_km; col_pitch_deg; col_heading_deg; col_fuel; col_oxidizer ].

Definition title (c : column) : string :=
  match c with
  | col_time_s => "Время(с)"
  | col_altitude_km => "Высота(км)"
  | col_speed => "Скорость(м/с)"
  | col_vertical_speed => "Верт.скорость(м/с)"
  | col_horizontal_speed => "Гор.скорость(м/с)"
  | col_apoapsis_km => "Апоапсис(км)"
  | col_periapsis_km => "Периапсис(км)"
  | col_pitch_deg => "Тангаж(°)"
  | col_heading_deg => "Курс(°)"
  | col_fuel => "Топливо"
  | col_oxidizer => "Окислитель"
  end.

(** The values of a sample whose reads all returned. *)
Record values : Type := {
  v_elapsed : Q;
  v_altitude : Q;
  v_speed : Q;
  v_vertical_speed : Q;
  v_horizontal_speed : Q;
  v_apoapsis : Q;
  v_periapsis : Q;
  v_pitch : Q;
  v_heading : Q;
  v_fuel : Q;
  v_oxidizer : Q
}.

Definition cell (x : values) (c : column) : piece :=
  match c with
  | col_time_s => F "6.1f" (v_elapsed x)
  | col_altitude_km => F "8.2f" (v_altitude x / 1000)
  | col_speed => F "8.1f" (v_speed x)
  | col_vertical_speed => F "8.1f" (v_vertical_speed x)
  | col_horizontal_speed => F "8.1f" (v_horizontal_speed x)
  | col_apoapsis_km => F "8.2f" (v_apoapsis x / 1000)
  | col_periapsis_km => F "8.2f" (v_periapsis x / 1000)
  | col_pitch_deg => F "8.1f" (v_pitch x)
  | col_heading_deg => F "8.1f" (v_heading x)
  | col_fuel => F "8.1f" (v_fuel x)
  | col_oxidizer => F "8.1f" (v_oxidizer x)
  end.

(** The ten reads of a sample that may raise, in the order of [log_data]. *)
Definition reads (s : sample) : list (result Q) :=
  [ s_altitude s; s_speed s; s_vertical_speed s; s_horizontal_speed s;
    s_apoapsis s; s_periapsis s; s_pitch s; s_heading s; s_fuel s; s_oxidizer s ].

Definition raises (r : result Q) : bool :=
  match r with
  | ok _ => false
  | raise _ => true
  end.

(** The exception of the first read that raises, if any does. *)
Fixpoint first_raise (rs : list (result Q)) : option exn :=
  match rs with
  | [] => None
  | ok _ :: rest => first_raise rest
  | raise e :: _ => Some e
  end.

(** The values of a sample taken by the recorder [self] when every read
    returns. *)
Definition values_of (self : t) (s : sample) : option values :=
  match s_altitude s, s_speed s, s_vertical_speed s, s_horizontal_speed s,
        s_apoapsis s, s_periapsis s, s_pitch s, s_heading s,
        s_fuel s, s_oxidizer s with
  | ok altitude, ok speed, ok v_speed, ok h_speed,
    ok apoapsis, ok periapsis, ok pitch, ok heading, ok fuel, ok oxidizer =>
      Some {| v_elapsed := s_time s - start_time self;
              v_altitude := altitude;
              v_speed := speed;
              v_vertical_speed := v_speed;
              v_horizontal_speed := h_speed;
              v_apoapsis := apoapsis;
              v_periapsis := periapsis;
              v_pitch := pitch;
              v_heading := heading;
              v_fuel := fuel;
              v_oxidizer := oxidizer |}
  | _, _, _, _, _, _, _, _, _, _ => None
  end.

(** The rows of the table found in a file. *)
Definition rows (f : list line) : list (list piece) :=
  flat_map (fun l => match l with joined cells => [cells] | text _ => [] end) f.

End FlightDataLogger.

(** ** The mission script: what it reads and what it does *)

Local Close Scope string_scope.
Local Open Scope list_scope.

Inductive sas_mode : Type := radial | prograde.

(** The states of the sequencer.  The script has no variable for them: a
    state is the region of [main] that is running. *)
Inductive phase : Type :=
| Ignition
| GravityTurn
| PoweredAscentToTargetApoapsis
| CoastToApoapsis
| CircularizationBurn
| MissionSummary
| Aborted.

Inductive event : Type :=
| log (m : message) (show_time : bool)          (* logger.log(m, show_time) *)
| prompt (m : message)                          (* input(m) *)
| sleep (seconds : Q)                           (* time.sleep(seconds) *)
| set_throttle (v : Q)                          (* vessel.control.throttle = v *)
| activate_next_stage
| set_sas (b : bool)                            (* vessel.control.sas = b *)
| set_sas_mode (m : sas_mode)                   (* vessel.control.sas_mode = m *)
| ap_set_reference_frame                        (* ap.reference_frame = ... *)
| ap_engage
| ap_target_pitch_and_heading (pitch : float) (heading : Q)
| ap_wait
| ap_disengage
| set_deployed (panel : nat)                    (* panel.deployed = True *)
| conn_close
| recorder_new                                  (* FlightDataLogger(vessel, conn) *)
| log_data (s : FlightDataLogger.sample)        (* flight_data_logger.log_data() *)
| log_status (status : message)                 (* flight_data_logger.log_status(status) *)
| recorder_close                                (* flight_data_logger.close() *)
| enter (p : phase).                            (* a mark, not an action: [p] begins *)

(** [logger.section(title)]: three calls of [log]. *)
Definition section (title : string) : list event :=
  [ log [T (times "=" 50)] false;
    log [U title] false;
    log [T (times "=" 50)] false ].

(** A solar panel: reading [deployable] and setting [deployed] may raise. *)
Record panel : Type := {
  deployable : result bool;
  deploy : option exn
}.

(** One turn of the loop of phase 2 (l.276-292). *)
Record gravity_turn_reading : Type := {
  gt_altitude : Q;                      (* l.276, the loop test *)
  gt_time : Q;                          (* l.277 *)
  gt_sample : FlightDataLogger.sample;  (* l.281 *)
  gt_fuel : Q;                          (* l.286 *)
  gt_altitude_logged : Q;               (* l.287 *)
  gt_vertical_speed : Q;                (* l.288 *)
  gt_horizontal_speed : Q               (* l.289 *)
}.

(** One turn of the loop of phase 3 (l.319-353). *)
Record ascent_reading : Type := {
  as_apoapsis : Q;                      (* l.319, the loop test *)
  as_time : Q;                          (* l.322 *)
  as_sample : FlightDataLogger.sample;  (* l.324 *)
  as_pitch : Q;                         (* l.327 *)
  as_heading : Q;                       (* l.330 *)
  as_pitch_logged : Q;                  (* l.331 *)
  as_current_apo : Q;                   (* l.333 *)
  as_fuel : Q;                          (* l.334 *)
  as_report_time : Q;                   (* l.335 *)
  as_altitude : Q                       (* l.341 *)
}.

(** One turn of the loop of phase 5 (l.398-411). *)
Record coast_reading : Type := {
  co_altitude : Q;                      (* l.398, the loop test *)
  co_time : Q;                          (* l.400 *)
  co_sample : FlightDataLogger.sample;  (* l.402 *)
  co_altitude_remaining : Q;            (* l.405 *)
  co_fuel : Q;                          (* l.407 *)
  co_altitude_logged : Q                (* l.409 *)
}.

(** One turn of the loop of phase 6 (l.448-477). *)
Record burn_reading : Type := {
  bu_periapsis : Q;                     (* l.448, the loop test *)
  bu_time : Q;                          (* l.450 *)
  bu_sample : FlightDataLogger.sample;  (* l.452 *)
  bu_fuel : Q;                          (* l.455 *)
  bu_oxidizer : Q;                      (* l.456 *)
  bu_report_time : Q;                   (* l.457 *)
  bu_periapsis_sign : Q;                (* l.469, the condition *)
  bu_periapsis_progress : Q;            (* l.469, the value *)
  bu_periapsis_logged : Q               (* l.471 *)
}.

(** Everything [main] reads, in program order. *)
Record world : Type := {
  connect : option exn;                 (* l.183, [Some e]: krpc.connect raises *)
  recorder : option exn;                (* l.204, [Some e]: the constructor raises *)
  vessel_name : string;                 (* l.223 *)
  body_name : string;                   (* l.224 *)
  initial_fuel : Q;                     (* l.227 *)
  max_fuel : Q;                         (* l.228 *)
  initial_ox : Q;                       (* l.229 *)
  max_ox : Q;                           (* l.230 *)
  sas_radial : option exn;              (* l.265 *)
  gt_last_report : Q;                   (* l.274 *)
  gt_last_data_log : Q;                 (* l.275 *)
  gravity_turn : list gravity_turn_reading;
  altitude_at_turn : Q;                 (* l.294 *)
  as_last_report : Q;                   (* l.315 *)
  pitch_snapshot : float;               (* l.317 *)
  ascent : list ascent_reading;
  apoapsis_reached : Q;                 (* l.355 *)
  apoapsis_status : Q;                  (* l.361 *)
  fuel_after_ascent : Q;                (* l.364 *)
  oxidizer_after_ascent : Q;            (* l.365 *)
  solar_panels : list panel;            (* l.378 *)
  coast : list coast_reading;
  altitude_reached : Q;                 (* l.413 *)
  sas_prograde : option exn;            (* l.426 *)
  maneuver_start_fuel : Q;              (* l.438 *)
  maneuver_start_time : Q;              (* l.439 *)
  periapsis_at_burn : Q;                (* l.441 *)
  bu_last_report : Q;                   (* l.445 *)
  burn : list burn_reading;
  periapsis_status : Q;                 (* l.484 *)
  final_apo : Q;                        (* l.489 *)
  final_peri : Q;                       (* l.490 *)
  final_fuel : Q;                       (* l.491 *)
  final_ox : Q;                         (* l.492 *)
  eccentricity : result Q;              (* l.499 *)
  end_time : Q                          (* l.510 *)
}.

(** The local variables of [main] that are assigned more than once. *)
Record locals : Type := {
  last_report : Q;
  last_data_log : Q;
  fuel_warnings : nat;
  target_pitch : float;
  fuel_empty : bool
}.

Definition set_last_report (v : locals) (x : Q) : locals :=
  {| last_report := x; last_data_log := last_data_log v;
     fuel_warnings := fuel_warnings v; target_pitch := target_pitch v;
     fuel_empty := fuel_empty v |}.

Definition set_last_data_log (v : locals) (x : Q) : locals :=
  {| last_report := last_report v; last_data_log := x;
     fuel_warnings := fuel_warnings v; target_pitch := target_pitch v;
     fuel_empty := fuel_empty v |}.

Definition set_fuel_warnings (v : locals) (x : nat) : locals :=
  {| last_report := last_report v; last_data_log := last_data_log v;
     fuel_warnings := x; target_pitch := target_pitch v;
     fuel_empty := fuel_empty v |}.

Definition set_target_pitch (v : locals) (x : float) : locals :=
  {| last_report := last_report v; last_data_log := last_data_log v;
     fuel_warnings := fuel_warnings v; target_pitch := x;
     fuel_empty := fuel_empty v |}.

Definition set_fuel_empty (v : locals) (x : bool) : locals :=
  {| last_report := last_report v; last_data_log := last_data_log v;
     fuel_warnings := fuel_warnings v; target_pitch := target_pitch v;
     fuel_empty := x |}.

(** ** Running the script

    A run yields the events so far and a value, or nothing when a loop ran
    out of readings. *)

Definition M (A : Type) : Type := option (list event * A).

Definition ret {A : Type} (a : A) : M A := Some ([], a).

Definition bind {A B : Type} (m : M A) (k : A -> M B) : M B :=
  match m with
  | None => None
  | Some (ev, a) =>
      match k a with
      | None => None
      | Some (ev', b) => Some (ev ++ ev', b)
      end
  end.

Definition tell (ev : list event) : M unit := Some (ev, tt).

Declare Scope mission_scope.
Delimit Scope mission_scope with mission.
Notation "x <- m ;; k" := (bind m (fun x => k))
  (at level 61, m at next level, right associativity) : mission_scope.
Notation "m ;; k" := (bind m (fun _ => k))
  (at level 61, right associativity) : mission_scope.

(** How a turn of a loop ends: at the bottom of the body, or at [break]. *)
Inductive flow (S : Type) : Type :=
| next (s : S)
| break (s : S).
Arguments next {S} s.
Arguments break {S} s.

(** [while test: body], fed one reading per evaluation of [test]. *)
Fixpoint while {I S : Type} (test : I -> bool)
    (body : I -> S -> list event * flow S) (readings : list I) (s : S) : M S :=
  match readings with
  | [] => None
  | r :: rest =>
      if test r then
        match body r s with
        | (ev, next s') =>
            match while test body rest s' with
            | None => None
            | Some (ev', s'') => Some (ev ++ ev', s'')
            end
        | (ev, break s') => Some (ev, s')
        end
      else Some ([], s)
  end.

(** [if flight_data_logger: ...] *)
Definition if_recorder (flight_data_logger : bool) (ev : list event) : list event :=
  if flight_data_logger then ev else [].

(** The recording step at the head of each loop body:
    [if current_time - last_data_log > interval and flight_data_logger]. *)
Definition record_step (flight_data_logger : bool) (interval current_time : Q)
    (s : FlightDataLogger.sample) (v : locals) : list event * locals :=
  if (current_time - last_data_log v >? interval) && flight_data_logger
  then ([log_data s], set_last_data_log v current_time)
  else ([], v).

(** ** [main], block by block *)

Definition say (m : message) : event := log m true.

(** l.174-178 *)
Definition banner : list event :=
  [ log [T (times "=" 50)] false;
    log [T "AUTOPILOT FOR KSP"] false;
    log [T (times "=" 50)] false;
    say [T "Файл лога: "; P "ksp.txt"];
    say [T "Файл данных полета: "; P "inf.txt"] ].

(** l.182, l.189: the lines around the connection attempt. *)
Definition connecting : message := [T "Подключаюсь к KSP через kRPC..."].

Definition connected : message := [T "✓ Успешное подключение к KSP!"].

(** l.190-196: the [except] branch of the connection attempt. *)
Definition connection_failed (e : exn) : list event :=
  [ say [T "✗ Ошибка подключения: "; E e];
    say [T "Убедитесь, что:"];
    say [T "1. KSP запущена"];
    say [T "2. kRPC сервер активен (Esc → Settings → kRPC → Start Server)"];
    prompt [T "Нажмите Enter для выхода..."] ].

(** The lines of the event log that speak of the recorder (l.205, l.207,
    l.541). *)
Definition recorder_ready : message :=
  [T "✓ Инициализирован сбор данных полета в inf.txt"].

Definition recorder_failed (e : exn) : message :=
  [T "⚠ Ошибка инициализации логгера данных: "; E e].

Definition data_saved : message :=
  [T nl; T "✓ Данные полета сохранены в: "; P "inf.txt"].

(** l.203-207: the recorder is built, or [flight_data_logger] stays [None].
    The boolean is the truth value of [flight_data_logger] from here on. *)
Definition recorder_init (w : world) : list event * bool :=
  match recorder w with
  | None => ([recorder_new; say recorder_ready], true)
  | Some e => ([recorder_new; say (recorder_failed e)], false)
  end.

(** l.222-239 *)
Definition vessel_info (w : world) (flight_data_logger : bool) : list event :=
  section "Информация о корабле"
  ++ [ say [T "Корабль: "; T (vessel_name w)];
       say [T "Планета: "; T (body_name w)];
       say [T "Начальное топливо: "; F ".1f" (initial_fuel w); T " / "; F ".1f" (max_fuel w)];
       say [T "Окислитель: "; F ".1f" (initial_ox w); T " / "; F ".1f" (max_ox w)] ]
  ++ if_recorder flight_data_logger
       [log_status [T "СТАРТ МИССИИ - РАКЕТА НА СТАРТОВОЙ ПЛОЩАДКЕ"]]
  ++ [ prompt [T nl; T "Нажмите Enter для начала автопилота... (убедитесь, что ракета на старте!)"] ].

(** l.246-248: [for i in range(3, 0, -1)] *)
Definition countdown : list event :=
  flat_map (fun i => [say [T "Запуск через "; N i; T "..."]; sleep 1]) [3; 2; 1]%Z.

(** l.264-268 and l.425-429: setting the SAS mode inside [try]. *)
Definition try_sas_mode (m : sas_mode) (outcome : option exn) (done failed : string)
  : list event :=
  [ set_sas_mode m;
    match outcome with
    | None => say [T done]
    | Some e => say [T failed; E e]
    end ].

(** l.241-268 *)
Definition ignition (w : world) (flight_data_logger : bool) : list event :=
  [enter Ignition]
  ++ section "Фаза 1: Запуск двигателя"
  ++ [ say [T "1. ВКЛЮЧАЮ ДВИГАТЕЛЬ НА ПОЛНУЮ"] ]
  ++ countdown
  ++ [ say [T "ЗАПУСК! Полный газ!"];
       set_throttle 1.0;
       activate_next_stage ]
  ++ if_recorder flight_data_logger [log_status [T "ЗАПУСК ДВИГАТЕЛЯ - ПОЛНЫЙ ГАЗ"]]
  ++ [ sleep 1;
       say [T "2. ВКЛЮЧАЮ SAS: RADIAL OUT"];
       set_sas true;
       sleep 0.5 ]
  ++ try_sas_mode radial (sas_radial w)
       "✓ SAS установлен в режим RadialOut" "⚠ SAS radial недоступен: ".

(** l.271-272 *)
Definition gravity_turn_entry : list event :=
  [enter GravityTurn]
  ++ section "Фаза 2: Гравитационный поворот"
  ++ [ say [T "3. ОЖИДАНИЕ ВЫСОТЫ 10 КМ..."] ].

(** l.277-292: the body of [while altitude() < 10000]. *)
Definition gravity_turn_body (flight_data_logger : bool)
    (r : gravity_turn_reading) (v : locals) : list event * flow locals :=
  let current_time := gt_time r in
  let (ev_data, v) := record_step flight_data_logger 0.5 current_time (gt_sample r) v in
  let (ev_report, v) :=
    if current_time - last_report v >? 2 then
      let current_fuel := gt_fuel r in
      ([ say [ T "  Высота: "; F ".1f" (gt_altitude_logged r / 1000); T " км | ";
               T "V: "; F ".0f" (gt_vertical_speed r); T " м/с | ";
               T "H: "; F ".0f" (gt_horizontal_speed r); T " м/с | ";
               T "Топливо: "; F ".0f" current_fuel ] ],
       set_last_report v current_time)
    else ([], v) in
  (ev_data ++ ev_report ++ [sleep 0.1], next v).

(** l.294-309: leaving phase 2, the 20 degree turn. *)
Definition turn (w : world) (flight_data_logger : bool) : list event :=
  [ say [T "✓ 10 км достигнуто ("; F ".1f" (altitude_at_turn w / 1000); T " км)"];
    say [T "  Отключаю SAS, поворачиваю на 20°"] ]
  ++ if_recorder flight_data_logger
       [log_status [T "ДОСТИГНУТО 10 КМ - ГРАВИТАЦИОННЫЙ ПОВОРОТ"]]
  ++ [ set_sas false;
       sleep 0.5;
       ap_set_reference_frame;
       ap_engage;
       ap_target_pitch_and_heading 70%float 90;   (* 90-20=70 *)
       ap_wait;
       ap_disengage;
       say [T "  ✓ Поворот на 20° завершен"] ].

(** l.312-313 *)
Definition ascent_entry : list event :=
  [enter PoweredAscentToTargetApoapsis]
  ++ section "Фаза 3: Выведение до апоапсиса 80 км"
  ++ [ say [T "4. ОЖИДАНИЕ АПОАПСИСА 80 КМ..."] ].

(** l.327-331: the pitch programme. *)
Definition pitch_step (r : ascent_reading) (v : locals) : list event * locals :=
  if as_pitch r >? 15 then
    let v := set_target_pitch v (target_pitch v - 0.3)%float in
    ([ ap_engage;
       ap_target_pitch_and_heading (target_pitch v) (as_heading r);
       say [T "Плавный поворот "; F "" (as_pitch_logged r)] ],
     v)
  else ([], v).

(** The two fuel warnings (l.347, l.350). *)
Definition low_fuel (current_fuel : Q) : message :=
  [T "  ⚠ Мало топлива: "; F ".0f" current_fuel; T " осталось"].

Definition very_low_fuel (current_fuel : Q) : message :=
  [T "  ⚠ Очень мало топлива: "; F ".0f" current_fuel; T " осталось"].

(** l.345-351: the fuel warnings. *)
Definition fuel_warning (current_fuel : Q) (v : locals) : list event * locals :=
  if (current_fuel <? 100) && (fuel_warnings v =? 0)%nat then
    ([say (low_fuel current_fuel)], set_fuel_warnings v (fuel_warnings v + 1))
  else if (current_fuel <? 50) && (fuel_warnings v =? 1)%nat then
    ([say (very_low_fuel current_fuel)], set_fuel_warnings v (fuel_warnings v + 1))
  else ([], v).

(** l.320-353: the body of [while apoapsis() < 80000]. *)
Definition ascent_body (flight_data_logger : bool)
    (r : ascent_reading) (v : locals) : list event * flow locals :=
  let current_time := as_time r in
  let (ev_data, v) := record_step flight_data_logger 0.5 current_time (as_sample r) v in
  let (ev_pitch, v) := pitch_step r v in
  let current_apo := as_current_apo r in
  let current_fuel := as_fuel r in
  let current_time := as_report_time r in
  let (ev_report, v) :=
    if current_time - last_report v >? 3 then
      let progress := (current_apo / 80000) * 100 in
      ([ say [ T "  Апоапсис: "; F ".1f" (current_apo / 1000);
               T " км ("; F ".0f" progress; T "%) | ";
               T "Высота: "; F ".1f" (as_altitude r / 1000); T " км | ";
               T "Топливо: "; F ".0f" current_fuel ] ],
       set_last_report v current_time)
    else ([], v) in
  let (ev_fuel, v) := fuel_warning current_fuel v in
  (ev_data ++ ev_pitch ++ ev_report ++ ev_fuel ++ [sleep 0.2], next v).

(** l.355-368: engine cut-off at the target apoapsis. *)
Definition cutoff (w : world) (flight_data_logger : bool) : list event :=
  [ say [T "✓ Апоапсис "; F ".1f" (apoapsis_reached w / 1000); T " км достигнут"];
    say [T "  ВЫКЛЮЧАЮ ДВИГАТЕЛЬ"];
    set_throttle 0.0;
    ap_disengage ]
  ++ if_recorder flight_data_logger
       [log_status [ T "ДОСТИГНУТ АПОАПСИС "; F ".1f" (apoapsis_status w / 1000);
                     T " КМ - ВЫКЛЮЧЕНИЕ ДВИГАТЕЛЯ" ]]
  ++ [ say [T "  Осталось после набора высоты:"];
       say [T "    Топливо: "; F ".1f" (fuel_after_ascent w)];
       say [T "    Окислитель: "; F ".1f" (oxidizer_after_ascent w)] ].

(** l.377-384: [for panel in vessel.parts.solar_panels]. *)
Fixpoint deploy_panels (panels : list panel) (index solar_count : nat)
  : list event * nat :=
  match panels with
  | [] => ([], solar_count)
  | p :: rest =>
      let (ev, solar_count) :=
        match deployable p with
        | ok true =>
            match deploy p with
            | None => ([set_deployed index], solar_count + 1)%nat
            | Some e =>
                ([set_deployed index; say [T "  ⚠ Ошибка с панелью: "; E e]], solar_count)
            end
        | ok false => ([], solar_count)
        | raise e => ([say [T "  ⚠ Ошибка с панелью: "; E e]], solar_count)
        end in
      let (ev', solar_count) := deploy_panels rest (S index) solar_count in
      (ev ++ ev', solar_count)
  end.

(** l.371-389 *)
Definition deployment (w : world) (flight_data_logger : bool) : list event :=
  section "Фаза 4: Развертывание систем"
  ++ [ say [T "5. РАЗВОРАЧИВАЮ СОЛНЕЧНЫЕ ПАНЕЛИ"] ]
  ++ if_recorder flight_data_logger [log_status [T "РАЗВЕРТЫВАНИЕ СОЛНЕЧНЫХ ПАНЕЛЕЙ"]]
  ++ (let (ev, solar_count) := deploy_panels (solar_panels w) 0 0 in
      ev ++ [ if (0 <? solar_count)%nat
              then say [T "  ✓ Развернуто солнечных панелей: "; N (Z.of_nat solar_count)]
              else say [T "  ⚠ Солнечные панели не найдены"] ]).

(** l.392-396 *)
Definition coast_entry (flight_data_logger : bool) : list event :=
  [enter CoastToApoapsis]
  ++ section "Фаза 5: Ожидание апоапсиса"
  ++ [ say [T "6. ОЖИДАНИЕ ВЫСОТЫ ~80 КМ..."] ]
  ++ if_recorder flight_data_logger [log_status [T "ОЖИДАНИЕ АПОАПСИСА 80 КМ"]].

(** l.399-411: the body of [while altitude() < 78000]. *)
Definition coast_body (flight_data_logger : bool)
    (r : coast_reading) (v : locals) : list event * flow locals :=
  let current_time := co_time r in
  let (ev_data, v) := record_step flight_data_logger 1.0 current_time (co_sample r) v in
  let remaining := 78000 - co_altitude_remaining r in
  let ev_report :=
    if remaining <? 5000 then
      let current_fuel := co_fuel r in
      [ say [ T "  До цели: "; F ".1f" (remaining / 1000); T " км | ";
              T "Текущая высота: "; F ".1f" (co_altitude_logged r / 1000); T " км | ";
              T "Топливо: "; F ".1f" current_fuel ] ]
    else [] in
  (ev_data ++ ev_report ++ [sleep 0.5], next v).

(** l.413-442: arriving at altitude, start of the orbital maneuver. *)
Definition burn_entry (w : world) (flight_data_logger : bool) : list event :=
  [ say [T "✓ Высота "; F ".1f" (altitude_reached w / 1000); T " км достигнута"] ]
  ++ [enter CircularizationBurn]
  ++ section "Фаза 6: Орбитальный маневр"
  ++ [ say [T "7. ПОДГОТОВКА К ОРБИТАЛЬНОМУ МАНЕВРУ"] ]
  ++ if_recorder flight_data_logger [log_status [T "НАЧАЛО ОРБИТАЛЬНОГО МАНЕВРА"]]
  ++ [ say [T "  Устанавливаю SAS: Prograde"];
       set_sas true;
       sleep 0.5 ]
  ++ try_sas_mode prograde (sas_prograde w)
       "  ✓ SAS установлен в режим Prograde" "  ⚠ SAS prograde недоступен: "
  ++ [ say [T "  ВКЛЮЧАЮ ДВИГАТЕЛЬ"];
       set_throttle 1.0 ]
  ++ if_recorder flight_data_logger
       [log_status [T "ВКЛЮЧЕНИЕ ДВИГАТЕЛЯ ДЛЯ ОРБИТАЛЬНОГО МАНЕВРА"]]
  ++ [ say [T "  Цель: периапсис 75 км (текущий: ";
            F ".1f" (periapsis_at_burn w / 1000); T " км)"];
       say [T "  Начальный запас топлива: "; F ".1f" (maneuver_start_fuel w)] ].

(** l.449-477: the body of [while periapsis() < 75000]. *)
Definition burn_body (w : world) (flight_data_logger : bool)
    (r : burn_reading) (v : locals) : list event * flow locals :=
  let current_time := bu_time r in
  let (ev_data, v) := record_step flight_data_logger 0.3 current_time (bu_sample r) v in
  let current_fuel := bu_fuel r in
  let current_oxidizer := bu_oxidizer r in
  let current_time := bu_report_time r in
  if (current_fuel <=? 0.1) || (current_oxidizer <=? 0.1) then
    (ev_data ++ [say [T "  ✗ ТОПЛИВО КОНЧИЛОСЬ!"]], break (set_fuel_empty v true))
  else
    let (ev_report, v) :=
      if current_time - last_report v >? 2 then
        let fuel_used := maneuver_start_fuel w - current_fuel in
        let time_elapsed := current_time - maneuver_start_time w in
        let progress :=
          if bu_periapsis_sign r >? 0
          then (bu_periapsis_progress r / 75000) * 100
          else 0 in
        ([ say [ T "  Периапсис: "; F ".1f" (bu_periapsis_logged r / 1000);
                 T " км ("; F ".0f" progress; T "%) | ";
                 T "Топливо: "; F ".1f" current_fuel; T " | ";
                 T "Использовано: "; F ".1f" fuel_used; T " | ";
                 T "Время: "; F ".0f" time_elapsed; T "с" ] ],
         set_last_report v current_time)
      else ([], v) in
    (ev_data ++ ev_report ++ [sleep 0.2], next v).

(** l.479-484: the engine is switched off whichever way the loop ended. *)
Definition shutdown (w : world) (flight_data_logger : bool) : list event :=
  [ set_throttle 0.0;
    say [T "  Двигатель выключен"] ]
  ++ if_recorder flight_data_logger
       [log_status [ T "ЗАВЕРШЕНИЕ МАНЕВРА - ПЕРИАПСИС ";
                     F ".1f" (periapsis_status w / 1000); T " КМ" ]].

(** l.515-535: the analysis of the result, as the lines it logs. *)
Definition analysis (fuel_empty : bool) (final_peri : Q) : list message :=
  if fuel_empty then
    [T "✗ НЕУДАЧА: Топливо закончилось до завершения маневра"]
    :: (if final_peri >? 0 then
          [ [T "  Достигнута высота периапсиса: "; F ".1f" (final_peri / 1000); T " км"];
            [T "  Рекомендация: Увеличить запас топлива или уменьшить целевую орбиту"] ]
        else
          [ [T "  Суборбитальная траектория - периапсис под поверхностью"];
            [T "  Критическая ошибка: недостаточно топлива для выхода на орбиту"] ])
  else if final_peri >=? 70000 then
    [T "✓ УСПЕХ: Орбита достигнута!"]
    :: (if (final_peri >=? 74000) && (final_peri <=? 76000) then
          [ [T "  Отличная точность! Орбита в целевом диапазоне"] ]
        else
          [ [T "  Орбита стабильная, но не идеальная ("; F ".1f" (final_peri / 1000);
             T " км)"] ])
  else if final_peri >? 0 then
    [ [T "⚠ Частичный успех: Субоптимальная орбита"];
      [T "  Периапсис "; F ".1f" (final_peri / 1000); T " км - требует корректировки"] ]
  else
    [ [T "✗ КРИТИЧЕСКАЯ НЕУДАЧА: Суборбитальная траектория"];
      [T "  Ракета упадет на поверхность"];
      [T "  Необходимо полностью пересмотреть конструкцию или профиль полета"] ].

(** l.487-535 *)
Definition summary (w : world) (fuel_empty : bool) : list event :=
  [enter (if fuel_empty then Aborted else MissionSummary)]
  ++ section "Результаты миссии"
  ++ [ say [T "ПАРАМЕТРЫ ОРБИТЫ:"];
       say [T "  Апоапсис: "; F ".2f" (final_apo w / 1000); T " км"];
       say [T "  Периапсис: "; F ".2f" (final_peri w / 1000); T " км"];
       match eccentricity w with
       | ok eccentricity => say [T "  Эксцентриситет: "; F ".4f" eccentricity]
       | raise _ => say [T "  Эксцентриситет: недоступен"]
       end;
       say [T nl; T "ОСТАТОК РЕСУРСОВ:"];
       say [T "  Топливо: "; F ".1f" (final_fuel w)];
       say [T "  Окислитель: "; F ".1f" (final_ox w)];
       say [T nl; T "СТАТИСТИКА ПОЛЕТА:"];
       say [T "  Топливо израсходовано на маневр: ";
            F ".1f" (maneuver_start_fuel w - final_fuel w)];
       say [T "  Общее время маневра: "; F ".1f" (end_time w - maneuver_start_time w); T "с"];
       say [T nl; T "АНАЛИЗ РЕЗУЛЬТАТА:"] ]
  ++ map say (analysis fuel_empty (final_peri w)).

(** l.537-551 *)
Definition finish (flight_data_logger : bool) : list event :=
  if_recorder flight_data_logger
    [ log_status [T "ЗАВЕРШЕНИЕ МИССИИ"];
      recorder_close;
      say data_saved ]
  ++ [ conn_close;
       log [T nl; T (times "=" 50)] false;
       log [T "Лог событий: "; P "ksp.txt"] false;
       log [T "Данные полета: "; P "inf.txt"] false;
       log [T (times "=" 50)] false;
       prompt [T nl; T "Нажмите Enter для завершения..."] ].

(** How [main] returns. *)
Inductive ending : Type :=
| no_connection
| mission_over (fuel_empty : bool).

Definition unassigned : locals :=
  {| last_report := 0; last_data_log := 0; fuel_warnings := 0;
     target_pitch := 0%float; fuel_empty := false |}.

Local Open Scope mission_scope.

Definition gravity_turn_loop (flight_data_logger : bool) :=
  while (fun r => gt_altitude r <? 10000) (gravity_turn_body flight_data_logger).

Definition ascent_loop (flight_data_logger : bool) :=
  while (fun r => as_apoapsis r <? 80000) (ascent_body flight_data_logger).

Definition coast_loop (flight_data_logger : bool) :=
  while (fun r => co_altitude r <? 78000) (coast_body flight_data_logger).

Definition burn_loop (w : world) (flight_data_logger : bool) :=
  while (fun r => bu_periapsis r <? 75000) (burn_body w flight_data_logger).

(** l.271-309: phase 2, up to and including the turn. *)
Definition gravity_turn_phase (w : world) (flight_data_logger : bool) (v : locals)
  : M locals :=
  tell gravity_turn_entry ;;
  let v := set_last_report v (gt_last_report w) in
  let v := set_last_data_log v (gt_last_data_log w) in
  v <- gravity_turn_loop flight_data_logger (gravity_turn w) v ;;
  tell (turn w flight_data_logger) ;;
  ret v.

(** l.312-389: phase 3, engine cut-off and deployment (phase 4). *)
Definition ascent_phase (w : world) (flight_data_logger : bool) (v : locals)
  : M locals :=
  tell ascent_entry ;;
  let v := set_last_report v (as_last_report w) in
  let v := set_fuel_warnings v 0 in
  let v := set_target_pitch v (pitch_snapshot w) in
  v <- ascent_loop flight_data_logger (ascent w) v ;;
  tell (cutoff w flight_data_logger) ;;
  tell (deployment w flight_data_logger) ;;
  ret v.

(** l.392-411: phase 5. *)
Definition coast_phase (w : world) (flight_data_logger : bool) (v : locals)
  : M locals :=
  tell (coast_entry flight_data_logger) ;;
  v <- coast_loop flight_data_logger (coast w) v ;;
  ret v.

(** l.413-484: phase 6, up to and including the engine shutdown. *)
Definition burn_phase (w : world) (flight_data_logger : bool) (v : locals)
  : M locals :=
  tell (burn_entry w flight_data_logger) ;;
  let v := set_last_report v (bu_last_report w) in
  let v := set_fuel_empty v false in
  v <- burn_loop w flight_data_logger (burn w) v ;;
  tell (shutdown w flight_data_logger) ;;
  ret v.

(** l.209-484: from the vessel information to the end of the burn. *)
Definition fly (w : world) (flight_data_logger : bool) : M locals :=
  tell (vessel_info w flight_data_logger) ;;
  tell (ignition w flight_data_logger) ;;
  v <- gravity_turn_phase w flight_data_logger unassigned ;;
  v <- ascent_phase w flight_data_logger v ;;
  v <- coast_phase w flight_data_logger v ;;
  v <- burn_phase w flight_data_logger v ;;
  ret v.

(** [main()] *)
Definition main (w : world) : M ending :=
  tell banner ;;
  tell [say connecting] ;;
  match connect w with
  | Some e => tell (connection_failed e) ;; ret no_connection
  | None =>
      tell [say connected] ;;
      let (ev, flight_data_logger) := recorder_init w in
      tell ev ;;
      v <- fly w flight_data_logger ;;
      tell (summary w (fuel_empty v)) ;;
      tell (finish flight_data_logger) ;;
      ret (mission_over (fuel_empty v))
  end.

Local Close Scope mission_scope.

(** ** Observations on a run *)

Definition is_command (e : event) : bool :=
  match e with
  | set_throttle _ | activate_next_stage | set_sas _ | set_sas_mode _
  | ap_set_reference_frame | ap_engage | ap_target_pitch_and_heading _ _
  | ap_wait | ap_disengage | set_deployed _ | conn_close => true
  | _ => false
  end.

Definition is_recorder_call (e : event) : bool :=
  match e with
  | recorder_new | log_data _ | log_status _ | recorder_close => true
  | _ => false
  end.

Definition is_log (e : event) : bool :=
  match e with
  | log _ _ => true
  | _ => false
  end.

(** The commands sent to the vehicle, the lines of the event log, the calls
    made to the recorder, and the phases entered, each in program order. *)
Definition commands (ev : list event) : list event := filter is_command ev.
Definition logged (ev : list event) : list event := filter is_log ev.
Definition recorder_calls (ev : list event) : list event := filter is_recorder_call ev.

Definition phases (ev : list event) : list phase :=
  flat_map (fun e => match e with enter p => [p] | _ => [] end) ev.

(** ** The decision table of the outcome (section 4.4 of the specification)

    The rows of the table, and for each row the lines that [main] logs. *)

Inductive classification : Type :=
| partial_failure               (* ran dry, periapsis > 0 *)
| critical_failure_ran_dry      (* ran dry, periapsis <= 0 *)
| success_high_precision
| success_acceptable_precision
| partial_success
| critical_failure.

Definition lines (c : classification) (final_peri : Q) : list message :=
  match c with
  | partial_failure =>
      [ [T "✗ НЕУДАЧА: Топливо закончилось до завершения маневра"];
        [T "  Достигнута высота периапсиса: "; F ".1f" (final_peri / 1000); T " км"];
        [T "  Рекомендация: Увеличить запас топлива или уменьшить целевую орбиту"] ]
  | critical_failure_ran_dry =>
      [ [T "✗ НЕУДАЧА: Топливо закончилось до завершения маневра"];
        [T "  Суборбитальная траектория - периапсис под поверхностью"];
        [T "  Критическая ошибка: недостаточно топлива для выхода на орбиту"] ]
  | success_high_precision =>
      [ [T "✓ УСПЕХ: Орбита достигнута!"];
        [T "  Отличная точность! Орбита в целевом диапазоне"] ]
  | success_acceptable_precision =>
      [ [T "✓ УСПЕХ: Орбита достигнута!"];
        [T "  Орбита стабильная, но не идеальная ("; F ".1f" (final_peri / 1000);
         T " км)"] ]
  | partial_success =>
      [ [T "⚠ Частичный успех: Субоптимальная орбита"];
        [T "  Периапсис "; F ".1f" (final_peri / 1000); T " км - требует корректировки"] ]
  | critical_failure =>
      [ [T "✗ КРИТИЧЕСКАЯ НЕУДАЧА: Суборбитальная траектория"];
        [T "  Ракета упадет на поверхность"];
        [T "  Необходимо полностью пересмотреть конструкцию или профиль полета"] ]
  end.

Definition is_success (c : classification) : bool :=
  match c with
  | success_high_precision | success_acceptable_precision => true
  | _ => false
  end.

(** ** Loops, turn by turn *)

(** The events of each turn of a loop body run over [readings], and the state
    it leaves; a turn that ends in [break] is the last. *)
Fixpoint turns {I S : Type} (body : I -> S -> list event * flow S)
    (readings : list I) (s : S) : list (list event) * S :=
  match readings with
  | [] => ([], s)
  | r :: rest =>
      match body r s with
      | (ev, next s') =>
          let (evs, s'') := turns body rest s' in (ev :: evs, s'')
      | (ev, break s') => ([ev], s')
      end
  end.

(** The reading passes the loop test and its turn runs to the bottom. *)
Definition runs {I S : Type} (test : I -> bool)
    (body : I -> S -> list event * flow S) (r : I) : Prop :=
  test r = true /\ forall s, exists ev s', body r s = (ev, next s').

(** The events of turn [k] (none when there is no such turn). *)
Definition turn_events {I S : Type} (body : I -> S -> list event * flow S)
    (readings : list I) (s : S) (k : nat) : list event :=
  nth k (fst (turns body readings s)) [].

(** The index of the first reading strictly below [limit]. *)
Fixpoint first_below (limit : Q) (readings : list Q) : option nat :=
  match readings with
  | [] => None
  | x :: rest => if x <? limit then Some O else option_map S (first_below limit rest)
  end.

Definition is_turn (o : option nat) (k : nat) : bool :=
  match o with
  | Some i => (i =? k)%nat
  | None => false
  end.

(** The turn with the first fuel reading below 100, and the turn with the
    first fuel reading below 50 among the turns after that one. *)
Definition low_fuel_turn (fuels : list Q) : option nat := first_below 100 fuels.

Definition very_low_fuel_turn (fuels : list Q) : option nat :=
  match first_below 100 fuels with
  | None => None
  | Some i => option_map (fun j => (S i + j)%nat) (first_below 50 (skipn (S i) fuels))
  end.

(** The fuel warnings among some events. *)
Definition is_fuel_warning (e : event) : bool :=
  match e with
  | log (T s :: _) _ =>
      String.eqb s "  ⚠ Мало топлива: " || String.eqb s "  ⚠ Очень мало топлива: "
  | _ => false
  end.

Definition warnings (ev : list event) : list event := filter is_fuel_warning ev.

(** The fuel warnings said in turn [k] of the loop of phase 3. *)
Definition turn_warnings (flight_data_logger : bool) (rs : list ascent_reading)
    (v : locals) (k : nat) : list event :=
  warnings (turn_events (ascent_body flight_data_logger) rs v k).

(** The pitch targets commanded by some events, in order. *)
Definition target_pitches (ev : list event) : list float :=
  flat_map (fun e => match e with
                     | ap_target_pitch_and_heading pitch _ => [pitch]
                     | _ => []
                     end) ev.

(** The throttle level in force after some events: the last one set. *)
Definition throttle (ev : list event) : option Q :=
  fold_left (fun level e => match e with
                            | set_throttle x => Some x
                            | _ => level
                            end) ev None.

(** Each element of [l] is the binary64 difference of the one before it and
    0.3, the first that of [start] and 0.3. *)
Fixpoint steps_down (start : float) (l : list float) : Prop :=
  match l with
  | [] => True
  | x :: rest => x = (start - 0.3)%float /\ steps_down x rest
  end.

(** ** Sample inputs *)

Definition still : FlightDataLogger.sample :=
  {| FlightDataLogger.s_time := 0;
     FlightDataLogger.s_altitude := ok 0;
     FlightDataLogger.s_speed := ok 0;
     FlightDataLogger.s_vertical_speed := ok 0;
     FlightDataLogger.s_horizontal_speed := ok 0;
     FlightDataLogger.s_apoapsis := ok 0;
     FlightDataLogger.s_periapsis := ok 0;
     FlightDataLogger.s_pitch := ok 90;
     FlightDataLogger.s_heading := ok 90;
     FlightDataLogger.s_fuel := ok 400;
     FlightDataLogger.s_oxidizer := ok 400 |}.

(** A turn of phase 2 at the given clock and altitude. *)
Definition gravity_turn_at (time altitude : Q) : gravity_turn_reading :=
  {| gt_altitude := altitude; gt_time := time; gt_sample := still;
     gt_fuel := 400; gt_altitude_logged := altitude;
     gt_vertical_speed := 100; gt_horizontal_speed := 0 |}.

(** A turn of phase 3 at the given clock, apoapsis, pitch and fuel. *)
Definition ascent_at (time apoapsis pitch current_fuel : Q) : ascent_reading :=
  {| as_apoapsis := apoapsis; as_time := time; as_sample := still;
     as_pitch := pitch; as_heading := 90; as_pitch_logged := pitch;
     as_current_apo := apoapsis; as_fuel := current_fuel;
     as_report_time := time; as_altitude := 20000 |}.

(** A turn of phase 5 at the given clock and altitude. *)
Definition coast_at (time altitude : Q) : coast_reading :=
  {| co_altitude := altitude; co_time := time; co_sample := still;
     co_altitude_remaining := altitude; co_fuel := 120;
     co_altitude_logged := altitude |}.

(** A turn of phase 6 at the given clock, periapsis, fuel and oxidizer. *)
Definition burn_at (time periapsis current_fuel current_oxidizer : Q) : burn_reading :=
  {| bu_periapsis := periapsis; bu_time := time; bu_sample := still;
     bu_fuel := current_fuel; bu_oxidizer := current_oxidizer;
     bu_report_time := time; bu_periapsis_sign := periapsis;
     bu_periapsis_progress := periapsis; bu_periapsis_logged := periapsis |}.

(** A flight with the given pitch snapshot and readings for the four loops;
    everything else goes well. *)
Definition flight_with (snapshot : float)
    (gt : list gravity_turn_reading) (asc : list ascent_reading)
    (co : list coast_reading) (bu : list burn_reading) : world :=
  {| connect := None;
     recorder := None;
     vessel_name := "Sputnik";
     body_name := "Kerbin";
     initial_fuel := 400; max_fuel := 400; initial_ox := 400; max_ox := 400;
     sas_radial := None;
     gt_last_report := 0; gt_last_data_log := 0;
     gravity_turn := gt;
     altitude_at_turn := 10000;
     as_last_report := 6;
     pitch_snapshot := snapshot;
     ascent := asc;
     apoapsis_reached := 80000;
     apoapsis_status := 80000;
     fuel_after_ascent := 80;
     oxidizer_after_ascent := 80;
     solar_panels := [ {| deployable := ok true; deploy := None |} ];
     coast := co;
     altitude_reached := 78000;
     sas_prograde := None;
     maneuver_start_fuel := 80;
     maneuver_start_time := 13;
     periapsis_at_burn := (-200000);
     bu_last_report := 13;
     burn := bu;
     periapsis_status := 75000;
     final_apo := 80000;
     final_peri := 75000;
     final_fuel := 10;
     final_ox := 10;
     eccentricity := ok 0.004;
     end_time := 19 |}.

Definition to_10_km : list gravity_turn_reading :=
  [gravity_turn_at 1 0; gravity_turn_at 3 5000; gravity_turn_at 5 10000].

Definition to_apoapsis : list ascent_reading :=
  [ascent_at 7 30000 70 150; ascent_at 8 60000 69 90; ascent_at 9 80000 68 80].

Definition to_78_km : list coast_reading :=
  [coast_at 10 40000; coast_at 12 78000].

Definition to_periapsis : list burn_reading :=
  [burn_at 14 (-200000) 70 70; burn_at 16 30000 30 30; burn_at 18 75000 10 10].

(** A flight that goes well: 10 km, apoapsis 80 km, 78 km, periapsis 75 km. *)
Definition flight : world :=
  flight_with 70%float to_10_km to_apoapsis to_78_km to_periapsis.

(** The same inputs with another outcome of the recorder's construction. *)
Definition with_recorder (w : world) (r : option exn) : world :=
  {| connect := connect w;
     recorder := r;
     vessel_name := vessel_name w;
     body_name := body_name w;
     initial_fuel := initial_fuel w; max_fuel := max_fuel w;
     initial_ox := initial_ox w; max_ox := max_ox w;
     sas_radial := sas_radial w;
     gt_last_report := gt_last_report w; gt_last_data_log := gt_last_data_log w;
     gravity_turn := gravity_turn w;
     altitude_at_turn := altitude_at_turn w;
     as_last_report := as_last_report w;
     pitch_snapshot := pitch_snapshot w;
     ascent := ascent w;
     apoapsis_reached := apoapsis_reached w;
     apoapsis_status := apoapsis_status w;
     fuel_after_ascent := fuel_after_ascent w;
     oxidizer_after_ascent := oxidizer_after_ascent w;
     solar_panels := solar_panels w;
     coast := coast w;
     altitude_reached := altitude_reached w;
     sas_prograde := sas_prograde w;
     maneuver_start_fuel := maneuver_start_fuel w;
     maneuver_start_time := maneuver_start_time w;
     periapsis_at_burn := periapsis_at_burn w;
     bu_last_report := bu_last_report w;
     burn := burn w;
     periapsis_status := periapsis_status w;
     final_apo := final_apo w;
     final_peri := final_peri w;
     final_fuel := final_fuel w;
     final_ox := final_ox w;
     eccentricity := eccentricity w;
     end_time := end_time w |}.

(** Fuel readings of phase 3 that fall from 150 to 40 between two turns, and
    readings that cross the two limits one after the other. *)
Definition fuel_jump : list ascent_reading :=
  [ascent_at 7 30000 70 150; ascent_at 8 40000 70 40; ascent_at 9 50000 70 30].

Definition fuel_150_90_40 : list ascent_reading :=
  [ascent_at 7 30000 70 150; ascent_at 8 40000 70 90; ascent_at 9 50000 70 40].

(** The number of turns of phase 3 whose pitch reading is above 15, and a
    count as a number. *)
Definition pitched (rs : list ascent_reading) : nat :=
  length (filter (fun r => as_pitch r >? 15) rs).

Definition Qn (n : nat) : Q := inject_Z (Z.of_nat n).

(** Sixty turns of phase 3 with the pitch read as 16 each time. *)
Definition steep : list ascent_reading := repeat (ascent_at 7 30000 16 150) 60.

(** A flight whose pitch is read as 16 throughout phase 3. *)
Definition steep_flight : world :=
  flight_with 16%float to_10_km (steep ++ [ascent_at 9 80000 16 80]) to_78_km to_periapsis.

(** A flight whose fuel is read as exactly 0.1, then 0.0, during the burn. *)
Definition dry_flight : world :=
  flight_with 70%float to_10_km to_apoapsis to_78_km
    [burn_at 14 (-200000) 70 70; burn_at 16 30000 0.1 30; burn_at 18 40000 0.0 30].

(** The run without the calls made to the recorder. *)
Definition quiet (ev : list event) : list event :=
  filter (fun e => negb (is_recorder_call e)) ev.

(** Local variables that agree on all but [last_data_log], the one variable
    that only the recording step assigns. *)
Definition alike (v1 v2 : locals) : Prop :=
  last_report v1 = last_report v2
  /\ fuel_warnings v1 = fuel_warnings v2
  /\ target_pitch v1 = target_pitch v2
  /\ fuel_empty v1 = fuel_empty v2.

(** Two runs that differ by calls to the recorder only, the second making
    none. *)
Definition same_quiet {A : Type} (R : A -> A -> Prop) (m1 m2 : M A) : Prop :=
  match m1, m2 with
  | Some (ev1, a1), Some (ev2, a2) =>
      quiet ev1 = quiet ev2 /\ recorder_calls ev2 = [] /\ R a1 a2
  | None, None => True
  | _, _ => False
  end.

(** The two kinds of event of the deployment loop. *)
Definition deploys_or_says (e : event) : Prop :=
  match e with
  | set_deployed _ | log _ _ => True
  | _ => False
  end.

(** ** Calls in sequence

    The calls a client makes on a recorder, and on the event logger, one
    after the other.  Each call on the recorder opens the data file to append
    to it, and opening it may raise. *)

Inductive recorder_op : Type :=
| do_log_data (s : FlightDataLogger.sample) (opened : option exn)
| do_log_status (now : string) (status : message) (opened : option exn)
| do_close (time_now : Q) (now : string) (opened : option exn).

(** [with open(self.filename, 'a', encoding='utf-8') as f:], followed by the
    writes, which leave the recorder as [written]. *)
Definition opening {A : Type} (opened : option exn) (written : A) : result A :=
  match opened with
  | None => ok written
  | Some e => raise e
  end.

(** One call.  [log_data] opens the file inside its [try], after the reads
    (l.100-136); [log_status] and [close] have no [try] (l.138-151). *)
Definition perform (self : FlightDataLogger.t) (o : recorder_op)
  : result FlightDataLogger.t :=
  match o with
  | do_log_data s opened =>
      try_except
        (data_line <- FlightDataLogger.data_line self s ;;
         opening opened (FlightDataLogger.append self [FlightDataLogger.joined data_line]))%result
        (fun e => ok (FlightDataLogger.print self [T "Ошибка записи данных: "; E e]))
  | do_log_status now status opened =>
      opening opened (FlightDataLogger.log_status self now status)
  | do_close time_now now opened =>
      opening opened (FlightDataLogger.close self time_now now)
  end.

(** The calls of [ops] in order, up to the first that raises: the recorder as
    that call found it, and the exception. *)
Fixpoint perform_all (self : FlightDataLogger.t) (ops : list recorder_op)
  : FlightDataLogger.t * option exn :=
  match ops with
  | [] => (self, None)
  | o :: rest =>
      match perform self o with
      | ok self' => perform_all self' rest
      | raise e => (self, Some e)
      end
  end.

(** The exception that a call lets through to its caller, if any: a failed
    opening in [log_status] or [close]. *)
Definition let_through (o : recorder_op) : option exn :=
  match o with
  | do_log_data _ _ => None
  | do_log_status _ _ opened | do_close _ _ opened => opened
  end.

(** The calls before the first that lets an exception through, and that
    exception. *)
Fixpoint returned (ops : list recorder_op) : list recorder_op :=
  match ops with
  | [] => []
  | o :: rest =>
      match let_through o with
      | None => o :: returned rest
      | Some _ => []
      end
  end.

Fixpoint first_let_through (ops : list recorder_op) : option exn :=
  match ops with
  | [] => None
  | o :: rest =>
      match let_through o with
      | None => first_let_through rest
      | Some e => Some e
      end
  end.

(** The rows that the samples of [ops] give when every read of a sample
    returns and the file opens, and the exceptions of the samples with a read
    that raises or a file that does not open. *)
Definition recorded_rows (self : FlightDataLogger.t) (ops : list recorder_op)
  : list (list piece) :=
  flat_map (fun o => match o with
                     | do_log_data s None =>
                         match FlightDataLogger.values_of self s with
                         | Some x => [map (FlightDataLogger.cell x) FlightDataLogger.columns]
                         | None => []
                         end
                     | _ => []
                     end) ops.

Definition failed_samples (ops : list recorder_op) : list exn :=
  flat_map (fun o => match o with
                     | do_log_data s opened =>
                         match FlightDataLogger.first_raise (FlightDataLogger.reads s),
                               opened with
                         | Some e, _ => [e]
                         | None, Some e => [e]
                         | None, None => []
                         end
                     | _ => []
                     end) ops.

Inductive logger_op : Type :=
| do_log (now : DualLogger.datetime) (message : string) (show_time : bool)
| do_section (now1 now2 now3 : DualLogger.datetime) (title : string).

Definition write (upper : string -> string) (self : DualLogger.t) (o : logger_op)
  : DualLogger.t :=
  match o with
  | do_log now message show_time => DualLogger.log self now message show_time
  | do_section now1 now2 now3 title => DualLogger.section upper self now1 now2 now3 title
  end.

Definition write_all (upper : string -> string) (self : DualLogger.t)
    (ops : list logger_op) : DualLogger.t :=
  fold_left (write upper) ops self.

(** ** Further observations *)

(** The panels [main] tries to deploy, by index counted from [index]: those
    whose [deployable] reads true.  The panels that end up deployed, and the
    panels on which a read or the deployment raises. *)
Fixpoint attempted (panels : list panel) (index : nat) : list nat :=
  match panels with
  | [] => []
  | p :: rest =>
      match deployable p with
      | ok true => index :: attempted rest (S index)
      | _ => attempted rest (S index)
      end
  end.

Definition deploys (p : panel) : bool :=
  match deployable p, deploy p with
  | ok true, None => true
  | _, _ => false
  end.

Definition panel_fails (p : panel) : bool :=
  match deployable p with
  | raise _ => true
  | ok true => match deploy p with Some _ => true | None => false end
  | ok false => false
  end.

(** The statuses written to the data file, in order. *)
Definition status_calls (ev : list event) : list message :=
  flat_map (fun e => match e with log_status m => [m] | _ => [] end) ev.

(** What a turn of a waiting loop may do, and what a turn of the ascent loop
    may do. *)
Definition waits (e : event) : Prop :=
  match e with
  | log _ _ | sleep _ | log_data _ => True
  | _ => False
  end.

Definition steers (e : event) : Prop :=
  match e with
  | log _ _ | sleep _ | log_data _ | ap_engage | ap_target_pitch_and_heading _ _ => True
  | _ => False
  end.

(** The state a turn leaves. *)
Definition state_of {S : Type} (f : flow S) : S :=
  match f with
  | next s | break s => s
  end.

(** The number of events of a kind. *)
Definition count (p : event -> bool) (ev : list event) : nat := length (filter p ev).

(** A call of [log_data]. *)
Definition is_data (e : event) : bool :=
  match e with
  | log_data _ => true
  | _ => false
  end.

(** Two events that are the same, or are two lines of the event log. *)
Definition same_but_wording (e1 e2 : event) : Prop :=
  e1 = e2 \/ exists m1 m2, e1 = say m1 /\ e2 = say m2.


(** The same inputs with other outcomes of the three reads that [main]
    guards with [try]: the two SAS modes and the eccentricity. *)
Definition with_guarded (w : world) (radial prograde : option exn) (ecc : result Q)
  : world :=
  {| connect := connect w;
     recorder := recorder w;
     vessel_name := vessel_name w;
     body_name := body_name w;
     initial_fuel := initial_fuel w; max_fuel := max_fuel w;
     initial_ox := initial_ox w; max_ox := max_ox w;
     sas_radial := radial;
     gt_last_report := gt_last_report w; gt_last_data_log := gt_last_data_log w;
     gravity_turn := gravity_turn w;
     altitude_at_turn := altitude_at_turn w;
     as_last_report := as_last_report w;
     pitch_snapshot := pitch_snapshot w;
     ascent := ascent w;
     apoapsis_reached := apoapsis_reached w;
     apoapsis_status := apoapsis_status w;
     fuel_after_ascent := fuel_after_ascent w;
     oxidizer_after_ascent := oxidizer_after_ascent w;
     solar_panels := solar_panels w;
     coast := coast w;
     altitude_reached := altitude_reached w;
     sas_prograde := prograde;
     maneuver_start_fuel := maneuver_start_fuel w;
     maneuver_start_time := maneuver_start_time w;
     periapsis_at_burn := periapsis_at_burn w;
     bu_last_report := bu_last_report w;
     burn := burn w;
     periapsis_status := periapsis_status w;
     final_apo := final_apo w;
     final_peri := final_peri w;
     final_fuel := final_fuel w;
     final_ox := final_ox w;
     eccentricity := ecc;
     end_time := end_time w |}.

(** The same inputs when the connection is refused. *)
Definition refused (w : world) (e : exn) : world :=
  {| connect := Some e;
     recorder := recorder w;
     vessel_name := vessel_name w;
     body_name := body_name w;
     initial_fuel := initial_fuel w; max_fuel := max_fuel w;
     initial_ox := initial_ox w; max_ox := max_ox w;
     sas_radial := sas_radial w;
     gt_last_report := gt_last_report w; gt_last_data_log := gt_last_data_log w;
     gravity_turn := gravity_turn w;
     altitude_at_turn := altitude_at_turn w;
     as_last_report := as_last_report w;
     pitch_snapshot := pitch_snapshot w;
     ascent := ascent w;
     apoapsis_reached := apoapsis_reached w;
     apoapsis_status := apoapsis_status w;
     fuel_after_ascent := fuel_after_ascent w;
     oxidizer_after_ascent := oxidizer_after_ascent w;
     solar_panels := solar_panels w;
     coast := coast w;
     altitude_reached := altitude_reached w;
     sas_prograde := sas_prograde w;
     maneuver_start_fuel := maneuver_start_fuel w;
     maneuver_start_time := maneuver_start_time w;
     periapsis_at_burn := periapsis_at_burn w;
     bu_last_report := bu_last_report w;
     burn := burn w;
     periapsis_status := periapsis_status w;
     final_apo := final_apo w;
     final_peri := final_peri w;
     final_fuel := final_fuel w;
     final_ox := final_ox w;
     eccentricity := eccentricity w;
     end_time := end_time w |}.

(** The same inputs with another periapsis read for the report (l.490). *)
Definition with_final_peri (w : world) (p : Q) : world :=
  {| connect := connect w;
     recorder := recorder w;
     vessel_name := vessel_name w;
     body_name := body_name w;
     initial_fuel := initial_fuel w; max_fuel := max_fuel w;
     initial_ox := initial_ox w; max_ox := max_ox w;
     sas_radial := sas_radial w;
     gt_last_report := gt_last_report w; gt_last_data_log := gt_last_data_log w;
     gravity_turn := gravity_turn w;
     altitude_at_turn := altitude_at_turn w;
     as_last_report := as_last_report w;
     pitch_snapshot := pitch_snapshot w;
     ascent := ascent w;
     apoapsis_reached := apoapsis_reached w;
     apoapsis_status := apoapsis_status w;
     fuel_after_ascent := fuel_after_ascent w;
     oxidizer_after_ascent := oxidizer_after_ascent w;
     solar_panels := solar_panels w;
     coast := coast w;
     altitude_reached := altitude_reached w;
     sas_prograde := sas_prograde w;
     maneuver_start_fuel := maneuver_start_fuel w;
     maneuver_start_time := maneuver_start_time w;
     periapsis_at_burn := periapsis_at_burn w;
     bu_last_report := bu_last_report w;
     burn := burn w;
     periapsis_status := periapsis_status w;
     final_apo := final_apo w;
     final_peri := p;
     final_fuel := final_fuel w;
     final_ox := final_ox w;
     eccentricity := eccentricity w;
     end_time := end_time w |}.

(** * Properties *)

(** ** Comparisons *)

Lemma Qltb_lt (x y : Q) : (x <? y) = true <-> x < y.
Proof.
  unfold Qltb. rewrite negb_true_iff, <- not_true_iff_false, Qle_bool_iff.
  split; [apply Qnot_le_lt | apply Qlt_not_le].
Qed.

Lemma Qltb_ge (x y : Q) : (x <? y) = false <-> y <= x.
Proof.
  unfold Qltb. rewrite negb_false_iff. apply Qle_bool_iff.
Qed.

Lemma Qgtb_gt (x y : Q) : (x >? y) = true <-> y < x.
Proof. apply Qltb_lt. Qed.

Lemma Qgtb_le (x y : Q) : (x >? y) = false <-> x <= y.
Proof. apply Qltb_ge. Qed.

Lemma Qgeb_ge (x y : Q) : (x >=? y) = true <-> y <= x.
Proof. apply Qle_bool_iff. Qed.

Lemma Qgeb_lt (x y : Q) : (x >=? y) = false <-> x < y.
Proof.
  unfold Qgeb. rewrite <- not_true_iff_false, Qle_bool_iff.
  split; [apply Qnot_le_lt | apply Qlt_not_le].
Qed.

Lemma Qleb_le (x y : Q) : (x <=? y) = true <-> x <= y.
Proof. apply Qle_bool_iff. Qed.

Lemma Qleb_gt (x y : Q) : (x <=? y) = false <-> y < x.
Proof. apply (Qgeb_lt y x). Qed.

(** Turns every comparison made by the code into the fact it decides. *)
Ltac compare_all :=
  repeat match goal with
  | |- context [?x <? ?y] =>
      let H := fresh "H" in
      destruct (x <? y) eqn:H; [apply Qltb_lt in H | apply Qltb_ge in H]
  | |- context [?x >? ?y] =>
      let H := fresh "H" in
      destruct (x >? y) eqn:H; [apply Qgtb_gt in H | apply Qgtb_le in H]
  | |- context [?x >=? ?y] =>
      let H := fresh "H" in
      destruct (x >=? y) eqn:H; [apply Qgeb_ge in H | apply Qgeb_lt in H]
  | |- context [?x <=? ?y] =>
      let H := fresh "H" in
      destruct (x <=? y) eqn:H; [apply Qleb_le in H | apply Qleb_gt in H]
  end.

(** ** Outcome classification *)

(** C1.  The lines logged by the analysis of the result are those of the row
    of the decision table selected by the pair (fuel_empty, final periapsis):
    ran dry with periapsis > 0, ran dry with periapsis <= 0, success with high
    precision (>= 70000 and within [74000, 76000]), success with acceptable
    precision (>= 70000 otherwise), partial success (0 < p < 70000), critical
    failure (p <= 0).  The row depends on the periapsis only through its
    value, and the table is met at 0, 69999, 70000, 73999, 74000, 76000 and
    76001. *)
Theorem outcome_decision_table (fuel_empty : bool) (p : Q) :
  (fuel_empty = true -> 0 < p -> analysis fuel_empty p = lines partial_failure p) /\
  (fuel_empty = true -> p <= 0 -> analysis fuel_empty p = lines critical_failure_ran_dry p) /\
  (fuel_empty = false -> 70000 <= p -> 74000 <= p <= 76000 ->
     analysis fuel_empty p = lines success_high_precision p) /\
  (fuel_empty = false -> 70000 <= p -> ~ (74000 <= p <= 76000) ->
     analysis fuel_empty p = lines success_acceptable_precision p) /\
  (fuel_empty = false -> 0 < p < 70000 -> analysis fuel_empty p = lines partial_success p) /\
  (fuel_empty = false -> p <= 0 -> analysis fuel_empty p = lines critical_failure p) /\
  (forall (q : Q) (c : classification),
     p == q -> analysis fuel_empty p = lines c p -> analysis fuel_empty q = lines c q) /\
  ( analysis true 0 = lines critical_failure_ran_dry 0 /\
    analysis true 69999 = lines partial_failure 69999 /\
    analysis true 70000 = lines partial_failure 70000 /\
    analysis true 73999 = lines partial_failure 73999 /\
    analysis true 74000 = lines partial_failure 74000 /\
    analysis true 76000 = lines partial_failure 76000 /\
    analysis true 76001 = lines partial_failure 76001 /\
    analysis false 0 = lines critical_failure 0 /\
    analysis false 69999 = lines partial_success 69999 /\
    analysis false 70000 = lines success_acceptable_precision 70000 /\
    analysis false 73999 = lines success_acceptable_precision 73999 /\
    analysis false 74000 = lines success_high_precision 74000 /\
    analysis false 76000 = lines success_high_precision 76000 /\
    analysis false 76001 = lines success_acceptable_precision 76001 ).
Proof.
  repeat apply conj; try reflexivity.
  - intros -> Hp. unfold analysis. compare_all; [reflexivity | lra].
  - intros -> Hp. unfold analysis. compare_all; [lra | reflexivity].
  - intros -> H70 [H74 H76]. unfold analysis.
    compare_all; simpl; try reflexivity; lra.
  - intros -> H70 Hn. unfold analysis.
    compare_all; simpl; try reflexivity; lra.
  - intros -> [H0 H70]. unfold analysis.
    compare_all; simpl; try reflexivity; lra.
  - intros -> H0. unfold analysis.
    compare_all; simpl; try reflexivity; lra.
  - intros q c Hpq.
    assert (Hl : forall k, (q <=? k) = (p <=? k)) by (intros k; now rewrite Hpq).
    assert (Hr : forall k, (k <=? q) = (k <=? p)) by (intros k; now rewrite Hpq).
    unfold analysis, Qgtb, Qgeb, Qltb. rewrite !Hl, !Hr.
    destruct fuel_empty, (p <=? 0), (70000 <=? p), (74000 <=? p), (p <=? 76000), c;
      cbn [negb andb lines]; intros H; try discriminate H; reflexivity.
Qed.

Lemma outcome_decision_table_witness :
  analysis true 1 = lines partial_failure 1
  /\ analysis false 75000 = lines success_high_precision 75000
  /\ analysis false 30000 = lines partial_success 30000.
Proof.
  repeat apply conj.
  - destruct (outcome_decision_table true 1) as (H & _).
    apply H; reflexivity.
  - destruct (outcome_decision_table false 75000) as (_ & _ & H & _).
    apply H; [reflexivity | unfold Qle; simpl; lia |].
    split; unfold Qle; simpl; lia.
  - destruct (outcome_decision_table false 30000) as (_ & _ & _ & _ & H & _).
    apply H; [reflexivity |]. split; reflexivity.
Defined.

(** ** Loops *)

Section While.

Context {I S : Type}.
Variable test : I -> bool.
Variable body : I -> S -> list event * flow S.

(** A loop leaves through its test at the first reading that fails it:
    the turns before are run, the readings after are not looked at. *)
Lemma while_exit (pre : list I) (x : I) (post : list I) (s : S) :
  Forall (runs test body) pre -> test x = false ->
  while test body (pre ++ x :: post) s
    = Some (concat (fst (turns body pre s)), snd (turns body pre s))
  /\ length (fst (turns body pre s)) = length pre.
Proof.
  intros Hpre Hx. revert s.
  induction Hpre as [| r pre [Ht Hb] _ IH]; intros s; simpl.
  - rewrite Hx. split; reflexivity.
  - rewrite Ht. destruct (Hb s) as (ev & s' & ->).
    destruct (IH s') as [-> Hlen].
    destruct (turns body pre s') as [evs s'']. simpl in *.
    split; [reflexivity | now rewrite Hlen].
Qed.

(** A loop leaves through [break] in the first turn that reaches it. *)
Lemma while_break (pre : list I) (x : I) (post : list I) (s : S) :
  Forall (runs test body) pre -> test x = true ->
  (forall s, exists ev s', body x s = (ev, break s')) ->
  while test body (pre ++ x :: post) s
    = Some (concat (fst (turns body (pre ++ [x]) s)), snd (turns body (pre ++ [x]) s))
  /\ length (fst (turns body (pre ++ [x]) s)) = Datatypes.S (length pre).
Proof.
  intros Hpre Hx Hbreak. revert s.
  induction Hpre as [| r pre [Ht Hb] _ IH]; intros s; simpl.
  - rewrite Hx. destruct (Hbreak s) as (ev & s' & ->). simpl.
    rewrite app_nil_r. split; reflexivity.
  - rewrite Ht. destruct (Hb s) as (ev & s' & ->).
    destruct (IH s') as [-> Hlen].
    destruct (turns body (pre ++ [x]) s') as [evs s'']. simpl in *.
    split; [reflexivity | now rewrite Hlen].
Qed.

(** The events of a loop are those of its turns, one after the other. *)
Lemma while_turns (readings : list I) (s : S) (ev : list event) (s' : S) :
  while test body readings s = Some (ev, s') ->
  exists n, ev = concat (fst (turns body (firstn n readings) s))
            /\ s' = snd (turns body (firstn n readings) s).
Proof.
  revert s ev s'. induction readings as [| r rest IH]; intros s ev s'; simpl.
  - discriminate.
  - destruct (test r).
    + destruct (body r s) as [ev1 [s1 | s1]] eqn:Hb.
      * destruct (while test body rest s1) as [[ev2 s2] |] eqn:Hw; [| discriminate].
        intros [= <- <-]. destruct (IH _ _ _ Hw) as (n & -> & ->).
        exists (Datatypes.S n). simpl. rewrite Hb.
        destruct (turns body (firstn n rest) s1). split; reflexivity.
      * intros [= <- <-]. exists 1%nat. simpl. rewrite Hb. simpl.
        rewrite app_nil_r. split; reflexivity.
    + intros [= <- <-]. exists 0%nat. split; reflexivity.
Qed.

End While.

(** ** The loop bodies *)

Arguments Qltb : simpl never.
Arguments Qgtb : simpl never.
Arguments Qgeb : simpl never.
Arguments Qle_bool : simpl never.
Arguments Qminus : simpl never.
Arguments Qplus : simpl never.
Arguments Qmult : simpl never.
Arguments Qdiv : simpl never.
Arguments times : simpl never.

(** Decides the outermost test of a block, then the next one. *)
Ltac decide_tests :=
  repeat (match goal with
          | |- context [match (if ?b then _ else _) with _ => _ end] =>
              destruct b eqn:?
          end; simpl).

Lemma ascent_body_turn (flight_data_logger : bool) (r : ascent_reading) (v : locals) :
  exists ev v',
    ascent_body flight_data_logger r v = (ev, next v')
    /\ warnings ev = warnings (fst (fuel_warning (as_fuel r) v))
    /\ fuel_warnings v' = fuel_warnings (snd (fuel_warning (as_fuel r) v))
    /\ commands ev = commands (fst (pitch_step r v))
    /\ target_pitches ev = target_pitches (fst (pitch_step r v))
    /\ target_pitch v' = target_pitch (snd (pitch_step r v)).
Proof.
  unfold ascent_body, record_step, pitch_step, fuel_warning.
  decide_tests; do 2 eexists; repeat apply conj; reflexivity.
Qed.

Lemma ascent_body_runs (flight_data_logger : bool) (r : ascent_reading) :
  as_apoapsis r < 80000 ->
  runs (fun r => as_apoapsis r <? 80000) (ascent_body flight_data_logger) r.
Proof.
  intros H. split; [now apply Qltb_lt |].
  intros v. destruct (ascent_body_turn flight_data_logger r v) as (ev & v' & -> & _).
  now exists ev, v'.
Qed.

(** ** Fuel warnings *)

Section FuelWarnings.

Variable flight_data_logger : bool.

Lemma turn_cons (r : ascent_reading) (rs : list ascent_reading) (v : locals) :
  exists ev v',
    ascent_body flight_data_logger r v = (ev, next v')
    /\ turn_warnings flight_data_logger (r :: rs) v 0 = warnings ev
    /\ forall k, turn_warnings flight_data_logger (r :: rs) v (S k) = turn_warnings flight_data_logger rs v' k.
Proof.
  destruct (ascent_body_turn flight_data_logger r v) as (ev & v' & Hb & _).
  exists ev, v'. unfold turn_warnings, turn_events. simpl. rewrite Hb.
  destruct (turns (ascent_body flight_data_logger) rs v') as [evs v''].
  repeat split.
Qed.

(** Once both warnings are out, nothing more is said. *)
Lemma warnings_spent (rs : list ascent_reading) (v : locals) (k : nat) :
  (2 <= fuel_warnings v)%nat -> turn_warnings flight_data_logger rs v k = [].
Proof.
  revert v k. induction rs as [| r rs IH]; intros v k Hv.
  - unfold turn_warnings, turn_events. simpl. now destruct k.
  - destruct (turn_cons r rs v) as (ev & v' & Hb & H0 & HS).
    destruct (ascent_body_turn flight_data_logger r v)
      as (ev1 & v1 & Hb1 & Hw & Hfw & _).
    rewrite Hb in Hb1. injection Hb1 as <- <-.
    assert (Hno : fuel_warning (as_fuel r) v = ([], v)).
    { unfold fuel_warning.
      destruct (fuel_warnings v) as [| [| n]]; [lia | lia |].
      simpl. now rewrite !andb_false_r. }
    rewrite Hno in Hw, Hfw. simpl in Hw, Hfw.
    destruct k as [| k].
    + now rewrite H0.
    + rewrite HS. apply IH. lia.
Qed.

(** After the first warning, the second one is said on the first reading
    below 50. *)
Lemma warnings_second (rs : list ascent_reading) (v : locals) (k : nat) :
  fuel_warnings v = 1%nat ->
  turn_warnings flight_data_logger rs v k =
    if is_turn (first_below 50 (map as_fuel rs)) k
    then [say (very_low_fuel (nth k (map as_fuel rs) 0))]
    else [].
Proof.
  revert v k. induction rs as [| r rs IH]; intros v k Hv.
  - unfold turn_warnings, turn_events. simpl. now destruct k.
  - destruct (turn_cons r rs v) as (ev & v' & Hb & H0 & HS).
    destruct (ascent_body_turn flight_data_logger r v)
      as (ev1 & v1 & Hb1 & Hw & Hfw & _).
    rewrite Hb in Hb1. injection Hb1 as <- <-.
    unfold fuel_warning in Hw, Hfw. rewrite Hv in Hw, Hfw.
    simpl in Hw, Hfw. rewrite andb_false_r, andb_true_r in Hw, Hfw.
    simpl. destruct (as_fuel r <? 50) eqn:H50; simpl in *.
    + destruct k as [| k]; simpl.
      * now rewrite H0.
      * rewrite HS. apply warnings_spent. lia.
    + destruct k as [| k]; simpl.
      * rewrite H0, Hw. now destruct (first_below 50 (map as_fuel rs)).
      * rewrite Hv in Hfw. rewrite HS, (IH v' k Hfw).
        now destruct (first_below 50 (map as_fuel rs)).
Qed.

End FuelWarnings.

Lemma is_turn_later (o : option nat) (k : nat) :
  is_turn (option_map S o) (S k) = is_turn o k.
Proof. now destruct o. Qed.

Lemma is_turn_not_first (o : option nat) : is_turn (option_map S o) 0 = false.
Proof. now destruct o. Qed.

Lemma very_low_fuel_turn_later (x : Q) (fuels : list Q) :
  (x <? 100) = false ->
  very_low_fuel_turn (x :: fuels) = option_map S (very_low_fuel_turn fuels).
Proof.
  intros Hx. unfold very_low_fuel_turn. cbn [first_below]. rewrite Hx.
  destruct (first_below 100 fuels) as [i |]; cbn [option_map]; [| reflexivity].
  change (skipn (S (S i)) (x :: fuels)) with (skipn (S i) fuels).
  generalize (first_below 50 (skipn (S i) fuels)). intros [n |]; reflexivity.
Qed.

(** Before the first warning: it is said on the first reading below 100, the
    second one on the first reading below 50 of a later turn. *)
Lemma warnings_first (flight_data_logger : bool) (rs : list ascent_reading)
    (v : locals) (k : nat) :
  fuel_warnings v = 0%nat ->
  turn_warnings flight_data_logger rs v k =
    if is_turn (low_fuel_turn (map as_fuel rs)) k
    then [say (low_fuel (nth k (map as_fuel rs) 0))]
    else if is_turn (very_low_fuel_turn (map as_fuel rs)) k
    then [say (very_low_fuel (nth k (map as_fuel rs) 0))]
    else [].
Proof.
  revert v k. induction rs as [| r rs IH]; intros v k Hv.
  - unfold turn_warnings, turn_events. simpl. now destruct k.
  - destruct (turn_cons flight_data_logger r rs v) as (ev & v' & Hb & H0 & HS).
    destruct (ascent_body_turn flight_data_logger r v)
      as (ev1 & v1 & Hb1 & Hw & Hfw & _).
    rewrite Hb in Hb1. injection Hb1 as <- <-.
    unfold fuel_warning in Hw, Hfw. rewrite Hv in Hw, Hfw.
    simpl in Hw, Hfw. rewrite andb_false_r, andb_true_r in Hw, Hfw.
    unfold low_fuel_turn. cbn [map first_below].
    destruct (as_fuel r <? 100) eqn:H100; simpl in Hw, Hfw; rewrite ?Hv in Hfw.
    + destruct k as [| k].
      * now rewrite H0.
      * rewrite HS, (warnings_second flight_data_logger rs v' k Hfw).
        unfold very_low_fuel_turn. cbn [first_below]. rewrite H100.
        cbn [is_turn Nat.eqb skipn nth]. now rewrite is_turn_later.
    + rewrite (very_low_fuel_turn_later _ _ H100).
      destruct k as [| k].
      * now rewrite H0, Hw, !is_turn_not_first.
      * rewrite HS, (IH v' k Hfw), !is_turn_later. reflexivity.
Qed.


Lemma warnings_app (ev1 ev2 : list event) :
  warnings (ev1 ++ ev2) = warnings ev1 ++ warnings ev2.
Proof. apply filter_app. Qed.

(** The warnings of a whole run of turns. *)
Lemma run_cons (flight_data_logger : bool) (r : ascent_reading)
    (rs : list ascent_reading) (v : locals) :
  exists ev v',
    ascent_body flight_data_logger r v = (ev, next v')
    /\ warnings (concat (fst (turns (ascent_body flight_data_logger) (r :: rs) v)))
       = warnings ev
           ++ warnings (concat (fst (turns (ascent_body flight_data_logger) rs v'))).
Proof.
  destruct (ascent_body_turn flight_data_logger r v) as (ev & v' & Hb & _).
  exists ev, v'. split; [exact Hb |]. simpl. rewrite Hb.
  destruct (turns (ascent_body flight_data_logger) rs v') as [evs v''].
  simpl. apply warnings_app.
Qed.

Lemma run_spent (flight_data_logger : bool) (rs : list ascent_reading) (v : locals) :
  (2 <= fuel_warnings v)%nat ->
  warnings (concat (fst (turns (ascent_body flight_data_logger) rs v))) = [].
Proof.
  revert v. induction rs as [| r rs IH]; intros v Hv; [reflexivity |].
  destruct (run_cons flight_data_logger r rs v) as (ev & v' & Hb & ->).
  destruct (ascent_body_turn flight_data_logger r v)
    as (ev1 & v1 & Hb1 & Hw & Hfw & _).
  rewrite Hb in Hb1. injection Hb1 as <- <-.
  assert (Hno : fuel_warning (as_fuel r) v = ([], v)).
  { unfold fuel_warning.
    destruct (fuel_warnings v) as [| [| n]]; [lia | lia |].
    simpl. now rewrite !andb_false_r. }
  rewrite Hno in Hw, Hfw. simpl in Hw, Hfw.
  rewrite Hw, IH by lia. reflexivity.
Qed.

Lemma run_second (flight_data_logger : bool) (rs : list ascent_reading) (v : locals) :
  fuel_warnings v = 1%nat ->
  warnings (concat (fst (turns (ascent_body flight_data_logger) rs v))) =
    match first_below 50 (map as_fuel rs) with
    | Some j => [say (very_low_fuel (nth j (map as_fuel rs) 0))]
    | None => []
    end.
Proof.
  revert v. induction rs as [| r rs IH]; intros v Hv; [reflexivity |].
  destruct (run_cons flight_data_logger r rs v) as (ev & v' & Hb & ->).
  destruct (ascent_body_turn flight_data_logger r v)
    as (ev1 & v1 & Hb1 & Hw & Hfw & _).
  rewrite Hb in Hb1. injection Hb1 as <- <-.
  unfold fuel_warning in Hw, Hfw. rewrite Hv in Hw, Hfw.
  simpl in Hw, Hfw. rewrite andb_false_r, andb_true_r in Hw, Hfw.
  cbn [map first_below].
  destruct (as_fuel r <? 50) eqn:H50; simpl in Hw, Hfw; rewrite ?Hv in Hfw.
  - rewrite Hw, run_spent by lia. reflexivity.
  - rewrite Hw, (IH v' Hfw).
    now destruct (first_below 50 (map as_fuel rs)).
Qed.

Lemma run_first (flight_data_logger : bool) (rs : list ascent_reading) (v : locals) :
  fuel_warnings v = 0%nat ->
  warnings (concat (fst (turns (ascent_body flight_data_logger) rs v))) =
    match low_fuel_turn (map as_fuel rs) with
    | None => []
    | Some i =>
        say (low_fuel (nth i (map as_fuel rs) 0))
        :: match very_low_fuel_turn (map as_fuel rs) with
           | None => []
           | Some j => [say (very_low_fuel (nth j (map as_fuel rs) 0))]
           end
    end.
Proof.
  revert v. induction rs as [| r rs IH]; intros v Hv; [reflexivity |].
  destruct (run_cons flight_data_logger r rs v) as (ev & v' & Hb & ->).
  destruct (ascent_body_turn flight_data_logger r v)
    as (ev1 & v1 & Hb1 & Hw & Hfw & _).
  rewrite Hb in Hb1. injection Hb1 as <- <-.
  unfold fuel_warning in Hw, Hfw. rewrite Hv in Hw, Hfw.
  simpl in Hw, Hfw. rewrite andb_false_r, andb_true_r in Hw, Hfw.
  unfold low_fuel_turn. cbn [map first_below].
  destruct (as_fuel r <? 100) eqn:H100; simpl in Hw, Hfw; rewrite ?Hv in Hfw.
  - rewrite Hw, (run_second flight_data_logger rs v' Hfw).
    unfold very_low_fuel_turn. cbn [first_below]. rewrite H100.
    cbn [skipn nth app].
    now destruct (first_below 50 (map as_fuel rs)).
  - rewrite Hw, (IH v' Hfw), (very_low_fuel_turn_later _ _ H100).
    unfold low_fuel_turn.
    destruct (first_below 100 (map as_fuel rs)) as [i |]; [| reflexivity].
    cbn [option_map nth app].
    now destruct (very_low_fuel_turn (map as_fuel rs)).
Qed.

(** C2, amended.  In the loop of the powered ascent, entered with no warning
    said yet, the loop runs one turn per apoapsis reading below 80000 and
    the low-fuel warning is said at most once, in the turn of the first fuel
    reading strictly below 100; the stronger warning is said at most once, in
    the turn of the first fuel reading strictly below 50 among the turns
    after the one of the low-fuel warning; no other turn says a warning.  Fed
    the fuel readings 150, 90, 40 the loop says exactly the two warnings, in
    that order. *)
Theorem fuel_warnings_edge_triggered
    (flight_data_logger : bool) (pre : list ascent_reading) (x : ascent_reading)
    (post : list ascent_reading) (v : locals) :
  fuel_warnings v = 0%nat ->
  Forall (fun r => as_apoapsis r < 80000) pre ->
  80000 <= as_apoapsis x ->
  (exists v',
     ascent_loop flight_data_logger (pre ++ x :: post) v
       = Some (concat (fst (turns (ascent_body flight_data_logger) pre v)), v'))
  /\ length (fst (turns (ascent_body flight_data_logger) pre v)) = length pre
  /\ (forall k,
        turn_warnings flight_data_logger pre v k =
          if is_turn (low_fuel_turn (map as_fuel pre)) k
          then [say (low_fuel (nth k (map as_fuel pre) 0))]
          else if is_turn (very_low_fuel_turn (map as_fuel pre)) k
          then [say (very_low_fuel (nth k (map as_fuel pre) 0))]
          else [])
  /\ warnings (concat (fst (turns (ascent_body flight_data_logger) pre v))) =
       match low_fuel_turn (map as_fuel pre) with
       | None => []
       | Some i =>
           say (low_fuel (nth i (map as_fuel pre) 0))
           :: match very_low_fuel_turn (map as_fuel pre) with
              | None => []
              | Some j => [say (very_low_fuel (nth j (map as_fuel pre) 0))]
              end
       end
  /\ (map as_fuel pre = [150; 90; 40] ->
      warnings (concat (fst (turns (ascent_body flight_data_logger) pre v)))
        = [say (low_fuel 90); say (very_low_fuel 40)]).
Proof.
  intros Hv Hpre Hx.
  assert (Hruns : Forall (runs (fun r => as_apoapsis r <? 80000)
                               (ascent_body flight_data_logger)) pre).
  { eapply Forall_impl; [| exact Hpre].
    intros r Hr. now apply ascent_body_runs. }
  assert (Hexit : (as_apoapsis x <? 80000) = false) by now apply Qltb_ge.
  destruct (while_exit _ _ pre x post v Hruns Hexit) as [Hloop Hlen].
  repeat apply conj.
  - eexists. exact Hloop.
  - exact Hlen.
  - intros k. now apply warnings_first.
  - now apply run_first.
  - intros Hfuels. rewrite (run_first flight_data_logger pre v Hv), Hfuels.
    reflexivity.
Qed.

Lemma fuel_warnings_edge_triggered_witness :
  warnings (concat (fst (turns (ascent_body true) fuel_150_90_40
                           (set_fuel_warnings unassigned 0))))
    = [say (low_fuel 90); say (very_low_fuel 40)].
Proof.
  destruct (fuel_warnings_edge_triggered true fuel_150_90_40
              (ascent_at 10 80000 70 40) [] (set_fuel_warnings unassigned 0))
    as (_ & _ & _ & _ & H).
  - reflexivity.
  - repeat constructor.
  - unfold Qle; simpl; lia.
  - apply H. reflexivity.
Defined.

(** C2 as stated fails: when the fuel readings are 150, 40, 30 the first
    reading below 50 is the one of turn 1, yet turn 1 says the low-fuel
    warning only and the stronger warning is said in turn 2. *)
Lemma very_low_fuel_warning_after_jump :
  first_below 50 (map as_fuel fuel_jump) = Some 1%nat
  /\ turn_warnings true fuel_jump (set_fuel_warnings unassigned 0) 1
       = [say (low_fuel 40)]
  /\ turn_warnings true fuel_jump (set_fuel_warnings unassigned 0) 2
       = [say (very_low_fuel 30)].
Proof. repeat apply conj; reflexivity. Qed.

(** ** The pitch programme *)

Lemma target_pitches_app (ev1 ev2 : list event) :
  target_pitches (ev1 ++ ev2) = target_pitches ev1 ++ target_pitches ev2.
Proof. apply flat_map_app. Qed.

(** What one turn does to the pitch target. *)
Lemma pitch_step_turn (flight_data_logger : bool) (r : ascent_reading) (v : locals) :
  exists ev v',
    ascent_body flight_data_logger r v = (ev, next v')
    /\ (15 < as_pitch r ->
        target_pitch v' = (target_pitch v - 0.3)%float
        /\ commands ev = [ap_engage;
                          ap_target_pitch_and_heading (target_pitch v') (as_heading r)]
        /\ target_pitches ev = [target_pitch v'])
    /\ (as_pitch r <= 15 ->
        target_pitch v' = target_pitch v
        /\ commands ev = []
        /\ target_pitches ev = []).
Proof.
  destruct (ascent_body_turn flight_data_logger r v)
    as (ev & v' & Hb & _ & _ & Hc & Ht & Hp).
  exists ev, v'. split; [exact Hb |].
  unfold pitch_step in Hc, Ht, Hp.
  split; intros H.
  - apply Qgtb_gt in H. rewrite H in Hc, Ht, Hp.
    cbn [fst snd commands filter is_command say target_pitches flat_map app
         target_pitch set_target_pitch] in Hc, Ht, Hp.
    rewrite Hp. repeat split; assumption.
  - apply Qgtb_le in H. rewrite H in Hc, Ht, Hp.
    cbn [fst snd commands filter target_pitches flat_map] in Hc, Ht, Hp.
    repeat split; assumption.
Qed.

Lemma turns_steps_down (flight_data_logger : bool) (rs : list ascent_reading)
    (v : locals) :
  steps_down (target_pitch v)
    (target_pitches (concat (fst (turns (ascent_body flight_data_logger) rs v)))).
Proof.
  revert v. induction rs as [| r rs IH]; intros v; simpl; [exact I |].
  destruct (pitch_step_turn flight_data_logger r v) as (ev & v' & -> & Hup & Hdown).
  specialize (IH v').
  destruct (turns (ascent_body flight_data_logger) rs v') as [evs v'']. simpl in *.
  rewrite target_pitches_app.
  destruct (Qlt_le_dec 15 (as_pitch r)) as [H | H].
  - destruct (Hup H) as (Hp & _ & ->). simpl. split; [exact Hp | exact IH].
  - destruct (Hdown H) as (Hp & _ & ->). simpl. now rewrite <- Hp.
Qed.

Lemma target_pitches_deploy_panels (ps : list panel) (i n : nat) :
  target_pitches (fst (deploy_panels ps i n)) = [].
Proof.
  revert i n. induction ps as [| p ps IH]; intros i n; simpl; [reflexivity |].
  destruct (deployable p) as [[|] | e]; [destruct (deploy p) |..];
    match goal with
    | |- context [deploy_panels ps ?i ?n] =>
        specialize (IH i n); destruct (deploy_panels ps i n)
    end; simpl in *; exact IH.
Qed.

Lemma target_pitches_cutoff (w : world) (b : bool) : target_pitches (cutoff w b) = [].
Proof. now destruct b. Qed.

Lemma target_pitches_deployment (w : world) (b : bool) :
  target_pitches (deployment w b) = [].
Proof.
  unfold deployment. rewrite !target_pitches_app.
  pose proof (target_pitches_deploy_panels (solar_panels w) 0 0) as H.
  destruct (deploy_panels (solar_panels w) 0 0) as [ev n]. simpl in H.
  rewrite target_pitches_app, H. now destruct b, (0 <? n)%nat.
Qed.

(** The targets commanded in phase 3 are those of the turns of its loop,
    which is entered with the pitch read at l.317. *)
Lemma ascent_phase_turns (w : world) (flight_data_logger : bool) (v0 : locals)
    (ev : list event) (v' : locals) :
  ascent_phase w flight_data_logger v0 = Some (ev, v') ->
  exists n,
    target_pitches ev
    = target_pitches
        (concat (fst (turns (ascent_body flight_data_logger) (firstn n (ascent w))
                        (set_target_pitch
                           (set_fuel_warnings (set_last_report v0 (as_last_report w)) 0)
                           (pitch_snapshot w))))).
Proof.
  unfold ascent_phase, ascent_loop. cbn [bind tell ret].
  destruct (while _ _ (ascent w) _) as [[e2 v2] |] eqn:Hloop; [| discriminate].
  cbn [bind tell ret]. intros H.
  assert (Hev := f_equal (fun o => match o with Some (x, _) => x | None => [] end) H).
  cbv beta iota in Hev. subst ev.
  destruct (while_turns _ _ _ _ _ _ Hloop) as (n & -> & _). exists n.
  rewrite !target_pitches_app, target_pitches_cutoff, target_pitches_deployment.
  cbn [target_pitches flat_map ascent_entry section app].
  now rewrite !app_nil_r.
Qed.

(** C5, amended.  In a turn of the powered-ascent loop whose pitch reading
    exceeds 15 the variable [target_pitch] is set to the binary64 difference
    [target_pitch - 0.3] and that value is commanded through the autopilot
    (engage, then target pitch and heading); in a turn whose pitch reading is
    at most 15 [target_pitch] is unchanged and the turn sends no command at
    all.  Over any run of turns each commanded pitch is the binary64
    difference of the one commanded before it in the loop and 0.3, and the
    first is that of the value the loop was entered with, which in phase 3 is
    the pitch read at l.317, not the target commanded in the turn of
    phase 2. *)
Theorem pitch_lowered_by_fixed_decrement
    (w : world) (flight_data_logger : bool) (r : ascent_reading) (v : locals) :
  (exists ev v',
     ascent_body flight_data_logger r v = (ev, next v')
     /\ (15 < as_pitch r ->
         target_pitch v' = (target_pitch v - 0.3)%float
         /\ commands ev = [ap_engage;
                           ap_target_pitch_and_heading (target_pitch v') (as_heading r)])
     /\ (as_pitch r <= 15 ->
         target_pitch v' = target_pitch v /\ commands ev = []))
  /\ (forall rs : list ascent_reading,
        steps_down (target_pitch v)
          (target_pitches (concat (fst (turns (ascent_body flight_data_logger) rs v)))))
  /\ (forall ev v',
        ascent_phase w flight_data_logger v = Some (ev, v') ->
        steps_down (pitch_snapshot w) (target_pitches ev)).
Proof.
  split; [| split].
  - destruct (pitch_step_turn flight_data_logger r v) as (ev & v' & Hb & Hup & Hdown).
    exists ev, v'. repeat split.
    + exact Hb.
    + now destruct (Hup H).
    + now destruct (Hup H) as (_ & ? & _).
    + now destruct (Hdown H).
    + now destruct (Hdown H) as (_ & ? & _).
  - intros rs. apply turns_steps_down.
  - intros ev v' Hrun.
    destruct (ascent_phase_turns w flight_data_logger v ev v' Hrun) as (n & ->).
    exact (turns_steps_down flight_data_logger (firstn n (ascent w))
             (set_target_pitch
                (set_fuel_warnings (set_last_report v (as_last_report w)) 0)
                (pitch_snapshot w))).
Qed.

Lemma pitch_lowered_by_fixed_decrement_witness :
  exists ev v',
    ascent_body true (ascent_at 7 30000 70 150) (set_target_pitch unassigned 70)
      = (ev, next v')
    /\ target_pitch v' = (70 - 0.3)%float
    /\ commands ev = [ap_engage; ap_target_pitch_and_heading (target_pitch v') 90].
Proof.
  destruct (pitch_lowered_by_fixed_decrement flight true (ascent_at 7 30000 70 150)
              (set_target_pitch unassigned 70)) as ((ev & v' & Hb & Hup & _) & _).
  exists ev, v'. split; [exact Hb |]. apply Hup. reflexivity.
Defined.

(** C5 as stated fails twice on the flight whose pitch is read as 16
    throughout phase 3.  The target commanded before the loop is the 70 of
    the turn, and the first target of the loop is not 0.3 below it but 0.3
    below the pitch read at l.317.  And the decrement is a binary64
    subtraction: the second target of the loop is not the binary64 value of
    15.4, which is what 0.3 less than the first, 15.7, would be. *)
Lemma ascent_targets_start_from_the_reading :
  exists ev,
    main steep_flight = Some (ev, mission_over false)
    /\ firstn 3 (target_pitches ev) = [70; 16 - 0.3; 16 - 0.3 - 0.3]%float
    /\ (16 - 0.3)%float <> (70 - 0.3)%float
    /\ (16 - 0.3)%float = 15.7%float
    /\ (16 - 0.3 - 0.3)%float <> 15.4%float.
Proof.
  eexists. split; [vm_compute; reflexivity |].
  split; [vm_compute; reflexivity |].
  split; [vm_compute; discriminate |].
  split; [vm_compute; reflexivity |].
  vm_compute; discriminate.
Qed.

(** The target after a run of turns, and the targets commanded on the way. *)
Lemma turns_target_pitch (flight_data_logger : bool) (rs : list ascent_reading)
    (v : locals) :
  target_pitch (snd (turns (ascent_body flight_data_logger) rs v))
    = Nat.iter (pitched rs) (fun t => (t - 0.3)%float) (target_pitch v)
  /\ length (target_pitches (concat (fst (turns (ascent_body flight_data_logger) rs v))))
     = pitched rs
  /\ forall i, (i < pitched rs)%nat ->
       nth i (target_pitches (concat (fst (turns (ascent_body flight_data_logger) rs v))))
         0%float
       = Nat.iter (S i) (fun t => (t - 0.3)%float) (target_pitch v).
Proof.
  revert v. induction rs as [| r rs IH]; intros v.
  - cbn [turns fst snd concat target_pitches flat_map length].
    change (pitched []) with 0%nat. repeat split. intros i Hi. lia.
  - simpl turns.
    destruct (pitch_step_turn flight_data_logger r v) as (ev & v' & -> & Hup & Hdown).
    destruct (IH v') as (IHp & IHl & IHn).
    destruct (turns (ascent_body flight_data_logger) rs v') as [evs v''].
    cbn [fst snd concat] in *. rewrite target_pitches_app.
    unfold pitched in *. cbn [filter].
    destruct (Qlt_le_dec 15 (as_pitch r)) as [H | H].
    + destruct (Hup H) as (Hp & _ & ->). apply Qgtb_gt in H. rewrite H.
      cbn [length app]. repeat split.
      * rewrite IHp, Hp. symmetry.
        exact (Nat.iter_succ_r _ float (fun t => (t - 0.3)%float) (target_pitch v)).
      * now rewrite IHl.
      * intros [| i] Hi; cbn [nth].
        -- exact Hp.
        -- rewrite IHn by lia. rewrite Hp. symmetry.
           exact (Nat.iter_succ_r (S i) float (fun t => (t - 0.3)%float)
                    (target_pitch v)).
    + destruct (Hdown H) as (Hp & _ & ->). apply Qgtb_le in H. rewrite H.
      cbn [app]. rewrite <- Hp. repeat split; assumption.
Qed.

Lemma pitched_all (rs : list ascent_reading) :
  Forall (fun r => 15 < as_pitch r) rs -> pitched rs = length rs.
Proof.
  unfold pitched. induction 1 as [| r rs H _ IH]; simpl; [reflexivity |].
  apply Qgtb_gt in H. rewrite H. simpl. now rewrite IH.
Qed.

(** C10, amended.  In the powered-ascent phase the target pitch starts from
    the one pitch reading taken before the loop and is never set from a
    reading again: after the loop it is the result of subtracting 0.3 in
    binary64, n times over, from that snapshot, n being the number of turns
    whose pitch reading exceeded 15; the phase commands exactly n targets,
    the i-th being the result of i such subtractions; and no turn compares
    the target with a limit, so when every pitch reading stays above 15
    there is one subtraction for each turn of the loop, whatever the target
    has become. *)
Theorem commanded_pitch_is_open_loop
    (w : world) (flight_data_logger : bool) (v0 : locals)
    (pre : list ascent_reading) (x : ascent_reading) (post : list ascent_reading) :
  ascent w = pre ++ x :: post ->
  Forall (fun r => as_apoapsis r < 80000) pre ->
  80000 <= as_apoapsis x ->
  exists ev v',
    ascent_phase w flight_data_logger v0 = Some (ev, v')
    /\ target_pitch v'
       = Nat.iter (pitched pre) (fun t => (t - 0.3)%float) (pitch_snapshot w)
    /\ length (target_pitches ev) = pitched pre
    /\ (forall i, (i < pitched pre)%nat ->
          nth i (target_pitches ev) 0%float
          = Nat.iter (S i) (fun t => (t - 0.3)%float) (pitch_snapshot w))
    /\ (Forall (fun r => 15 < as_pitch r) pre ->
        target_pitch v'
        = Nat.iter (length pre) (fun t => (t - 0.3)%float) (pitch_snapshot w)).
Proof.
  intros Hw Hpre Hx.
  assert (Hruns : Forall (runs (fun r => as_apoapsis r <? 80000)
                               (ascent_body flight_data_logger)) pre).
  { eapply Forall_impl; [| exact Hpre].
    intros r Hr. now apply ascent_body_runs. }
  assert (Hexit : (as_apoapsis x <? 80000) = false) by now apply Qltb_ge.
  set (v := set_target_pitch
              (set_fuel_warnings (set_last_report v0 (as_last_report w)) 0)
              (pitch_snapshot w)).
  destruct (while_exit _ _ pre x post v Hruns Hexit) as [Hloop _].
  destruct (turns_target_pitch flight_data_logger pre v) as (Hp & Hl & Hn).
  unfold ascent_phase, ascent_loop. fold v. rewrite Hw, Hloop.
  destruct (turns (ascent_body flight_data_logger) pre v) as [evs v'].
  cbn [fst snd] in *. cbn [bind tell ret].
  eexists. exists v'. split; [reflexivity |].
  rewrite !target_pitches_app, target_pitches_cutoff, target_pitches_deployment.
  change (target_pitches ascent_entry) with (@nil float).
  change (target_pitches []) with (@nil float).
  rewrite !app_nil_r. cbn [app].
  repeat split.
  - exact Hp.
  - exact Hl.
  - exact Hn.
  - intros Hall. rewrite Hp, (pitched_all pre Hall). reflexivity.
Qed.

Lemma commanded_pitch_is_open_loop_witness :
  exists ev v',
    ascent_phase steep_flight true unassigned = Some (ev, v')
    /\ (target_pitch v' <? 15)%float = true /\ (target_pitch v' <? 0)%float = true.
Proof.
  destruct (commanded_pitch_is_open_loop steep_flight true unassigned
              steep (ascent_at 9 80000 16 80) [])
    as (ev & v' & Hrun & _ & _ & _ & Hbelow).
  - reflexivity.
  - repeat constructor.
  - unfold Qle; simpl; lia.
  - exists ev, v'. split; [exact Hrun |].
    rewrite Hbelow by repeat constructor.
    split; vm_compute; reflexivity.
Defined.

(** C10 as stated fails for the arithmetic of the code.  On the flight whose
    pitch is read as 16 in each of 60 turns, the target after the loop is not
    16 - 0.3 * 60, neither computed in binary64 nor as a number: the 60
    roundings add up.  And the target does not decrease without bound: at
    -2^52 subtracting 0.3 in binary64 gives -2^52 again, however often. *)
Lemma commanded_pitch_is_rounded_at_each_step :
  exists ev v',
    ascent_phase steep_flight true unassigned = Some (ev, v')
    /\ pitched steep = 60%nat
    /\ target_pitch v' <> (16 - 0.3 * 60)%float
    /\ to_Q (target_pitch v') <> Some (16 - 0.3 * 60)
    /\ (forall n, Nat.iter n (fun t => (t - 0.3)%float) (-4503599627370496)%float
                  = (-4503599627370496)%float).
Proof.
  do 2 eexists. split; [vm_compute; reflexivity |].
  split; [vm_compute; reflexivity |].
  split; [vm_compute; discriminate |].
  split; [vm_compute; discriminate |].
  induction n as [| n IH]; [reflexivity |].
  rewrite Nat.iter_succ, IH. reflexivity.
Qed.

(** ** The flight-data recorder *)

Section Recorder.

Import FlightDataLogger.

(** C6.  The header written by the initialisation has 11 titles and is the
    only row of the new file.  A call of [log_data] always returns normally.
    When all reads return, it appends one row and nothing else: the 11 cells
    of the sample, in the order of the 11 titles.  When a read raises, the
    exception of the first such read is printed, the file is left as it was,
    and no row is written. *)
Theorem rows_match_header (self : t) (s : sample) :
  headers = map title columns
  /\ length headers = 11%nat
  /\ (forall vessel body time_now now,
        rows (file (init vessel body time_now now)) = [map T headers])
  /\ match first_raise (reads s) with
     | None =>
         exists x self',
           values_of self s = Some x
           /\ log_data self s = ok self'
           /\ file self' = file self ++ [joined (map (cell x) columns)]
           /\ length (map (cell x) columns) = 11%nat
           /\ printed self' = printed self
     | Some e =>
         exists self',
           log_data self s = ok self'
           /\ file self' = file self
           /\ rows (file self') = rows (file self)
           /\ printed self' = printed self ++ [[T "Ошибка записи данных: "; E e]]
     end.
Proof.
  repeat apply conj; try reflexivity.
  destruct s as [tm a1 a2 a3 a4 a5 a6 a7 a8 a9 a10].
  unfold log_data, data_line, values_of, reads. cbn [s_time s_altitude s_speed
    s_vertical_speed s_horizontal_speed s_apoapsis s_periapsis s_pitch
    s_heading s_fuel s_oxidizer first_raise].
  destruct a1 as [x1 | e]; [| eexists; repeat apply conj; reflexivity].
  destruct a2 as [x2 | e]; [| eexists; repeat apply conj; reflexivity].
  destruct a3 as [x3 | e]; [| eexists; repeat apply conj; reflexivity].
  destruct a4 as [x4 | e]; [| eexists; repeat apply conj; reflexivity].
  destruct a5 as [x5 | e]; [| eexists; repeat apply conj; reflexivity].
  destruct a6 as [x6 | e]; [| eexists; repeat apply conj; reflexivity].
  destruct a7 as [x7 | e]; [| eexists; repeat apply conj; reflexivity].
  destruct a8 as [x8 | e]; [| eexists; repeat apply conj; reflexivity].
  destruct a9 as [x9 | e]; [| eexists; repeat apply conj; reflexivity].
  destruct a10 as [x10 | e]; [| eexists; repeat apply conj; reflexivity].
  do 2 eexists. repeat apply conj; reflexivity.
Qed.

End Recorder.

(** ** The event logger *)

Section EventLogger.

Import DualLogger.
Local Open Scope string_scope.

Lemma line_breaks_app (s1 s2 : string) :
  line_breaks (s1 ++ s2) = (line_breaks s1 + line_breaks s2)%nat.
Proof.
  induction s1 as [| c s1 IH]; simpl; [reflexivity |]. rewrite IH. lia.
Qed.

Lemma append_assoc (s1 s2 s3 : string) : (s1 ++ s2) ++ s3 = s1 ++ (s2 ++ s3).
Proof.
  induction s1 as [| c s1 IH]; simpl; [reflexivity |]. now rewrite IH.
Qed.

Lemma digit_is_digit (n : nat) :
  is_digit (digit n) = true /\ Ascii.eqb (digit n) (ascii_of_nat 10) = false.
Proof.
  unfold digit. pose proof (Nat.mod_upper_bound n 10) as H.
  destruct (n mod 10) as [| [| [| [| [| [| [| [| [| [| k]]]]]]]]]];
    try (split; reflexivity). lia.
Qed.

Lemma timestamp_shape (now : datetime) :
  (exists h1 h2 m1 m2 s1 s2,
     strftime_HMS now =
       String h1 (String h2 (String ":" (String m1 (String m2
         (String ":" (String s1 (String s2 EmptyString)))))))
     /\ forallb is_digit [h1; h2; m1; m2; s1; s2] = true)
  /\ line_breaks (strftime_HMS now) = 0%nat.
Proof.
  unfold strftime_HMS, two_digits. cbn [append].
  split.
  - do 6 eexists. split; [reflexivity |]. cbn [forallb].
    now rewrite !(proj1 (digit_is_digit _)).
  - cbn [line_breaks]. rewrite !(proj2 (digit_is_digit _)). reflexivity.
Qed.

Lemma border_line (n : nat) : line_breaks (times "=" n) = 0%nat.
Proof. induction n as [| n IH]; [reflexivity | exact IH]. Qed.

(** C8, amended.  [log] with the time shown appends one and the same text to
    the console and to the event file: the stamp [[HH:MM:SS]] and a blank,
    the message, and a line terminator; without the time it is the message
    and a line terminator.  [section] appends a border of 50 [=], the title
    in upper case and the same border, each followed by a line terminator
    and none with a stamp.  These are exactly one line, respectively three
    lines, when the message, respectively the upper-cased title, contains no
    line break; each line break inside adds a line. *)
Theorem log_appends_message (self : t) (now : datetime) (message : string) :
  (exists h1 h2 m1 m2 s1 s2,
     strftime_HMS now =
       String h1 (String h2 (String ":" (String m1 (String m2
         (String ":" (String s1 (String s2 EmptyString)))))))
     /\ forallb is_digit [h1; h2; m1; m2; s1; s2] = true)
  /\ (let line := "[" ++ strftime_HMS now ++ "] " ++ message ++ nl in
      file (log self now message true) = file self ++ line
      /\ console (log self now message true) = console self ++ line
      /\ line_breaks line = S (line_breaks message)
      /\ (line_breaks message = 0%nat -> line_breaks line = 1%nat))
  /\ (let line := message ++ nl in
      file (log self now message false) = file self ++ line
      /\ console (log self now message false) = console self ++ line
      /\ line_breaks line = S (line_breaks message)
      /\ (line_breaks message = 0%nat -> line_breaks line = 1%nat))
  /\ (forall (upper : string -> string) (now2 now3 : datetime),
      let border := times "=" 50 in
      let banner := border ++ nl ++ upper message ++ nl ++ border ++ nl in
      file (section upper self now now2 now3 message) = file self ++ banner
      /\ console (section upper self now now2 now3 message) = console self ++ banner
      /\ border = "=================================================="
      /\ line_breaks banner = (3 + line_breaks (upper message))%nat
      /\ (line_breaks (upper message) = 0%nat -> line_breaks banner = 3%nat)).
Proof.
  destruct (timestamp_shape now) as [Hshape Hstamp].
  split; [exact Hshape |].
  assert (Hline : line_breaks ("[" ++ strftime_HMS now ++ "] " ++ message ++ nl)
                  = S (line_breaks message)).
  { change ("[" ++ strftime_HMS now ++ "] " ++ message ++ nl)
      with (String "[" (strftime_HMS now ++ "] " ++ message ++ nl)).
    cbn [line_breaks]. rewrite line_breaks_app, Hstamp.
    change ("] " ++ message ++ nl) with (String "]" (String " " (message ++ nl))).
    cbn [line_breaks]. rewrite line_breaks_app. simpl. lia. }
  assert (Hplain : line_breaks (message ++ nl) = S (line_breaks message)).
  { rewrite line_breaks_app. simpl. lia. }
  repeat apply conj.
  - reflexivity.
  - reflexivity.
  - exact Hline.
  - intros H. now rewrite Hline, H.
  - reflexivity.
  - reflexivity.
  - exact Hplain.
  - intros H. now rewrite Hplain, H.
  - intros upper now2 now3 border banner. subst border banner.
    repeat apply conj.
    + unfold section, log. cbn [file console filename].
      now rewrite !append_assoc.
    + unfold section, log. cbn [file console filename].
      now rewrite !append_assoc.
    + reflexivity.
    + rewrite !line_breaks_app, border_line. simpl. lia.
    + intros H. rewrite !line_breaks_app, border_line, H. reflexivity.
Qed.

Lemma log_appends_message_witness :
  file (log fresh noon "ЗАПУСК! Полный газ!" true)
    = "[12:00:07] ЗАПУСК! Полный газ!" ++ nl
  /\ line_breaks ("[" ++ strftime_HMS noon ++ "] " ++ "ЗАПУСК! Полный газ!" ++ nl) = 1%nat.
Proof.
  destruct (log_appends_message fresh noon "ЗАПУСК! Полный газ!")
    as (_ & (Hfile & _ & _ & Hone) & _).
  split.
  - rewrite Hfile. reflexivity.
  - apply Hone. reflexivity.
Defined.

(** C8 as stated fails for a message with a line break in it, such as the
    heading that [main] logs at l.513 with a leading line break: the call
    writes two lines, the stamp alone and then the heading. *)
Lemma log_of_heading_is_two_lines :
  file (log fresh noon (nl ++ "АНАЛИЗ РЕЗУЛЬТАТА:") true)
    = "[12:00:07] " ++ nl ++ "АНАЛИЗ РЕЗУЛЬТАТА:" ++ nl
  /\ console (log fresh noon (nl ++ "АНАЛИЗ РЕЗУЛЬТАТА:") true)
    = "[12:00:07] " ++ nl ++ "АНАЛИЗ РЕЗУЛЬТАТА:" ++ nl
  /\ line_breaks (file (log fresh noon (nl ++ "АНАЛИЗ РЕЗУЛЬТАТА:") true)) = 2%nat.
Proof. repeat split; reflexivity. Qed.

End EventLogger.

(** ** Leaving the gravity turn *)

Lemma commands_app (ev1 ev2 : list event) :
  commands (ev1 ++ ev2) = commands ev1 ++ commands ev2.
Proof. apply filter_app. Qed.

Lemma commands_concat (l : list (list event)) :
  Forall (fun ev => commands ev = []) l -> commands (concat l) = [].
Proof.
  induction 1 as [| ev l H _ IH]; simpl; [reflexivity |].
  now rewrite commands_app, H, IH.
Qed.

(** A property of every turn of a loop, from the same property of its body. *)
Lemma turns_Forall {I S : Type} (body : I -> S -> list event * flow S)
    (P : list event -> Prop) :
  (forall r s, P (fst (body r s))) ->
  forall rs s, Forall P (fst (turns body rs s)).
Proof.
  intros HP rs. induction rs as [| r rs IH]; intros s; simpl; [constructor |].
  specialize (HP r s). destruct (body r s) as [ev [s' | s']]; simpl in HP.
  - specialize (IH s'). destruct (turns body rs s'). simpl in *.
    now constructor.
  - simpl. now repeat constructor.
Qed.

Lemma gravity_turn_body_turn (flight_data_logger : bool)
    (r : gravity_turn_reading) (v : locals) :
  exists ev v',
    gravity_turn_body flight_data_logger r v = (ev, next v')
    /\ commands ev = [] /\ phases ev = []
    /\ fuel_empty v' = fuel_empty v.
Proof.
  unfold gravity_turn_body, record_step.
  decide_tests; do 2 eexists; repeat apply conj; reflexivity.
Qed.

Lemma gravity_turn_body_runs (flight_data_logger : bool) (r : gravity_turn_reading) :
  gt_altitude r < 10000 ->
  runs (fun r => gt_altitude r <? 10000) (gravity_turn_body flight_data_logger) r.
Proof.
  intros H. split; [now apply Qltb_lt |].
  intros v. destruct (gravity_turn_body_turn flight_data_logger r v) as (ev & v' & -> & _).
  now exists ev, v'.
Qed.

Lemma gravity_turn_commands (flight_data_logger : bool)
    (rs : list gravity_turn_reading) (v : locals) :
  commands (concat (fst (turns (gravity_turn_body flight_data_logger) rs v))) = [].
Proof.
  apply commands_concat, turns_Forall. intros r s.
  now destruct (gravity_turn_body_turn flight_data_logger r s) as (ev & v' & -> & ? & _).
Qed.

(** C7, amended.  When the loop of the gravity turn is left, at the first
    altitude reading that is at least 10000, SAS is switched off and one
    attitude-hold maneuver is flown: the autopilot is engaged and commanded to
    the fixed pitch 70 at heading 90, which is 20 below the vertical 90
    whatever pitch the vehicle has, then awaited and disengaged.  These are
    the only commands of the phase; the powered-ascent phase starts after
    them. *)
Theorem turn_commands_fixed_pitch
    (w : world) (flight_data_logger : bool) (v0 : locals)
    (pre : list gravity_turn_reading) (x : gravity_turn_reading)
    (post : list gravity_turn_reading) :
  gravity_turn w = pre ++ x :: post ->
  Forall (fun r => gt_altitude r < 10000) pre ->
  10000 <= gt_altitude x ->
  exists turned ev v',
    gravity_turn_phase w flight_data_logger v0 = Some (ev, v')
    /\ ev = gravity_turn_entry ++ concat turned ++ turn w flight_data_logger ++ []
    /\ length turned = length pre
    /\ commands (concat turned) = []
    /\ commands ev =
         [ set_sas false; ap_set_reference_frame; ap_engage;
           ap_target_pitch_and_heading 70%float 90; ap_wait; ap_disengage ]
    /\ target_pitches ev = [70%float]
    /\ 70 == 90 - 20.
Proof.
  intros Hw Hpre Hx.
  assert (Hruns : Forall (runs (fun r => gt_altitude r <? 10000)
                               (gravity_turn_body flight_data_logger)) pre).
  { eapply Forall_impl; [| exact Hpre].
    intros r Hr. now apply gravity_turn_body_runs. }
  assert (Hexit : (gt_altitude x <? 10000) = false) by now apply Qltb_ge.
  set (v := set_last_data_log (set_last_report v0 (gt_last_report w))
              (gt_last_data_log w)).
  destruct (while_exit _ _ pre x post v Hruns Hexit) as [Hloop Hlen].
  pose proof (gravity_turn_commands flight_data_logger pre v) as Hc.
  unfold gravity_turn_phase, gravity_turn_loop. fold v. rewrite Hw, Hloop.
  destruct (turns (gravity_turn_body flight_data_logger) pre v) as [evs v'].
  cbn [fst snd] in *. cbn [bind tell ret].
  exists evs. eexists. exists v'.
  split; [reflexivity |]. split; [reflexivity |].
  split; [exact Hlen |]. split; [exact Hc |].
  assert (Ht : target_pitches (concat evs) = []).
  { clear -Hc. induction (concat evs) as [| e l IH]; [reflexivity |].
    destruct e; simpl in Hc |- *; try discriminate; now apply IH. }
  repeat apply conj.
  - rewrite !commands_app, Hc. now destruct flight_data_logger.
  - rewrite !target_pitches_app, Ht. now destruct flight_data_logger.
  - reflexivity.
Qed.

Lemma turn_commands_fixed_pitch_witness :
  exists ev v',
    gravity_turn_phase flight true unassigned = Some (ev, v')
    /\ target_pitches ev = [70%float].
Proof.
  destruct (turn_commands_fixed_pitch flight true unassigned
              [gravity_turn_at 1 0; gravity_turn_at 3 5000]
              (gravity_turn_at 5 10000) [])
    as (turned & ev & v' & Hrun & _ & _ & _ & _ & Ht & _).
  - reflexivity.
  - repeat constructor.
  - unfold Qle; simpl; lia.
  - exists ev, v'. split; assumption.
Defined.

(** C7 as stated fails: the pitch commanded at the turn is the constant 70,
    so for a vehicle that comes to the turn pitched at 85 it is not 20 less
    than the pitch before the maneuver, which would be 65. *)
Lemma turn_pitch_not_relative :
  target_pitches (turn flight true) = [70%float] /\ ~ 70 == 85 - 20.
Proof. split; [reflexivity | discriminate]. Qed.

(** ** The circularization burn *)

Lemma throttle_app (ev1 ev2 : list event) :
  throttle (ev1 ++ ev2) =
    match throttle ev2 with
    | Some x => Some x
    | None => throttle ev1
    end.
Proof.
  unfold throttle. rewrite fold_left_app.
  generalize (fold_left (fun level e => match e with
                                        | set_throttle x => Some x
                                        | _ => level
                                        end) ev1 None).
  induction ev2 as [| e ev2 IH]; intros level; simpl.
  - now destruct level.
  - destruct e; try apply IH.
    rewrite (IH (Some v)), (IH None).
    now destruct (fold_left _ ev2 None).
Qed.

Lemma throttle_shutdown (w : world) (flight_data_logger : bool) :
  throttle (shutdown w flight_data_logger) = Some 0.0.
Proof. now destruct flight_data_logger. Qed.

(** A turn of the burn with fuel and oxidizer left runs to the bottom. *)
Lemma burn_body_turn (w : world) (flight_data_logger : bool)
    (r : burn_reading) (v : locals) :
  0.1 < bu_fuel r -> 0.1 < bu_oxidizer r ->
  exists ev v',
    burn_body w flight_data_logger r v = (ev, next v')
    /\ commands ev = [] /\ phases ev = []
    /\ fuel_empty v' = fuel_empty v.
Proof.
  intros Hf Ho. apply Qleb_gt in Hf, Ho.
  unfold burn_body, record_step. rewrite Hf, Ho. cbn [orb].
  decide_tests; do 2 eexists; repeat apply conj; reflexivity.
Qed.

(** A turn of the burn that reads fuel or oxidizer at 0.1 or less breaks
    out of the loop: it says so, sets [fuel_empty] and does nothing else
    after its recording step. *)
Lemma burn_body_break (w : world) (flight_data_logger : bool)
    (r : burn_reading) (v : locals) :
  bu_fuel r <= 0.1 \/ bu_oxidizer r <= 0.1 ->
  exists ev v',
    burn_body w flight_data_logger r v
      = (ev ++ [say [T "  ✗ ТОПЛИВО КОНЧИЛОСЬ!"]], break v')
    /\ ev = fst (record_step flight_data_logger 0.3 (bu_time r) (bu_sample r) v)
    /\ fuel_empty v' = true.
Proof.
  intros H.
  assert (Hb : (bu_fuel r <=? 0.1) || (bu_oxidizer r <=? 0.1) = true).
  { apply orb_true_iff. destruct H as [H | H]; [left | right]; now apply Qleb_le. }
  unfold burn_body. 
  destruct (record_step flight_data_logger 0.3 (bu_time r) (bu_sample r) v)
    as [ev_data v1].
  rewrite Hb. exists ev_data, (set_fuel_empty v1 true). repeat split.
Qed.

Lemma burn_body_runs (w : world) (flight_data_logger : bool) (r : burn_reading) :
  bu_periapsis r < 75000 /\ 0.1 < bu_fuel r /\ 0.1 < bu_oxidizer r ->
  runs (fun r => bu_periapsis r <? 75000) (burn_body w flight_data_logger) r.
Proof.
  intros (Hp & Hf & Ho). split; [now apply Qltb_lt |].
  intros v. destruct (burn_body_turn w flight_data_logger r v Hf Ho) as (ev & v' & -> & _).
  now exists ev, v'.
Qed.

(** Turns that run to the bottom leave [fuel_empty] as it was. *)
Lemma burn_turns_fuel_empty (w : world) (flight_data_logger : bool)
    (rs : list burn_reading) (v : locals) :
  Forall (fun r => bu_periapsis r < 75000 /\ 0.1 < bu_fuel r /\ 0.1 < bu_oxidizer r) rs ->
  fuel_empty (snd (turns (burn_body w flight_data_logger) rs v)) = fuel_empty v.
Proof.
  intros H. revert v. induction H as [| r rs (_ & Hf & Ho) _ IH]; intros v; simpl.
  - reflexivity.
  - destruct (burn_body_turn w flight_data_logger r v Hf Ho) as (ev & v' & -> & _ & _ & He).
    specialize (IH v'). destruct (turns (burn_body w flight_data_logger) rs v').
    simpl in *. now rewrite IH.
Qed.

Lemma burn_turns_break (w : world) (flight_data_logger : bool)
    (rs : list burn_reading) (r : burn_reading) (v : locals) :
  Forall (fun r => bu_periapsis r < 75000 /\ 0.1 < bu_fuel r /\ 0.1 < bu_oxidizer r) rs ->
  bu_fuel r <= 0.1 \/ bu_oxidizer r <= 0.1 ->
  fuel_empty (snd (turns (burn_body w flight_data_logger) (rs ++ [r]) v)) = true
  /\ exists ev,
       last (fst (turns (burn_body w flight_data_logger) (rs ++ [r]) v)) []
         = ev ++ [say [T "  ✗ ТОПЛИВО КОНЧИЛОСЬ!"]]
       /\ commands ev = [].
Proof.
  intros H Hr. revert v. induction H as [| r' rs (_ & Hf & Ho) _ IH]; intros v; simpl.
  - destruct (burn_body_break w flight_data_logger r v Hr) as (ev & v' & -> & Hev & He).
    simpl. split; [exact He |]. exists ev. split; [reflexivity |].
    rewrite Hev. unfold record_step.
    now destruct ((bu_time r - last_data_log v >? 0.3) && flight_data_logger).
  - destruct (burn_body_turn w flight_data_logger r' v Hf Ho) as (ev & v' & -> & _).
    specialize (IH v').
    destruct (turns (burn_body w flight_data_logger) (rs ++ [r]) v') as [evs v''] eqn:Ht.
    simpl in *. destruct IH as [He (ev1 & Hlast & Hc)]. split; [exact He |].
    exists ev1. split; [| exact Hc].
    destruct evs as [| e evs]; [| exact Hlast].
    destruct ev1; discriminate.
Qed.

(** C3.  In the circularization burn the loop runs while the periapsis
    reading is below 75000.  On the first turn whose fuel or oxidizer reading
    is at most 0.1 the turn says that the propellant is gone, sets
    [fuel_empty] and breaks: no further reading is taken, and the mission
    ends in [Aborted].  Otherwise the loop is left at the first periapsis
    reading of at least 75000 with [fuel_empty] false, and the mission ends
    in [MissionSummary].  Either way the first thing done after the loop is
    to set the throttle to zero, and zero is the throttle in force when the
    final state is entered. *)
Theorem burn_aborts_on_empty_tank
    (w : world) (flight_data_logger : bool) (v0 : locals)
    (pre : list burn_reading) (r : burn_reading) (post : list burn_reading) :
  burn w = pre ++ r :: post ->
  Forall (fun r => bu_periapsis r < 75000 /\ 0.1 < bu_fuel r /\ 0.1 < bu_oxidizer r) pre ->
  (bu_periapsis r < 75000 ->
   bu_fuel r <= 0.1 \/ bu_oxidizer r <= 0.1 ->
   exists turned ev v',
     burn_phase w flight_data_logger v0 = Some (ev, v')
     /\ ev = burn_entry w flight_data_logger ++ concat turned
               ++ shutdown w flight_data_logger ++ []
     /\ length turned = S (length pre)
     /\ (exists ev_r, last turned [] = ev_r ++ [say [T "  ✗ ТОПЛИВО КОНЧИЛОСЬ!"]]
                      /\ commands ev_r = [])
     /\ fuel_empty v' = true
     /\ hd_error (shutdown w flight_data_logger) = Some (set_throttle 0.0)
     /\ throttle ev = Some 0.0
     /\ phases (summary w (fuel_empty v')) = [Aborted])
  /\ (75000 <= bu_periapsis r ->
      exists turned ev v',
        burn_phase w flight_data_logger v0 = Some (ev, v')
        /\ ev = burn_entry w flight_data_logger ++ concat turned
                  ++ shutdown w flight_data_logger ++ []
        /\ length turned = length pre
        /\ fuel_empty v' = false
        /\ hd_error (shutdown w flight_data_logger) = Some (set_throttle 0.0)
        /\ throttle ev = Some 0.0
        /\ phases (summary w (fuel_empty v')) = [MissionSummary]).
Proof.
  intros Hw Hpre.
  assert (Hruns : Forall (runs (fun r => bu_periapsis r <? 75000)
                               (burn_body w flight_data_logger)) pre).
  { eapply Forall_impl; [| exact Hpre].
    intros r' Hr'. now apply burn_body_runs. }
  set (v := set_fuel_empty (set_last_report v0 (bu_last_report w)) false).
  assert (Hphases : forall b, phases (summary w b)
                              = [if b then Aborted else MissionSummary]).
  { intros b. unfold summary. unfold phases. rewrite !flat_map_app.
    cbn [flat_map section app].
    destruct (eccentricity w); cbn [say app];
      induction (analysis b (final_peri w)) as [| m l IH]; simpl; auto. }
  split.
  - intros Hp Hempty.
    assert (Htest : (bu_periapsis r <? 75000) = true) by now apply Qltb_lt.
    assert (Hbreak : forall s, exists ev s',
               burn_body w flight_data_logger r s = (ev, break s')).
    { intros s. destruct (burn_body_break w flight_data_logger r s Hempty)
        as (ev & s' & -> & _). now eexists _, _. }
    destruct (while_break _ _ pre r post v Hruns Htest Hbreak) as [Hloop Hlen].
    destruct (burn_turns_break w flight_data_logger pre r v Hpre Hempty)
      as (He & Hlast).
    unfold burn_phase, burn_loop. fold v. rewrite Hw, Hloop.
    destruct (turns (burn_body w flight_data_logger) (pre ++ [r]) v) as [evs v'].
    cbn [fst snd] in *. cbn [bind tell ret].
    exists evs. eexists. exists v'.
    repeat apply conj; try reflexivity; try assumption.
    + rewrite !throttle_app, throttle_shutdown. reflexivity.
    + rewrite Hphases, He. reflexivity.
  - intros Hp.
    assert (Hexit : (bu_periapsis r <? 75000) = false) by now apply Qltb_ge.
    destruct (while_exit _ _ pre r post v Hruns Hexit) as [Hloop Hlen].
    pose proof (burn_turns_fuel_empty w flight_data_logger pre v Hpre) as He.
    unfold burn_phase, burn_loop. fold v. rewrite Hw, Hloop.
    destruct (turns (burn_body w flight_data_logger) pre v) as [evs v'].
    cbn [fst snd] in *. cbn [bind tell ret].
    exists evs. eexists. exists v'.
    repeat apply conj; try reflexivity; try assumption.
    + rewrite !throttle_app, throttle_shutdown. reflexivity.
    + rewrite Hphases, He. reflexivity.
Qed.

Lemma burn_aborts_on_empty_tank_witness :
  (exists turned ev v',
     burn_phase dry_flight true unassigned = Some (ev, v')
     /\ ev = burn_entry dry_flight true ++ concat turned ++ shutdown dry_flight true ++ []
     /\ length turned = 2%nat
     /\ fuel_empty v' = true
     /\ throttle ev = Some 0.0)
  /\ (exists ev v',
        burn_phase flight true unassigned = Some (ev, v')
        /\ fuel_empty v' = false
        /\ throttle ev = Some 0.0).
Proof.
  split.
  - destruct (burn_aborts_on_empty_tank dry_flight true unassigned
                [burn_at 14 (-200000) 70 70] (burn_at 16 30000 0.1 30)
                [burn_at 18 40000 0.0 30]) as [Habort _].
    + reflexivity.
    + repeat constructor.
    + destruct Habort as (turned & ev & v' & H1 & H2 & H3 & _ & H4 & _ & H5 & _).
      * reflexivity.
      * left. unfold Qle; simpl; lia.
      * exists turned, ev, v'. repeat split; assumption.
  - destruct (burn_aborts_on_empty_tank flight true unassigned
                [burn_at 14 (-200000) 70 70; burn_at 16 30000 30 30]
                (burn_at 18 75000 10 10) []) as [_ Hexit].
    + reflexivity.
    + repeat constructor.
    + destruct Hexit as (turned & ev & v' & H1 & _ & _ & H4 & _ & H5 & _).
      * unfold Qle; simpl; lia.
      * exists ev, v'. repeat split; assumption.
Defined.

(** ** The whole mission *)

Lemma phases_app (ev1 ev2 : list event) : phases (ev1 ++ ev2) = phases ev1 ++ phases ev2.
Proof. apply flat_map_app. Qed.

Lemma phases_concat (l : list (list event)) :
  Forall (fun ev => phases ev = []) l -> phases (concat l) = [].
Proof.
  induction 1 as [| ev l H _ IH]; simpl; [reflexivity |].
  now rewrite phases_app, H, IH.
Qed.

Lemma deploy_panels_events (ps : list panel) (i n : nat) :
  Forall deploys_or_says (fst (deploy_panels ps i n)).
Proof.
  revert i n. induction ps as [| p ps IH]; intros i n; simpl; [constructor |].
  destruct (deployable p) as [[|] | e]; [destruct (deploy p) |..];
    match goal with
    | |- context [deploy_panels ps ?i ?n] =>
        specialize (IH i n); destruct (deploy_panels ps i n)
    end; simpl in *; repeat (constructor; [exact I |]); exact IH.
Qed.

Lemma phases_deploys (ev : list event) : Forall deploys_or_says ev -> phases ev = [].
Proof.
  induction 1 as [| e ev H _ IH]; [reflexivity |].
  destruct e; try contradiction; exact IH.
Qed.

Lemma recorder_calls_deploys (ev : list event) :
  Forall deploys_or_says ev -> recorder_calls ev = [].
Proof.
  induction 1 as [| e ev H _ IH]; [reflexivity |].
  destruct e; try contradiction; exact IH.
Qed.

Lemma phases_deployment (w : world) (b : bool) : phases (deployment w b) = [].
Proof.
  unfold deployment. rewrite !phases_app.
  pose proof (deploy_panels_events (solar_panels w) 0 0) as H.
  destruct (deploy_panels (solar_panels w) 0 0) as [ev n]. simpl in H.
  rewrite phases_app, (phases_deploys ev H). now destruct b, (0 <? n)%nat.
Qed.

Lemma phases_summary (w : world) (b : bool) :
  phases (summary w b) = [if b then Aborted else MissionSummary].
Proof.
  unfold summary, phases. rewrite !flat_map_app.
  cbn [flat_map section app].
  destruct (eccentricity w); cbn [say app];
    induction (analysis b (final_peri w)) as [| m l IH]; simpl; auto.
Qed.

Lemma ascent_body_phases (flight_data_logger : bool) (r : ascent_reading) (v : locals) :
  phases (fst (ascent_body flight_data_logger r v)) = [].
Proof.
  unfold ascent_body, record_step, pitch_step, fuel_warning.
  decide_tests; reflexivity.
Qed.

Lemma coast_body_turn (flight_data_logger : bool) (r : coast_reading) (v : locals) :
  exists ev v',
    coast_body flight_data_logger r v = (ev, next v')
    /\ commands ev = [] /\ phases ev = []
    /\ fuel_empty v' = fuel_empty v.
Proof.
  unfold coast_body, record_step.
  decide_tests; destruct (78000 - co_altitude_remaining r <? 5000);
    do 2 eexists; repeat apply conj; reflexivity.
Qed.

Lemma coast_body_runs (flight_data_logger : bool) (r : coast_reading) :
  co_altitude r < 78000 ->
  runs (fun r => co_altitude r <? 78000) (coast_body flight_data_logger) r.
Proof.
  intros H. split; [now apply Qltb_lt |].
  intros v. destruct (coast_body_turn flight_data_logger r v) as (ev & v' & -> & _).
  now exists ev, v'.
Qed.

(** Each phase, when its loop is left through the loop test. *)
Lemma gravity_turn_phase_exit (w : world) (flight_data_logger : bool) (v0 : locals)
    (pre : list gravity_turn_reading) (x : gravity_turn_reading)
    (post : list gravity_turn_reading) :
  gravity_turn w = pre ++ x :: post ->
  Forall (fun r => gt_altitude r < 10000) pre ->
  10000 <= gt_altitude x ->
  forall turned v',
    turns (gravity_turn_body flight_data_logger) pre
      (set_last_data_log (set_last_report v0 (gt_last_report w)) (gt_last_data_log w))
      = (turned, v') ->
    gravity_turn_phase w flight_data_logger v0
      = Some (gravity_turn_entry ++ concat turned ++ turn w flight_data_logger, v')
    /\ length turned = length pre
    /\ phases (concat turned) = [].
Proof.
  intros Hw Hpre Hx turned v' Ht.
  assert (Hruns : Forall (runs (fun r => gt_altitude r <? 10000)
                               (gravity_turn_body flight_data_logger)) pre).
  { eapply Forall_impl; [| exact Hpre].
    intros r Hr. now apply gravity_turn_body_runs. }
  assert (Hexit : (gt_altitude x <? 10000) = false) by now apply Qltb_ge.
  match type of Ht with
  | turns _ _ ?v = _ => destruct (while_exit _ _ pre x post v Hruns Hexit) as [Hloop Hlen]
  end.
  rewrite Ht in Hloop, Hlen. cbn [fst snd] in *.
  unfold gravity_turn_phase, gravity_turn_loop. rewrite Hw, Hloop.
  cbn [bind tell ret]. rewrite app_nil_r.
  repeat split; [exact Hlen |].
  apply phases_concat. change turned with (fst (turned, v')). rewrite <- Ht.
  apply turns_Forall. intros r s.
  now destruct (gravity_turn_body_turn flight_data_logger r s) as (ev & s' & -> & _ & ? & _).
Qed.

Lemma ascent_phase_exit (w : world) (flight_data_logger : bool) (v0 : locals)
    (pre : list ascent_reading) (x : ascent_reading) (post : list ascent_reading) :
  ascent w = pre ++ x :: post ->
  Forall (fun r => as_apoapsis r < 80000) pre ->
  80000 <= as_apoapsis x ->
  forall turned v',
    turns (ascent_body flight_data_logger) pre
      (set_target_pitch
         (set_fuel_warnings (set_last_report v0 (as_last_report w)) 0)
         (pitch_snapshot w))
      = (turned, v') ->
    ascent_phase w flight_data_logger v0
      = Some (ascent_entry ++ concat turned ++ cutoff w flight_data_logger
                ++ deployment w flight_data_logger, v')
    /\ length turned = length pre
    /\ phases (concat turned) = [].
Proof.
  intros Hw Hpre Hx turned v' Ht.
  assert (Hruns : Forall (runs (fun r => as_apoapsis r <? 80000)
                               (ascent_body flight_data_logger)) pre).
  { eapply Forall_impl; [| exact Hpre].
    intros r Hr. now apply ascent_body_runs. }
  assert (Hexit : (as_apoapsis x <? 80000) = false) by now apply Qltb_ge.
  match type of Ht with
  | turns _ _ ?v = _ => destruct (while_exit _ _ pre x post v Hruns Hexit) as [Hloop Hlen]
  end.
  rewrite Ht in Hloop, Hlen. cbn [fst snd] in *.
  unfold ascent_phase, ascent_loop. rewrite Hw, Hloop.
  cbn [bind tell ret]. rewrite app_nil_r.
  repeat split; [exact Hlen |].
  apply phases_concat. change turned with (fst (turned, v')). rewrite <- Ht.
  apply turns_Forall. intros r s. apply ascent_body_phases.
Qed.

Lemma coast_phase_exit (w : world) (flight_data_logger : bool) (v0 : locals)
    (pre : list coast_reading) (x : coast_reading) (post : list coast_reading) :
  coast w = pre ++ x :: post ->
  Forall (fun r => co_altitude r < 78000) pre ->
  78000 <= co_altitude x ->
  forall turned v',
    turns (coast_body flight_data_logger) pre v0 = (turned, v') ->
    coast_phase w flight_data_logger v0
      = Some (coast_entry flight_data_logger ++ concat turned, v')
    /\ length turned = length pre
    /\ phases (concat turned) = [].
Proof.
  intros Hw Hpre Hx turned v' Ht.
  assert (Hruns : Forall (runs (fun r => co_altitude r <? 78000)
                               (coast_body flight_data_logger)) pre).
  { eapply Forall_impl; [| exact Hpre].
    intros r Hr. now apply coast_body_runs. }
  assert (Hexit : (co_altitude x <? 78000) = false) by now apply Qltb_ge.
  match type of Ht with
  | turns _ _ ?v = _ => destruct (while_exit _ _ pre x post v Hruns Hexit) as [Hloop Hlen]
  end.
  rewrite Ht in Hloop, Hlen. cbn [fst snd] in *.
  unfold coast_phase, coast_loop. rewrite Hw, Hloop.
  cbn [bind tell ret]. rewrite app_nil_r.
  repeat split; [exact Hlen |].
  apply phases_concat. change turned with (fst (turned, v')). rewrite <- Ht.
  apply turns_Forall. intros r s.
  now destruct (coast_body_turn flight_data_logger r s) as (ev & s' & -> & _ & ? & _).
Qed.

Lemma burn_turns_phases (w : world) (flight_data_logger : bool)
    (rs : list burn_reading) (v : locals) :
  Forall (fun r => bu_periapsis r < 75000 /\ 0.1 < bu_fuel r /\ 0.1 < bu_oxidizer r) rs ->
  Forall (fun ev => phases ev = []) (fst (turns (burn_body w flight_data_logger) rs v)).
Proof.
  intros H. revert v.
  induction H as [| r rs (_ & Hf & Ho) _ IH]; intros s; simpl; [constructor |].
  destruct (burn_body_turn w flight_data_logger r s Hf Ho) as (ev & s' & -> & _ & Hp & _).
  specialize (IH s'). destruct (turns (burn_body w flight_data_logger) rs s').
  simpl in *. now constructor.
Qed.

Lemma burn_phase_exit (w : world) (flight_data_logger : bool) (v0 : locals)
    (pre : list burn_reading) (x : burn_reading) (post : list burn_reading) :
  burn w = pre ++ x :: post ->
  Forall (fun r => bu_periapsis r < 75000 /\ 0.1 < bu_fuel r /\ 0.1 < bu_oxidizer r) pre ->
  75000 <= bu_periapsis x ->
  forall turned v',
    turns (burn_body w flight_data_logger) pre
      (set_fuel_empty (set_last_report v0 (bu_last_report w)) false)
      = (turned, v') ->
    burn_phase w flight_data_logger v0
      = Some (burn_entry w flight_data_logger ++ concat turned
                ++ shutdown w flight_data_logger, v')
    /\ length turned = length pre
    /\ phases (concat turned) = []
    /\ fuel_empty v' = false.
Proof.
  intros Hw Hpre Hx turned v' Ht.
  assert (Hruns : Forall (runs (fun r => bu_periapsis r <? 75000)
                               (burn_body w flight_data_logger)) pre).
  { eapply Forall_impl; [| exact Hpre].
    intros r Hr. now apply burn_body_runs. }
  assert (Hexit : (bu_periapsis x <? 75000) = false) by now apply Qltb_ge.
  match type of Ht with
  | turns _ _ ?v = _ => destruct (while_exit _ _ pre x post v Hruns Hexit) as [Hloop Hlen]
  end.
  match type of Ht with
  | turns _ _ ?v = _ => pose proof (burn_turns_fuel_empty w flight_data_logger pre v Hpre) as He
  end.
  rewrite Ht in Hloop, Hlen, He. cbn [fst snd] in *.
  unfold burn_phase, burn_loop. rewrite Hw, Hloop.
  cbn [bind tell ret]. rewrite app_nil_r.
  repeat split; [exact Hlen | | exact He].
  apply phases_concat. change turned with (fst (turned, v')). rewrite <- Ht.
  now apply burn_turns_phases.
Qed.

Lemma analysis_success (p : Q) :
  70000 <= p ->
  exists c, is_success c = true /\ analysis false p = lines c p.
Proof.
  intros H. apply Qgeb_ge in H. unfold analysis. rewrite H.
  destruct ((p >=? 74000) && (p <=? 76000)).
  - exists success_high_precision. split; reflexivity.
  - exists success_acceptable_precision. split; reflexivity.
Qed.

Lemma phases_blocks (w : world) (b : bool) :
  phases banner = []
  /\ phases (fst (recorder_init w)) = []
  /\ phases (vessel_info w b) = []
  /\ phases (ignition w b) = [Ignition]
  /\ phases gravity_turn_entry = [GravityTurn]
  /\ phases (turn w b) = []
  /\ phases ascent_entry = [PoweredAscentToTargetApoapsis]
  /\ phases (cutoff w b) = []
  /\ phases (coast_entry b) = [CoastToApoapsis]
  /\ phases (burn_entry w b) = [CircularizationBurn]
  /\ phases (shutdown w b) = []
  /\ phases (finish b) = [].
Proof.
  unfold recorder_init, ignition, burn_entry, try_sas_mode.
  destruct b, (recorder w), (sas_radial w), (sas_prograde w);
    repeat apply conj; reflexivity.
Qed.

(** The report ends with the heading of the analysis and its lines. *)
Lemma summary_analysis (w : world) (fuel_empty : bool) :
  exists before,
    summary w fuel_empty
    = before ++ say [T nl; T "АНАЛИЗ РЕЗУЛЬТАТА:"]
                :: map say (analysis fuel_empty (final_peri w)).
Proof.
  unfold summary.
  match goal with
  | |- exists before, ?h ++ ?s ++ ?l ++ ?m = _ => exists (h ++ s ++ removelast l)
  end.
  rewrite <- !app_assoc. reflexivity.
Qed.

(** C4, amended.  For telemetry in which every loop is given a reading that
    meets its exit threshold (altitude 10000, apoapsis 80000, altitude 78000,
    periapsis 75000) and no fuel or oxidizer reading of the burn before that
    is 0.1 or less: [main] returns, it passes through Ignition, GravityTurn,
    PoweredAscentToTargetApoapsis, CoastToApoapsis, CircularizationBurn and
    MissionSummary in that order, each loop runs exactly the turns of the
    readings before the first one that meets its threshold, and [fuel_empty]
    is false.  The outcome is decided by the periapsis that is read again for
    the report (l.490), not by the reading that ended the burn: if that one is
    at least 70000, the event log ends with the heading of the analysis, the
    lines of a success row, beginning with the success line, and the closing
    lines. *)
Theorem nominal_mission_succeeds
    (w : world)
    (g_pre : list gravity_turn_reading) (g : gravity_turn_reading)
    (g_post : list gravity_turn_reading)
    (a_pre : list ascent_reading) (a : ascent_reading) (a_post : list ascent_reading)
    (c_pre : list coast_reading) (c : coast_reading) (c_post : list coast_reading)
    (b_pre : list burn_reading) (b : burn_reading) (b_post : list burn_reading) :
  connect w = None ->
  gravity_turn w = g_pre ++ g :: g_post ->
  Forall (fun r => gt_altitude r < 10000) g_pre -> 10000 <= gt_altitude g ->
  ascent w = a_pre ++ a :: a_post ->
  Forall (fun r => as_apoapsis r < 80000) a_pre -> 80000 <= as_apoapsis a ->
  coast w = c_pre ++ c :: c_post ->
  Forall (fun r => co_altitude r < 78000) c_pre -> 78000 <= co_altitude c ->
  burn w = b_pre ++ b :: b_post ->
  Forall (fun r => bu_periapsis r < 75000 /\ 0.1 < bu_fuel r /\ 0.1 < bu_oxidizer r) b_pre ->
  75000 <= bu_periapsis b ->
  70000 <= final_peri w ->
  let flight_data_logger := snd (recorder_init w) in
  exists t1 v1 t2 v2 t3 v3 t4 v4 ev_fly ev,
    turns (gravity_turn_body flight_data_logger) g_pre
      (set_last_data_log (set_last_report unassigned (gt_last_report w))
         (gt_last_data_log w)) = (t1, v1)
    /\ turns (ascent_body flight_data_logger) a_pre
         (set_target_pitch
            (set_fuel_warnings (set_last_report v1 (as_last_report w)) 0)
            (pitch_snapshot w)) = (t2, v2)
    /\ turns (coast_body flight_data_logger) c_pre v2 = (t3, v3)
    /\ turns (burn_body w flight_data_logger) b_pre
         (set_fuel_empty (set_last_report v3 (bu_last_report w)) false) = (t4, v4)
    /\ length t1 = length g_pre /\ length t2 = length a_pre
    /\ length t3 = length c_pre /\ length t4 = length b_pre
    /\ ev_fly = vessel_info w flight_data_logger
                ++ ignition w flight_data_logger
                ++ (gravity_turn_entry ++ concat t1 ++ turn w flight_data_logger)
                ++ (ascent_entry ++ concat t2 ++ cutoff w flight_data_logger
                      ++ deployment w flight_data_logger)
                ++ (coast_entry flight_data_logger ++ concat t3)
                ++ (burn_entry w flight_data_logger ++ concat t4
                      ++ shutdown w flight_data_logger)
    /\ fly w flight_data_logger = Some (ev_fly, v4)
    /\ fuel_empty v4 = false
    /\ ev = banner ++ [say connecting] ++ [say connected] ++ fst (recorder_init w)
              ++ ev_fly ++ summary w false ++ finish flight_data_logger
    /\ main w = Some (ev, mission_over false)
    /\ phases ev = [ Ignition; GravityTurn; PoweredAscentToTargetApoapsis;
                     CoastToApoapsis; CircularizationBurn; MissionSummary ]
    /\ exists outcome before,
         is_success outcome = true
         /\ analysis false (final_peri w) = lines outcome (final_peri w)
         /\ ev = before
                  ++ say [T nl; T "АНАЛИЗ РЕЗУЛЬТАТА:"]
                     :: map say (lines outcome (final_peri w))
                  ++ finish flight_data_logger
         /\ In (say [T "✓ УСПЕХ: Орбита достигнута!"]) ev.
Proof.
  intros Hc Hg Hg_pre Hg_x Ha Ha_pre Ha_x Hco Hco_pre Hco_x Hb Hb_pre Hb_x Hp.
  destruct (recorder_init w) as [ev_rec rec] eqn:Hrec. cbn [fst snd].
  destruct (turns (gravity_turn_body rec) g_pre
              (set_last_data_log (set_last_report unassigned (gt_last_report w))
                 (gt_last_data_log w))) as [t1 v1] eqn:H1.
  destruct (gravity_turn_phase_exit w rec unassigned _ _ _ Hg Hg_pre Hg_x _ _ H1)
    as (Hgt & Hl1 & Hp1).
  destruct (turns (ascent_body rec) a_pre
              (set_target_pitch
                 (set_fuel_warnings (set_last_report v1 (as_last_report w)) 0)
                 (pitch_snapshot w))) as [t2 v2] eqn:H2.
  destruct (ascent_phase_exit w rec v1 _ _ _ Ha Ha_pre Ha_x _ _ H2)
    as (Has & Hl2 & Hp2).
  destruct (turns (coast_body rec) c_pre v2) as [t3 v3] eqn:H3.
  destruct (coast_phase_exit w rec v2 _ _ _ Hco Hco_pre Hco_x _ _ H3)
    as (Hcs & Hl3 & Hp3).
  destruct (turns (burn_body w rec) b_pre
              (set_fuel_empty (set_last_report v3 (bu_last_report w)) false))
    as [t4 v4] eqn:H4.
  destruct (burn_phase_exit w rec v3 _ _ _ Hb Hb_pre Hb_x _ _ H4)
    as (Hbu & Hl4 & Hp4 & He).
  assert (Hfly : fly w rec
                 = Some (vessel_info w rec ++ ignition w rec
                         ++ (gravity_turn_entry ++ concat t1 ++ turn w rec)
                         ++ (ascent_entry ++ concat t2 ++ cutoff w rec
                               ++ deployment w rec)
                         ++ (coast_entry rec ++ concat t3)
                         ++ (burn_entry w rec ++ concat t4 ++ shutdown w rec),
                         v4)).
  { unfold fly. rewrite Hgt. cbn [bind tell ret]. rewrite Has. cbn [bind tell ret].
    rewrite Hcs. cbn [bind tell ret]. rewrite Hbu. cbn [bind tell ret].
    now rewrite app_nil_r. }
  exists t1, v1, t2, v2, t3, v3, t4, v4. do 2 eexists.
  do 8 (split; [first [assumption | reflexivity] |]).
  split; [reflexivity |]. split; [exact Hfly |]. split; [exact He |].
  split; [reflexivity |].
  split.
  - unfold main. rewrite Hc, Hrec, Hfly. cbn [bind tell ret]. rewrite He.
    now rewrite app_nil_r.
  - split.
    + destruct (phases_blocks w rec)
        as (B1 & B2 & B3 & B4 & B5 & B6 & B7 & B8 & B9 & B10 & B11 & B12).
      rewrite Hrec in B2. cbn [fst] in B2.
      rewrite !phases_app, B1, B2, B3, B4, B5, B6, B7, B8, B9, B10, B11, B12,
        Hp1, Hp2, Hp3, Hp4, phases_deployment, phases_summary.
      reflexivity.
    + destruct (analysis_success (final_peri w) Hp) as (k & Hs & Hlines).
      destruct (summary_analysis w false) as (before & Hsum).
      rewrite Hsum, Hlines.
      exists k. eexists. split; [exact Hs |]. split; [reflexivity |].
      split.
      * rewrite !app_assoc. rewrite <- (app_assoc _ (_ :: _) (finish rec)).
        reflexivity.
      * do 5 (apply in_or_app; right). apply in_or_app. left.
        apply in_or_app. right. right.
        destruct k; try discriminate Hs; now left.
Qed.

Lemma nominal_mission_succeeds_witness :
  exists ev,
    main flight = Some (ev, mission_over false)
    /\ phases ev = [ Ignition; GravityTurn; PoweredAscentToTargetApoapsis;
                     CoastToApoapsis; CircularizationBurn; MissionSummary ]
    /\ In (say [T "✓ УСПЕХ: Орбита достигнута!"]) ev.
Proof.
  destruct (nominal_mission_succeeds flight
              [gravity_turn_at 1 0; gravity_turn_at 3 5000] (gravity_turn_at 5 10000) []
              [ascent_at 7 30000 70 150; ascent_at 8 60000 69 90]
              (ascent_at 9 80000 68 80) []
              [coast_at 10 40000] (coast_at 12 78000) []
              [burn_at 14 (-200000) 70 70; burn_at 16 30000 30 30]
              (burn_at 18 75000 10 10) [])
    as (t1 & v1 & t2 & v2 & t3 & v3 & t4 & v4 & ev_fly & ev & H).
  - reflexivity.
  - reflexivity.
  - repeat constructor.
  - unfold Qle; simpl; lia.
  - reflexivity.
  - repeat constructor.
  - unfold Qle; simpl; lia.
  - reflexivity.
  - repeat constructor.
  - unfold Qle; simpl; lia.
  - reflexivity.
  - repeat constructor.
  - unfold Qle; simpl; lia.
  - unfold Qle; simpl; lia.
  - exists ev. split; [apply H |]. split; [apply H |].
    destruct H as (_ & _ & _ & _ & _ & _ & _ & _ & _ & _ & _ & _ & _ & _ & Hlog).
    destruct Hlog as (c & before & _ & _ & _ & Hin). exact Hin.
Defined.

(** C4 as stated fails: the readings of the flight that goes well meet every
    premise of the claim, the burn ending on a periapsis reading of 75000,
    but when the periapsis read again for the report is 60000 the mission,
    having passed through the six states, logs a partial success and no
    success line. *)
Lemma periapsis_read_for_the_report_decides :
  exists ev,
    main (with_final_peri flight 60000) = Some (ev, mission_over false)
    /\ burn (with_final_peri flight 60000) = to_periapsis
    /\ phases ev = [ Ignition; GravityTurn; PoweredAscentToTargetApoapsis;
                     CoastToApoapsis; CircularizationBurn; MissionSummary ]
    /\ In (say [T "⚠ Частичный успех: Субоптимальная орбита"]) ev
    /\ ~ In (say [T "✓ УСПЕХ: Орбита достигнута!"]) ev.
Proof.
  eexists. split; [vm_compute; reflexivity |].
  split; [reflexivity |].
  split; [vm_compute; reflexivity |].
  split.
  - vm_compute. repeat (first [left; reflexivity | right]).
  - vm_compute. intros H.
    repeat (destruct H as [H | H]; [discriminate H |]). exact H.
Qed.

(** ** The mission without the recorder *)

Lemma quiet_app (ev1 ev2 : list event) : quiet (ev1 ++ ev2) = quiet ev1 ++ quiet ev2.
Proof. apply filter_app. Qed.

Lemma recorder_calls_app (ev1 ev2 : list event) :
  recorder_calls (ev1 ++ ev2) = recorder_calls ev1 ++ recorder_calls ev2.
Proof. apply filter_app. Qed.

(** Splits the three parts of [same_quiet] and closes them from the context. *)
Ltac three_parts :=
  split; [first [assumption | reflexivity]
         | split; [first [assumption | reflexivity]
                  | first [assumption | reflexivity]]].

Lemma same_quiet_tell (ev1 ev2 : list event) :
  quiet ev1 = quiet ev2 -> recorder_calls ev2 = [] ->
  same_quiet eq (tell ev1) (tell ev2).
Proof. intros H1 H2. three_parts. Qed.

Lemma same_quiet_bind {A B : Type} (R : A -> A -> Prop) (R' : B -> B -> Prop)
    (m1 m2 : M A) (k1 k2 : A -> M B) :
  same_quiet R m1 m2 ->
  (forall a1 a2, R a1 a2 -> same_quiet R' (k1 a1) (k2 a2)) ->
  same_quiet R' (bind m1 k1) (bind m2 k2).
Proof.
  unfold same_quiet, bind.
  destruct m1 as [[ev1 a1] |], m2 as [[ev2 a2] |]; try easy.
  intros (Hq & Hr & Ha) Hk. specialize (Hk a1 a2 Ha).
  destruct (k1 a1) as [[ev1' b1] |], (k2 a2) as [[ev2' b2] |]; try easy.
  destruct Hk as (Hq' & Hr' & Hb).
  rewrite !quiet_app, recorder_calls_app, Hq, Hq', Hr, Hr'.
  three_parts.
Qed.

Lemma same_quiet_while {I : Type} (test : I -> bool)
    (body1 body2 : I -> locals -> list event * flow locals) :
  (forall r v1 v2, alike v1 v2 ->
     match body1 r v1, body2 r v2 with
     | (ev1, next a1), (ev2, next a2) | (ev1, break a1), (ev2, break a2) =>
         quiet ev1 = quiet ev2 /\ recorder_calls ev2 = [] /\ alike a1 a2
     | _, _ => False
     end) ->
  forall rs v1 v2, alike v1 v2 ->
    same_quiet alike (while test body1 rs v1) (while test body2 rs v2).
Proof.
  intros Hbody rs. unfold same_quiet.
  induction rs as [| r rs IH]; intros v1 v2 Hv; simpl; [easy |].
  destruct (test r); [| three_parts].
  specialize (Hbody r v1 v2 Hv).
  destruct (body1 r v1) as [ev1 [a1 | a1]], (body2 r v2) as [ev2 [a2 | a2]];
    try contradiction; destruct Hbody as (Hq & Hr & Ha).
  - specialize (IH a1 a2 Ha).
    destruct (while test body1 rs a1) as [[ev1' b1] |],
             (while test body2 rs a2) as [[ev2' b2] |]; try easy.
    destruct IH as (Hq' & Hr' & Hb).
    rewrite !quiet_app, recorder_calls_app, Hq, Hq', Hr, Hr'.
    three_parts.
  - three_parts.
Qed.

(** Closes a goal about a loop body run with and without the recorder. *)
Ltac with_and_without :=
  intros [lr1 ld1 fw1 tp1 fe1] [lr2 ld2 fw2 tp2 fe2] (Hlr & Hfw & Htp & Hfe);
  cbn [last_report fuel_warnings target_pitch fuel_empty] in Hlr, Hfw, Htp, Hfe;
  subst lr2 fw2 tp2 fe2;
  unfold record_step;
  cbn [last_report last_data_log fuel_warnings target_pitch fuel_empty];
  rewrite ?andb_false_r, ?andb_true_r;
  decide_tests; repeat split.

Lemma gravity_turn_body_alike (r : gravity_turn_reading) (v1 v2 : locals) :
  alike v1 v2 ->
  match gravity_turn_body true r v1, gravity_turn_body false r v2 with
  | (ev1, next a1), (ev2, next a2) | (ev1, break a1), (ev2, break a2) =>
      quiet ev1 = quiet ev2 /\ recorder_calls ev2 = [] /\ alike a1 a2
  | _, _ => False
  end.
Proof. revert v1 v2. unfold gravity_turn_body. with_and_without. Qed.

Lemma ascent_body_alike (r : ascent_reading) (v1 v2 : locals) :
  alike v1 v2 ->
  match ascent_body true r v1, ascent_body false r v2 with
  | (ev1, next a1), (ev2, next a2) | (ev1, break a1), (ev2, break a2) =>
      quiet ev1 = quiet ev2 /\ recorder_calls ev2 = [] /\ alike a1 a2
  | _, _ => False
  end.
Proof.
  revert v1 v2. unfold ascent_body, pitch_step, fuel_warning. with_and_without.
Qed.

Lemma coast_body_alike (r : coast_reading) (v1 v2 : locals) :
  alike v1 v2 ->
  match coast_body true r v1, coast_body false r v2 with
  | (ev1, next a1), (ev2, next a2) | (ev1, break a1), (ev2, break a2) =>
      quiet ev1 = quiet ev2 /\ recorder_calls ev2 = [] /\ alike a1 a2
  | _, _ => False
  end.
Proof.
  revert v1 v2. unfold coast_body.
  destruct (78000 - co_altitude_remaining r <? 5000); with_and_without.
Qed.

Lemma burn_body_alike (w : world) (r : burn_reading) (v1 v2 : locals) :
  alike v1 v2 ->
  match burn_body w true r v1, burn_body w false r v2 with
  | (ev1, next a1), (ev2, next a2) | (ev1, break a1), (ev2, break a2) =>
      quiet ev1 = quiet ev2 /\ recorder_calls ev2 = [] /\ alike a1 a2
  | _, _ => False
  end.
Proof.
  revert v1 v2. unfold burn_body.
  destruct ((bu_fuel r <=? 0.1) || (bu_oxidizer r <=? 0.1)); with_and_without.
Qed.

Lemma same_quiet_ret (v1 v2 : locals) :
  alike v1 v2 -> same_quiet alike (ret v1) (ret v2).
Proof. intros H. three_parts. Qed.

Lemma alike_refl (v : locals) : alike v v.
Proof. repeat split. Qed.

(** The blocks of [main] with and without the recorder. *)
Lemma blocks_alike (w : world) :
  (quiet (vessel_info w true) = quiet (vessel_info w false)
   /\ recorder_calls (vessel_info w false) = [])
  /\ (quiet (ignition w true) = quiet (ignition w false)
      /\ recorder_calls (ignition w false) = [])
  /\ (quiet (turn w true) = quiet (turn w false)
      /\ recorder_calls (turn w false) = [])
  /\ (quiet (cutoff w true) = quiet (cutoff w false)
      /\ recorder_calls (cutoff w false) = [])
  /\ (quiet (deployment w true) = quiet (deployment w false)
      /\ recorder_calls (deployment w false) = [])
  /\ (quiet (coast_entry true) = quiet (coast_entry false)
      /\ recorder_calls (coast_entry false) = [])
  /\ (quiet (burn_entry w true) = quiet (burn_entry w false)
      /\ recorder_calls (burn_entry w false) = [])
  /\ (quiet (shutdown w true) = quiet (shutdown w false)
      /\ recorder_calls (shutdown w false) = []).
Proof.
  unfold ignition, burn_entry, try_sas_mode, deployment.
  pose proof (deploy_panels_events (solar_panels w) 0 0) as Hd.
  destruct (deploy_panels (solar_panels w) 0 0) as [ev n]. cbn [fst] in Hd.
  rewrite !quiet_app, !recorder_calls_app, (recorder_calls_deploys ev Hd).
  destruct (sas_radial w), (sas_prograde w), (0 <? n)%nat;
    repeat apply conj; reflexivity.
Qed.

Lemma gravity_turn_phase_alike (w : world) (v1 v2 : locals) :
  alike v1 v2 ->
  same_quiet alike (gravity_turn_phase w true v1) (gravity_turn_phase w false v2).
Proof.
  intros (Hlr & Hfw & Htp & Hfe).
  destruct (blocks_alike w) as (_ & _ & (Hq & Hr) & _).
  unfold gravity_turn_phase.
  eapply same_quiet_bind; [apply same_quiet_tell; reflexivity |]. intros _ _ _.
  eapply same_quiet_bind.
  - apply same_quiet_while; [apply gravity_turn_body_alike |]. now repeat split.
  - intros a1 a2 Ha.
    eapply same_quiet_bind; [now apply same_quiet_tell |]. intros _ _ _.
    now apply same_quiet_ret.
Qed.

Lemma ascent_phase_alike (w : world) (v1 v2 : locals) :
  alike v1 v2 ->
  same_quiet alike (ascent_phase w true v1) (ascent_phase w false v2).
Proof.
  intros (Hlr & Hfw & Htp & Hfe).
  destruct (blocks_alike w) as (_ & _ & _ & (Hq & Hr) & (Hq' & Hr') & _).
  unfold ascent_phase.
  eapply same_quiet_bind; [apply same_quiet_tell; reflexivity |]. intros _ _ _.
  eapply same_quiet_bind.
  - apply same_quiet_while; [apply ascent_body_alike |]. now repeat split.
  - intros a1 a2 Ha.
    eapply same_quiet_bind; [now apply same_quiet_tell |]. intros _ _ _.
    eapply same_quiet_bind; [now apply same_quiet_tell |]. intros _ _ _.
    now apply same_quiet_ret.
Qed.

Lemma coast_phase_alike (w : world) (v1 v2 : locals) :
  alike v1 v2 ->
  same_quiet alike (coast_phase w true v1) (coast_phase w false v2).
Proof.
  intros Hv.
  destruct (blocks_alike w) as (_ & _ & _ & _ & _ & (Hq & Hr) & _).
  unfold coast_phase.
  eapply same_quiet_bind; [now apply same_quiet_tell |]. intros _ _ _.
  eapply same_quiet_bind.
  - apply same_quiet_while; [apply coast_body_alike | exact Hv].
  - intros a1 a2 Ha. now apply same_quiet_ret.
Qed.

Lemma burn_phase_alike (w : world) (v1 v2 : locals) :
  alike v1 v2 ->
  same_quiet alike (burn_phase w true v1) (burn_phase w false v2).
Proof.
  intros (Hlr & Hfw & Htp & Hfe).
  destruct (blocks_alike w) as (_ & _ & _ & _ & _ & _ & (Hq & Hr) & (Hq' & Hr')).
  unfold burn_phase.
  eapply same_quiet_bind; [now apply same_quiet_tell |]. intros _ _ _.
  eapply same_quiet_bind.
  - apply same_quiet_while; [apply burn_body_alike |]. now repeat split.
  - intros a1 a2 Ha.
    eapply same_quiet_bind; [now apply same_quiet_tell |]. intros _ _ _.
    now apply same_quiet_ret.
Qed.

Lemma fly_alike (w : world) : same_quiet alike (fly w true) (fly w false).
Proof.
  destruct (blocks_alike w) as ((Hq & Hr) & (Hq' & Hr') & _).
  unfold fly.
  eapply same_quiet_bind; [now apply same_quiet_tell |]. intros _ _ _.
  eapply same_quiet_bind; [now apply same_quiet_tell |]. intros _ _ _.
  eapply same_quiet_bind; [apply gravity_turn_phase_alike, alike_refl |].
  intros a1 a2 Ha.
  eapply same_quiet_bind; [now apply ascent_phase_alike |].
  clear a1 a2 Ha. intros a1 a2 Ha.
  eapply same_quiet_bind; [now apply coast_phase_alike |].
  clear a1 a2 Ha. intros a1 a2 Ha.
  eapply same_quiet_bind; [now apply burn_phase_alike |].
  clear a1 a2 Ha. intros a1 a2 Ha.
  now apply same_quiet_ret.
Qed.

Lemma fly_with_recorder (w : world) (r : option exn) (b : bool) :
  fly (with_recorder w r) b = fly w b.
Proof. reflexivity. Qed.

Lemma summary_with_recorder (w : world) (r : option exn) (b : bool) :
  summary (with_recorder w r) b = summary w b.
Proof. reflexivity. Qed.

Lemma commands_quiet (ev : list event) : commands (quiet ev) = commands ev.
Proof.
  induction ev as [| e ev IH]; [reflexivity |].
  destruct e; simpl; now rewrite ?IH.
Qed.

Lemma phases_quiet (ev : list event) : phases (quiet ev) = phases ev.
Proof.
  induction ev as [| e ev IH]; [reflexivity |].
  destruct e; simpl; now rewrite ?IH.
Qed.

Lemma logged_quiet (ev : list event) : logged (quiet ev) = logged ev.
Proof.
  induction ev as [| e ev IH]; [reflexivity |].
  destruct e; simpl; now rewrite ?IH.
Qed.

Lemma logged_app (ev1 ev2 : list event) : logged (ev1 ++ ev2) = logged ev1 ++ logged ev2.
Proof. apply filter_app. Qed.

Lemma recorder_calls_summary (w : world) (b : bool) : recorder_calls (summary w b) = [].
Proof.
  unfold summary. rewrite !recorder_calls_app.
  destruct (eccentricity w); cbn [recorder_calls filter is_recorder_call section say app];
    induction (analysis b (final_peri w)) as [| m l IH]; simpl; auto.
Qed.

(** C9, amended.  When the constructor of the recorder raises, the exception
    is logged as a warning and the mission goes on with
    [flight_data_logger] unset: after the failed construction no call is
    made to the recorder, and for the same readings the run returns exactly
    when the run with a recorder does, with the same commands to the vehicle,
    the same phases and the same ending.  The event log is the same but for
    two lines: the warning stands where the recorder's start was confirmed,
    and the closing line that names the saved data file is not written. *)
Theorem mission_without_recorder (w : world) (e : exn) :
  connect w = None ->
  match main (with_recorder w None), main (with_recorder w (Some e)) with
  | Some (ev_on, end_on), Some (ev_off, end_off) =>
      (exists before after,
         ev_off = before ++ recorder_new :: say (recorder_failed e) :: after
         /\ recorder_calls before = [] /\ recorder_calls after = [])
      /\ commands ev_off = commands ev_on
      /\ phases ev_off = phases ev_on
      /\ end_off = end_on
      /\ exists l1 l2 l3,
           logged ev_on = l1 ++ say recorder_ready :: l2 ++ say data_saved :: l3
           /\ logged ev_off = l1 ++ say (recorder_failed e) :: l2 ++ l3
  | None, None => True
  | _, _ => False
  end.
Proof.
  intros Hc. unfold main.
  cbn [connect recorder with_recorder recorder_init]. rewrite Hc.
  rewrite !fly_with_recorder. pose proof (fly_alike w) as Hfly.
  unfold same_quiet in Hfly.
  destruct (fly w true) as [[ev1 a1] |], (fly w false) as [[ev2 a2] |];
    cbn [bind tell ret]; try easy.
  destruct Hfly as (Hq & Hr & (_ & _ & _ & He)).
  rewrite !summary_with_recorder, He.
  pose proof (f_equal commands Hq) as Hcm. rewrite !commands_quiet in Hcm.
  pose proof (f_equal phases Hq) as Hph. rewrite !phases_quiet in Hph.
  pose proof (f_equal logged Hq) as Hlg. rewrite !logged_quiet in Hlg.
  repeat apply conj.
  - exists (banner ++ [say connecting] ++ [say connected]).
    eexists. split; [| split].
    + rewrite <- !app_assoc. cbn [app]. reflexivity.
    + reflexivity.
    + rewrite !recorder_calls_app, Hr, recorder_calls_summary. reflexivity.
  - rewrite !commands_app, Hcm. reflexivity.
  - rewrite !phases_app, Hph. reflexivity.
  - reflexivity.
  - exists (logged (banner ++ [say connecting] ++ [say connected])),
           (logged ev2 ++ logged (summary w (fuel_empty a2))),
           (logged (finish false)).
    rewrite !logged_app, Hlg. cbn [app logged filter is_log say].
    rewrite <- !app_assoc. cbn [app]. split; reflexivity.
Qed.

Lemma mission_without_recorder_witness :
  exists ev_on ev_off ending,
    main (with_recorder flight None) = Some (ev_on, ending)
    /\ main (with_recorder flight (Some (Exception "no stream"))) = Some (ev_off, ending)
    /\ commands ev_off = commands ev_on
    /\ phases ev_off = phases ev_on.
Proof.
  pose proof (mission_without_recorder flight (Exception "no stream") eq_refl) as H.
  destruct (main (with_recorder flight None)) as [[ev_on end_on] |] eqn:H1;
    [| vm_compute in H1; discriminate H1].
  destruct (main (with_recorder flight (Some (Exception "no stream"))))
    as [[ev_off end_off] |] eqn:H2; [| vm_compute in H2; discriminate H2].
  destruct H as (_ & Hc & Hp & He & _). subst end_off.
  exists ev_on, ev_off, end_on. repeat split; assumption.
Defined.

(** C9 as stated fails for the event log: on the flight that goes well, the
    run with the recorder logs the line naming the saved data file, and the
    run whose recorder failed to start logs one line fewer and not that one. *)
Lemma data_saved_line_needs_recorder :
  exists ev_on ev_off ending,
    main (with_recorder flight None) = Some (ev_on, ending)
    /\ main (with_recorder flight (Some (Exception "no stream"))) = Some (ev_off, ending)
    /\ length (logged ev_on) = S (length (logged ev_off))
    /\ In (say data_saved) (logged ev_on)
    /\ ~ In (say data_saved) (logged ev_off).
Proof.
  do 3 eexists. split; [vm_compute; reflexivity |].
  split; [vm_compute; reflexivity |].
  split; [vm_compute; reflexivity |].
  split.
  - vm_compute. repeat (first [left; reflexivity | right]).
  - vm_compute. intros H.
    repeat (destruct H as [H | H]; [discriminate H |]). exact H.
Qed.

(** ** A refused connection *)

(** X1.  When the connection to the game is refused (l.190-196), [main]
    returns at once: it logs the exception and the two hints, waits for
    Enter, and has sent no command to a vehicle, made no call to the
    recorder and entered no phase. *)
Theorem refused_connection_stops_before_the_vehicle (w : world) (e : exn) :
  connect w = Some e ->
  main w = Some (banner ++ [say connecting] ++ connection_failed e, no_connection)
  /\ commands (banner ++ [say connecting] ++ connection_failed e) = []
  /\ recorder_calls (banner ++ [say connecting] ++ connection_failed e) = []
  /\ phases (banner ++ [say connecting] ++ connection_failed e) = []
  /\ In (say [T "✗ Ошибка подключения: "; E e])
        (banner ++ [say connecting] ++ connection_failed e)
  /\ last (banner ++ [say connecting] ++ connection_failed e) (sleep 0)
     = prompt [T "Нажмите Enter для выхода..."].
Proof.
  intros Hc. unfold main. rewrite Hc. cbn [bind tell ret].
  repeat apply conj; try reflexivity.
  apply in_or_app. right. right. left. reflexivity.
Qed.

Lemma refused_connection_stops_before_the_vehicle_witness :
  main (refused flight (Exception "refused"))
    = Some (banner ++ [say connecting] ++ connection_failed (Exception "refused"),
            no_connection).
Proof.
  apply (refused_connection_stops_before_the_vehicle
           (refused flight (Exception "refused")) (Exception "refused")).
  reflexivity.
Defined.

(** ** The solar panels *)

Lemma deploy_panels_shape (ps : list panel) (i n : nat) :
  commands (fst (deploy_panels ps i n)) = map set_deployed (attempted ps i)
  /\ snd (deploy_panels ps i n) = (n + length (filter deploys ps))%nat
  /\ length (logged (fst (deploy_panels ps i n))) = length (filter panel_fails ps).
Proof.
  revert i n. induction ps as [| p ps IH]; intros i n.
  - simpl. repeat split. lia.
  - cbn [deploy_panels attempted filter].
    unfold deploys at 1, panel_fails at 1.
    destruct (deployable p) as [[|] | e]; [destruct (deploy p) as [e |] |..];
      match goal with
      | |- context [deploy_panels ps ?i ?n] =>
          destruct (IH i n) as (Hc & Hn & Hl); destruct (deploy_panels ps i n)
      end; cbn [fst snd] in *; subst;
      rewrite ?commands_app, ?logged_app, ?length_app, Hc, Hl;
      repeat split; simpl; lia.
Qed.

(** X2.  The deployment loop (l.377-389) sets [deployed] on exactly the
    panels whose [deployable] reads true, in the order of the list; a panel
    whose read or deployment raises costs one warning line and does not stop
    the loop; the count reported in the last line is the number of panels
    that were deployed without an exception, and with none the line says
    that no panels were found. *)
Theorem panels_deployed_one_by_one (w : world) (flight_data_logger : bool) :
  let ev := fst (deploy_panels (solar_panels w) 0 0) in
  let solar_count := snd (deploy_panels (solar_panels w) 0 0) in
  commands ev = map set_deployed (attempted (solar_panels w) 0)
  /\ solar_count = length (filter deploys (solar_panels w))
  /\ length (logged ev) = length (filter panel_fails (solar_panels w))
  /\ commands (deployment w flight_data_logger)
     = map set_deployed (attempted (solar_panels w) 0)
  /\ last (deployment w flight_data_logger) (sleep 0)
     = if (0 <? length (filter deploys (solar_panels w)))%nat
       then say [T "  ✓ Развернуто солнечных панелей: ";
                 N (Z.of_nat (length (filter deploys (solar_panels w))))]
       else say [T "  ⚠ Солнечные панели не найдены"].
Proof.
  destruct (deploy_panels_shape (solar_panels w) 0 0) as (Hc & Hn & Hl).
  cbn zeta. simpl in Hn. repeat apply conj; try assumption.
  - unfold deployment. rewrite !commands_app.
    destruct (deploy_panels (solar_panels w) 0 0) as [ev n]. cbn [fst snd] in *.
    rewrite commands_app, Hc.
    destruct flight_data_logger, (0 <? n)%nat; simpl; now rewrite app_nil_r.
  - unfold deployment.
    destruct (deploy_panels (solar_panels w) 0 0) as [ev n]. cbn [fst snd] in *.
    subst n. rewrite !app_assoc, last_last. reflexivity.
Qed.

(** ** The decision table, read backwards *)



(** ** The recorder and the logger over many calls *)

Section RecorderCalls.

Import FlightDataLogger.

Lemma rows_app (f1 f2 : list line) : rows (f1 ++ f2) = rows f1 ++ rows f2.
Proof. apply flat_map_app. Qed.

(** With a file that opens, the call of the sequence is [log_data] itself. *)
Lemma perform_log_data (self : t) (s : sample) :
  perform self (do_log_data s None) = log_data self s.
Proof.
  unfold perform, log_data, opening.
  destruct (data_line self s); reflexivity.
Qed.

(** One call of [log_data]: it returns whatever the reads and the file do,
    the file grows at its end by the row of the sample or not at all, and a
    failure leaves one line on the console. *)
Lemma perform_sample (self : t) (s : sample) (opened : option exn) :
  exists self' appended,
    perform self (do_log_data s opened) = ok self'
    /\ file self' = file self ++ appended
    /\ rows appended = recorded_rows self [do_log_data s opened]
    /\ printed self'
       = printed self
           ++ map (fun e => [T "Ошибка записи данных: "; E e])
                (failed_samples [do_log_data s opened])
    /\ start_time self' = start_time self.
Proof.
  unfold perform, recorded_rows, failed_samples. cbn [flat_map].
  destruct s as [tm a1 a2 a3 a4 a5 a6 a7 a8 a9 a10].
  unfold data_line, values_of, reads. cbn [s_time s_altitude s_speed
    s_vertical_speed s_horizontal_speed s_apoapsis s_periapsis s_pitch
    s_heading s_fuel s_oxidizer first_raise].
  destruct a1 as [x1 | e];
    [| exists (print self [T "Ошибка записи данных: "; E e]), [];
       destruct opened; repeat apply conj; try reflexivity; cbn;
       now rewrite app_nil_r].
  destruct a2 as [x2 | e];
    [| exists (print self [T "Ошибка записи данных: "; E e]), [];
       destruct opened; repeat apply conj; try reflexivity; cbn;
       now rewrite app_nil_r].
  destruct a3 as [x3 | e];
    [| exists (print self [T "Ошибка записи данных: "; E e]), [];
       destruct opened; repeat apply conj; try reflexivity; cbn;
       now rewrite app_nil_r].
  destruct a4 as [x4 | e];
    [| exists (print self [T "Ошибка записи данных: "; E e]), [];
       destruct opened; repeat apply conj; try reflexivity; cbn;
       now rewrite app_nil_r].
  destruct a5 as [x5 | e];
    [| exists (print self [T "Ошибка записи данных: "; E e]), [];
       destruct opened; repeat apply conj; try reflexivity; cbn;
       now rewrite app_nil_r].
  destruct a6 as [x6 | e];
    [| exists (print self [T "Ошибка записи данных: "; E e]), [];
       destruct opened; repeat apply conj; try reflexivity; cbn;
       now rewrite app_nil_r].
  destruct a7 as [x7 | e];
    [| exists (print self [T "Ошибка записи данных: "; E e]), [];
       destruct opened; repeat apply conj; try reflexivity; cbn;
       now rewrite app_nil_r].
  destruct a8 as [x8 | e];
    [| exists (print self [T "Ошибка записи данных: "; E e]), [];
       destruct opened; repeat apply conj; try reflexivity; cbn;
       now rewrite app_nil_r].
  destruct a9 as [x9 | e];
    [| exists (print self [T "Ошибка записи данных: "; E e]), [];
       destruct opened; repeat apply conj; try reflexivity; cbn;
       now rewrite app_nil_r].
  destruct a10 as [x10 | e];
    [| exists (print self [T "Ошибка записи данных: "; E e]), [];
       destruct opened; repeat apply conj; try reflexivity; cbn;
       now rewrite app_nil_r].
  destruct opened as [e |].
  - exists (print self [T "Ошибка записи данных: "; E e]), [].
    repeat apply conj; try reflexivity. cbn. now rewrite app_nil_r.
  - eexists. eexists. repeat apply conj; try reflexivity.
    cbn. now rewrite app_nil_r.
Qed.

(** One call: it raises exactly when it is a [log_status] or a [close] whose
    file does not open, and then with that exception; otherwise the file
    grows at its end, by at most one row, the row of the sample. *)
Lemma perform_one (self : t) (o : recorder_op) :
  match let_through o with
  | Some e => perform self o = raise e
  | None =>
      exists self' appended,
        perform self o = ok self'
        /\ file self' = file self ++ appended
        /\ rows appended = recorded_rows self [o]
        /\ printed self'
           = printed self
               ++ map (fun e => [T "Ошибка записи данных: "; E e]) (failed_samples [o])
        /\ start_time self' = start_time self
  end.
Proof.
  destruct o as [s opened | now status [e |] | time_now now [e |]];
    cbn [let_through]; try reflexivity.
  - apply perform_sample.
  - eexists. eexists. repeat apply conj; try reflexivity.
    cbn. now rewrite app_nil_r.
  - eexists. eexists. repeat apply conj; try reflexivity.
    cbn. now rewrite app_nil_r.
Qed.

Lemma recorded_rows_start (self self' : t) (ops : list recorder_op) :
  start_time self' = start_time self ->
  recorded_rows self' ops = recorded_rows self ops.
Proof.
  intros H. unfold recorded_rows. apply flat_map_ext.
  intros [s [e |] | |]; try reflexivity.
  unfold values_of. now rewrite H.
Qed.

Lemma perform_all_grows (ops : list recorder_op) (self : t) :
  snd (perform_all self ops) = first_let_through ops
  /\ exists appended,
       file (fst (perform_all self ops)) = file self ++ appended
       /\ rows appended = recorded_rows self (returned ops)
       /\ printed (fst (perform_all self ops))
          = printed self
              ++ map (fun e => [T "Ошибка записи данных: "; E e])
                   (failed_samples (returned ops))
       /\ start_time (fst (perform_all self ops)) = start_time self.
Proof.
  revert self. induction ops as [| o ops IH]; intros self.
  - split; [reflexivity |]. exists []. cbn. rewrite !app_nil_r. repeat split.
  - pose proof (perform_one self o) as H1.
    cbn [perform_all returned first_let_through].
    destruct (let_through o) as [e |].
    + rewrite H1. split; [reflexivity |]. exists []. cbn.
      rewrite !app_nil_r. repeat split.
    + destruct H1 as (s1 & a1 & H1 & F1 & R1 & P1 & T1). rewrite H1.
      destruct (IH s1) as (Hx & a2 & F2 & R2 & P2 & T2).
      split; [exact Hx |]. exists (a1 ++ a2). repeat apply conj.
      * now rewrite F2, F1, app_assoc.
      * rewrite rows_app, R1, R2, (recorded_rows_start self s1 _ T1).
        unfold recorded_rows. cbn [flat_map]. now rewrite app_nil_r.
      * rewrite P2, P1, <- app_assoc, <- map_app.
        unfold failed_samples. cbn [flat_map]. now rewrite app_nil_r.
      * now rewrite T2, T1.
Qed.

Lemma recorded_rows_width (self : t) (ops : list recorder_op) :
  Forall (fun r => length r = 11%nat) (recorded_rows self ops).
Proof.
  unfold recorded_rows. induction ops as [| o ops IH]; [constructor |].
  cbn [flat_map]. apply Forall_app. split; [| exact IH].
  destruct o as [s [e |] | |]; try constructor.
  destruct (values_of self s); repeat constructor.
Qed.

(** X4.  The calls made on a recorder after its construction, when opening
    the data file may fail.  A call of [log_data] never raises, whatever its
    reads and the file do.  A call of [log_status] or [close] raises exactly
    when the file does not open, and the sequence ends there with that
    exception.  Up to there the data file only grows at its end, its table is
    the header row followed by one row of eleven cells for each sample whose
    reads all returned and whose file opened, in call order, and each other
    sample left one error line on the console instead of a row. *)
Theorem data_file_keeps_its_table
    (vessel body now : string) (time_now : Q) (ops : list recorder_op) :
  let new := init vessel body time_now now in
  let self' := fst (perform_all new ops) in
  snd (perform_all new ops) = first_let_through ops
  /\ (forall self s opened, exists self'', perform self (do_log_data s opened) = ok self'')
  /\ (forall self now status e, perform self (do_log_status now status (Some e)) = raise e)
  /\ (forall self time_now now e, perform self (do_close time_now now (Some e)) = raise e)
  /\ (exists appended, file self' = file new ++ appended)
  /\ rows (file self') = map T headers :: recorded_rows new (returned ops)
  /\ Forall (fun r => length r = length headers) (rows (file self'))
  /\ printed self'
     = map (fun e => [T "Ошибка записи данных: "; E e]) (failed_samples (returned ops)).
Proof.
  intros new self'. subst self'.
  destruct (perform_all_grows ops new) as (Hx & appended & F & R & P & _).
  repeat apply conj; try reflexivity.
  - exact Hx.
  - intros self s opened.
    destruct (perform_sample self s opened) as (self'' & a & H & _). now exists self''.
  - now exists appended.
  - rewrite F, rows_app, R. reflexivity.
  - rewrite F, rows_app, R. apply Forall_app. split.
    + repeat constructor.
    + apply recorded_rows_width.
  - exact P.
Qed.

End RecorderCalls.

Section LoggerCalls.

Import DualLogger.
Local Open Scope string_scope.

Lemma append_empty (s : string) : s ++ "" = s.
Proof. induction s as [| c s IH]; simpl; [reflexivity | now rewrite IH]. Qed.

Lemma write_one (upper : string -> string) (self : t) (o : logger_op) :
  exists text,
    file (write upper self o) = file self ++ text
    /\ console (write upper self o) = console self ++ text
    /\ filename (write upper self o) = filename self
    /\ (1 <= line_breaks text)%nat.
Proof.
  destruct o as [now message show_time | now1 now2 now3 title].
  - exists ((if show_time then "[" ++ strftime_HMS now ++ "] " ++ message else message)
             ++ nl).
    repeat apply conj; try reflexivity.
    rewrite line_breaks_app. change (line_breaks nl) with 1%nat. lia.
  - exists (times "=" 50 ++ nl ++ upper title ++ nl ++ times "=" 50 ++ nl).
    unfold write, section, log. cbn [file console filename].
    repeat apply conj; try reflexivity.
    + now rewrite !append_assoc.
    + now rewrite !append_assoc.
    + rewrite !line_breaks_app. change (line_breaks nl) with 1%nat. lia.
Qed.

Lemma write_all_grows (upper : string -> string) (ops : list logger_op) (self : t) :
  exists text,
    file (write_all upper self ops) = file self ++ text
    /\ console (write_all upper self ops) = console self ++ text
    /\ filename (write_all upper self ops) = filename self
    /\ (length ops <= line_breaks text)%nat.
Proof.
  unfold write_all. revert self.
  induction ops as [| o ops IH]; intros self.
  - exists "". cbn [fold_left length]. rewrite !append_empty.
    repeat apply conj; reflexivity.
  - destruct (write_one upper self o) as (t1 & F1 & C1 & N1 & L1).
    destruct (IH (write upper self o)) as (t2 & F2 & C2 & N2 & L2).
    exists (t1 ++ t2). cbn [fold_left length].
    rewrite F2, C2, N2, F1, C1, N1, !append_assoc, line_breaks_app.
    repeat apply conj; try reflexivity. lia.
Qed.

(** X5.  Whatever calls of [log] and [section] follow the construction of
    the event logger, the text they append to the file is the text they
    print on the console, the file name is kept, the file only grows at its
    end, and each call adds at least one line. *)
Theorem console_mirrors_event_file
    (upper : string -> string) (name printed : string) (now : datetime)
    (ops : list logger_op) :
  exists text,
    file (write_all upper (init name printed now) ops)
      = file (init name printed now) ++ text
    /\ console (write_all upper (init name printed now) ops) = printed ++ text
    /\ filename (write_all upper (init name printed now) ops) = name
    /\ (length ops <= line_breaks text)%nat.
Proof. apply (write_all_grows upper ops (init name printed now)). Qed.

End LoggerCalls.

(** ** Every run of [main] that returns *)

Lemma while_Forall {I S : Type} (test : I -> bool)
    (body : I -> S -> list event * flow S) (P : event -> Prop) :
  (forall r s, Forall P (fst (body r s))) ->
  forall rs s ev s', while test body rs s = Some (ev, s') -> Forall P ev.
Proof.
  intros HP rs. induction rs as [| r rs IH]; intros s ev s'; simpl; [discriminate |].
  destruct (test r); [| intros [= <- <-]; constructor].
  specialize (HP r s). destruct (body r s) as [ev1 [s1 | s1]]; simpl in HP.
  - destruct (while test body rs s1) as [[ev2 s2] |] eqn:Hw; [| discriminate].
    intros [= <- <-]. apply Forall_app. split; [exact HP | now apply (IH s1 ev2 s2)].
  - intros [= <- <-]. exact HP.
Qed.

Lemma gravity_turn_body_waits (b : bool) (r : gravity_turn_reading) (v : locals) :
  Forall waits (fst (gravity_turn_body b r v)).
Proof.
  unfold gravity_turn_body, record_step.
  decide_tests; repeat constructor.
Qed.

Lemma ascent_body_steers (b : bool) (r : ascent_reading) (v : locals) :
  Forall steers (fst (ascent_body b r v)).
Proof.
  unfold ascent_body, record_step, pitch_step, fuel_warning.
  decide_tests; repeat constructor.
Qed.

Lemma coast_body_waits (b : bool) (r : coast_reading) (v : locals) :
  Forall waits (fst (coast_body b r v)).
Proof.
  unfold coast_body, record_step.
  decide_tests; destruct (78000 - co_altitude_remaining r <? 5000); repeat constructor.
Qed.

Lemma burn_body_waits (w : world) (b : bool) (r : burn_reading) (v : locals) :
  Forall waits (fst (burn_body w b r v)).
Proof.
  unfold burn_body, record_step.
  destruct ((bu_fuel r <=? 0.1) || (bu_oxidizer r <=? 0.1));
    decide_tests; repeat constructor.
Qed.

Lemma waits_steers (ev : list event) : Forall waits ev -> Forall steers ev.
Proof.
  apply Forall_impl. intros e. now destruct e.
Qed.

(** What the events of a loop contribute to each observation. *)
Lemma steers_observed (ev : list event) :
  Forall steers ev ->
  phases ev = []
  /\ status_calls ev = []
  /\ Forall (fun c => exists s, c = log_data s) (recorder_calls ev)
  /\ Forall (fun c => c = ap_engage
                      \/ exists p h, c = ap_target_pitch_and_heading p h) (commands ev)
  /\ throttle ev = None.
Proof.
  induction 1 as [| e ev He _ (IH1 & IH2 & IH3 & IH4 & IH5)].
  - repeat split; constructor.
  - destruct e; try contradiction; cbn; repeat split; try assumption;
      constructor; eauto.
Qed.

Lemma waits_observed (ev : list event) :
  Forall waits ev -> commands ev = [].
Proof.
  induction 1 as [| e ev He _ IH]; [reflexivity |].
  destruct e; try contradiction; exact IH.
Qed.

Lemma bind_inv {A B : Type} (m : M A) (k : A -> M B) (ev : list event) (b : B) :
  bind m k = Some (ev, b) ->
  exists ev1 a ev2, m = Some (ev1, a) /\ k a = Some (ev2, b) /\ ev = ev1 ++ ev2.
Proof.
  unfold bind. destruct m as [[ev1 a] |]; [| discriminate].
  destruct (k a) as [[ev2 b'] |] eqn:Hk; [| discriminate].
  intros [= <- <-]. now exists ev1, a, ev2.
Qed.

(** The loops of a run, and the events of the run in terms of theirs. *)
Lemma main_inv (w : world) (ev : list event) (fe : bool) :
  main w = Some (ev, mission_over fe) ->
  connect w = None
  /\ exists e1 v1 e2 v2 e3 v3 e4 v4,
       let b := snd (recorder_init w) in
       gravity_turn_loop b (gravity_turn w)
         (set_last_data_log (set_last_report unassigned (gt_last_report w))
            (gt_last_data_log w)) = Some (e1, v1)
       /\ ascent_loop b (ascent w)
            (set_target_pitch
               (set_fuel_warnings (set_last_report v1 (as_last_report w)) 0)
               (pitch_snapshot w)) = Some (e2, v2)
       /\ coast_loop b (coast w) v2 = Some (e3, v3)
       /\ burn_loop w b (burn w)
            (set_fuel_empty (set_last_report v3 (bu_last_report w)) false)
            = Some (e4, v4)
       /\ fe = fuel_empty v4
       /\ ev = banner ++ [say connecting] ++ [say connected] ++ fst (recorder_init w)
               ++ vessel_info w b ++ ignition w b
               ++ gravity_turn_entry ++ e1 ++ turn w b
               ++ ascent_entry ++ e2 ++ cutoff w b ++ deployment w b
               ++ coast_entry b ++ e3
               ++ burn_entry w b ++ e4 ++ shutdown w b
               ++ summary w fe ++ finish b.
Proof.
  unfold main. destruct (connect w) as [e |]; [discriminate |].
  destruct (recorder_init w) as [ev_rec b]. cbn [fst snd].
  unfold fly, gravity_turn_phase, ascent_phase, coast_phase, burn_phase.
  cbn [bind tell ret].
  destruct (gravity_turn_loop b (gravity_turn w) _) as [[e1 v1] |] eqn:H1;
    [| discriminate].
  cbn [bind tell ret].
  destruct (ascent_loop b (ascent w) _) as [[e2 v2] |] eqn:H2; [| discriminate].
  cbn [bind tell ret].
  destruct (coast_loop b (coast w) v2) as [[e3 v3] |] eqn:H3; [| discriminate].
  cbn [bind tell ret].
  destruct (burn_loop w b (burn w) _) as [[e4 v4] |] eqn:H4; [| discriminate].
  cbn [bind tell ret].
  intros H. split; [reflexivity |].
  exists e1, v1, e2, v2, e3, v3, e4, v4.
  do 4 (split; [first [assumption | reflexivity] |]).
  assert (Hev := f_equal (fun o => match o with Some (x, _) => x | None => [] end) H).
  assert (Hfe := f_equal (fun o => match o with
                                   | Some (_, mission_over x) => x
                                   | _ => false
                                   end) H).
  cbv beta iota in Hev, Hfe. subst ev fe. split; [reflexivity |].
  rewrite !app_nil_r, <- !app_assoc. reflexivity.
Qed.

Lemma commands_summary (w : world) (b : bool) : commands (summary w b) = [].
Proof.
  unfold summary. rewrite !commands_app.
  destruct (eccentricity w); cbn [commands filter is_command section say app];
    induction (analysis b (final_peri w)) as [| m l IH]; simpl; auto.
Qed.

Lemma throttle_commands (ev : list event) : throttle (commands ev) = throttle ev.
Proof.
  unfold throttle. generalize (@None Q).
  induction ev as [| e ev IH]; intros level; [reflexivity |].
  destruct e; simpl; apply IH.
Qed.

Lemma target_pitches_commands (ev : list event) :
  target_pitches (commands ev) = target_pitches ev.
Proof.
  induction ev as [| e ev IH]; [reflexivity |].
  destruct e; simpl; now rewrite ?IH.
Qed.

Lemma commands_blocks (w : world) (b : bool) :
  commands banner = []
  /\ commands (fst (recorder_init w)) = []
  /\ commands (vessel_info w b) = []
  /\ commands (ignition w b)
     = [set_throttle 1.0; activate_next_stage; set_sas true; set_sas_mode radial]
  /\ commands gravity_turn_entry = []
  /\ commands (turn w b)
     = [set_sas false; ap_set_reference_frame; ap_engage;
        ap_target_pitch_and_heading 70 90; ap_wait; ap_disengage]
  /\ commands ascent_entry = []
  /\ commands (cutoff w b) = [set_throttle 0.0; ap_disengage]
  /\ commands (coast_entry b) = []
  /\ commands (burn_entry w b) = [set_sas true; set_sas_mode prograde; set_throttle 1.0]
  /\ commands (shutdown w b) = [set_throttle 0.0]
  /\ commands (finish b) = [conn_close].
Proof.
  unfold recorder_init, ignition, burn_entry, try_sas_mode.
  destruct b, (recorder w), (sas_radial w), (sas_prograde w);
    repeat apply conj; reflexivity.
Qed.

Lemma commands_deployment (w : world) (b : bool) :
  commands (deployment w b) = map set_deployed (attempted (solar_panels w) 0).
Proof.
  destruct (deploy_panels_shape (solar_panels w) 0 0) as (Hc & _).
  unfold deployment. rewrite !commands_app.
  destruct (deploy_panels (solar_panels w) 0 0) as [ev n]. cbn [fst snd] in *.
  rewrite commands_app, Hc.
  destruct b, (0 <? n)%nat; simpl; now rewrite app_nil_r.
Qed.

(** ** Every mission that runs to its end *)

(** X6.  Whatever the readings, a run of [main] that gets past the
    connection and returns has sent the vehicle the same commands in the
    same order: full throttle, staging, SAS radial, the turn to pitch 70,
    then only autopilot targets during the ascent, the first being the
    binary64 difference of the pitch read at l.317 and 0.3 and each later one
    that of the target before it and 0.3, then throttle 0 and autopilot off,
    the panels, SAS prograde, full throttle, throttle 0, and the closing of
    the connection; the throttle is left at 0. *)
Theorem commands_of_a_completed_mission (w : world) (ev : list event) (fe : bool) :
  main w = Some (ev, mission_over fe) ->
  exists steering,
    commands ev
      = [ set_throttle 1.0; activate_next_stage; set_sas true; set_sas_mode radial;
          set_sas false; ap_set_reference_frame; ap_engage;
          ap_target_pitch_and_heading 70 90; ap_wait; ap_disengage ]
        ++ steering
        ++ [set_throttle 0.0; ap_disengage]
        ++ map set_deployed (attempted (solar_panels w) 0)
        ++ [ set_sas true; set_sas_mode prograde; set_throttle 1.0;
             set_throttle 0.0; conn_close ]
    /\ Forall (fun c => c = ap_engage
                        \/ exists p h, c = ap_target_pitch_and_heading p h) steering
    /\ steps_down (pitch_snapshot w) (target_pitches steering)
    /\ throttle ev = Some 0.0.
Proof.
  intros Hmain.
  destruct (main_inv w ev fe Hmain)
    as (_ & e1 & v1 & e2 & v2 & e3 & v3 & e4 & v4 & H1 & H2 & H3 & H4 & _ & Hev).
  set (b := snd (recorder_init w)) in *.
  destruct (commands_blocks w b)
    as (B1 & B2 & B3 & B4 & B5 & B6 & B7 & B8 & B9 & B10 & B11 & B12).
  pose proof (waits_observed e1
                (while_Forall _ _ waits (gravity_turn_body_waits b) _ _ _ _ H1)) as C1.
  pose proof (while_Forall _ _ steers (ascent_body_steers b) _ _ _ _ H2) as S2.
  pose proof (waits_observed e3
                (while_Forall _ _ waits (coast_body_waits b) _ _ _ _ H3)) as C3.
  pose proof (waits_observed e4
                (while_Forall _ _ waits (burn_body_waits w b) _ _ _ _ H4)) as C4.
  destruct (steers_observed e2 S2) as (_ & _ & _ & Hsteer & _).
  destruct (while_turns _ _ _ _ _ _ H2) as (n & He2 & _).
  assert (Hcmd : commands ev
      = [ set_throttle 1.0; activate_next_stage; set_sas true; set_sas_mode radial;
          set_sas false; ap_set_reference_frame; ap_engage;
          ap_target_pitch_and_heading 70 90; ap_wait; ap_disengage ]
        ++ commands e2
        ++ [set_throttle 0.0; ap_disengage]
        ++ map set_deployed (attempted (solar_panels w) 0)
        ++ [ set_sas true; set_sas_mode prograde; set_throttle 1.0;
             set_throttle 0.0; conn_close ]).
  { rewrite Hev, !commands_app, B1, B2, B3, B4, B5, B6, B7, B8, B9, B10, B11, B12,
      C1, C3, C4, commands_summary, commands_deployment.
    cbn [app commands filter is_command say]. rewrite <- ?app_assoc.
    reflexivity. }
  exists (commands e2). repeat apply conj.
  - exact Hcmd.
  - exact Hsteer.
  - rewrite target_pitches_commands, He2.
    exact (turns_steps_down b (firstn n (ascent w))
             (set_target_pitch
                (set_fuel_warnings (set_last_report v1 (as_last_report w)) 0)
                (pitch_snapshot w))).
  - rewrite <- throttle_commands, Hcmd, !throttle_app. reflexivity.
Qed.

Lemma commands_of_a_completed_mission_witness :
  exists ev, main flight = Some (ev, mission_over false) /\ throttle ev = Some 0.0.
Proof.
  assert (H : exists ev, main flight = Some (ev, mission_over false))
    by (eexists; vm_compute; reflexivity).
  destruct H as (ev & H). exists ev. split; [exact H |].
  destruct (commands_of_a_completed_mission flight ev false H)
    as (steering & _ & _ & _ & Ht).
  exact Ht.
Defined.

(** X7.  Whatever the readings, a run of [main] that gets past the
    connection and returns has entered the five flight phases in order, and
    then Aborted when the burn found a tank empty, MissionSummary
    otherwise. *)
Theorem phases_of_a_completed_mission (w : world) (ev : list event) (fe : bool) :
  main w = Some (ev, mission_over fe) ->
  phases ev = [ Ignition; GravityTurn; PoweredAscentToTargetApoapsis;
                CoastToApoapsis; CircularizationBurn;
                if fe then Aborted else MissionSummary ].
Proof.
  intros Hmain.
  destruct (main_inv w ev fe Hmain)
    as (_ & e1 & v1 & e2 & v2 & e3 & v3 & e4 & v4 & H1 & H2 & H3 & H4 & _ & Hev).
  set (b := snd (recorder_init w)) in *.
  destruct (phases_blocks w b)
    as (B1 & B2 & B3 & B4 & B5 & B6 & B7 & B8 & B9 & B10 & B11 & B12).
  destruct (steers_observed e1 (waits_steers _
              (while_Forall _ _ waits (gravity_turn_body_waits b) _ _ _ _ H1)))
    as (P1 & _).
  destruct (steers_observed e2
              (while_Forall _ _ steers (ascent_body_steers b) _ _ _ _ H2))
    as (P2 & _).
  destruct (steers_observed e3 (waits_steers _
              (while_Forall _ _ waits (coast_body_waits b) _ _ _ _ H3)))
    as (P3 & _).
  destruct (steers_observed e4 (waits_steers _
              (while_Forall _ _ waits (burn_body_waits w b) _ _ _ _ H4)))
    as (P4 & _).
  rewrite Hev, !phases_app, B1, B2, B3, B4, B5, B6, B7, B8, B9, B10, B11, B12,
    P1, P2, P3, P4, phases_deployment, phases_summary.
  reflexivity.
Qed.

Lemma phases_of_a_completed_mission_witness :
  exists ev,
    main dry_flight = Some (ev, mission_over true)
    /\ phases ev = [ Ignition; GravityTurn; PoweredAscentToTargetApoapsis;
                     CoastToApoapsis; CircularizationBurn; Aborted ].
Proof.
  assert (H : exists ev, main dry_flight = Some (ev, mission_over true))
    by (eexists; vm_compute; reflexivity).
  destruct H as (ev & H). exists ev. split; [exact H |].
  exact (phases_of_a_completed_mission dry_flight ev true H).
Defined.

(** A loop whose body always runs to the bottom is only left at a reading
    that fails its test. *)
Lemma while_left_at {I S : Type} (test : I -> bool)
    (body : I -> S -> list event * flow S) :
  (forall r s, exists ev s', body r s = (ev, next s')) ->
  forall rs s ev s',
    while test body rs s = Some (ev, s') ->
    Exists (fun r => test r = false) rs.
Proof.
  intros Hb rs. induction rs as [| r rs IH]; intros s ev s'; simpl; [discriminate |].
  destruct (test r) eqn:Ht; [| intros _; now constructor].
  destruct (Hb r s) as (ev1 & s1 & ->).
  destruct (while test body rs s1) as [[ev2 s2] |] eqn:Hw; [| discriminate].
  intros _. apply Exists_cons_tl. eapply IH. exact Hw.
Qed.

Lemma burn_loop_left_at (w : world) (b : bool) (rs : list burn_reading)
    (v : locals) (ev : list event) (v' : locals) :
  burn_loop w b rs v = Some (ev, v') ->
  fuel_empty v = false ->
  if fuel_empty v'
  then Exists (fun r => bu_periapsis r < 75000
                        /\ (bu_fuel r <= 0.1 \/ bu_oxidizer r <= 0.1)) rs
       /\ exists ev0, ev = ev0 ++ [say [T "  ✗ ТОПЛИВО КОНЧИЛОСЬ!"]]
  else Exists (fun r => ~ bu_periapsis r < 75000) rs.
Proof.
  unfold burn_loop. revert v ev v'.
  induction rs as [| r rs IH]; intros v ev v'; simpl; [discriminate |].
  destruct (bu_periapsis r <? 75000) eqn:Ht.
  - apply Qltb_lt in Ht.
    destruct (Qlt_le_dec 0.1 (bu_fuel r)) as [Hf | Hf];
      [destruct (Qlt_le_dec 0.1 (bu_oxidizer r)) as [Ho | Ho] |].
    + destruct (burn_body_turn w b r v Hf Ho) as (ev1 & v1 & -> & _ & _ & He).
      destruct (while _ _ rs v1) as [[ev2 v2] |] eqn:Hw; [| discriminate].
      intros [= <- <-] Hv. rewrite <- He in Hv. specialize (IH v1 ev2 v2 Hw Hv).
      destruct (fuel_empty v2).
      * destruct IH as (IH & ev0 & ->). split; [now apply Exists_cons_tl |].
        exists (ev1 ++ ev0). now rewrite app_assoc.
      * now apply Exists_cons_tl.
    + destruct (burn_body_break w b r v (or_intror Ho)) as (ev1 & v1 & -> & _ & He).
      intros [= <- <-] _. rewrite He. split; [| now exists ev1].
      apply Exists_cons_hd. split; [exact Ht | now right].
    + destruct (burn_body_break w b r v (or_introl Hf)) as (ev1 & v1 & -> & _ & He).
      intros [= <- <-] _. rewrite He. split; [| now exists ev1].
      apply Exists_cons_hd. split; [exact Ht | now left].
  - intros [= <- <-] ->. apply Exists_cons_hd.
    intros Hlt. apply Qltb_lt in Hlt. congruence.
Qed.

Lemma bodies_run_to_the_bottom (b : bool) :
  (forall r s, exists ev s', gravity_turn_body b r s = (ev, next s'))
  /\ (forall r s, exists ev s', ascent_body b r s = (ev, next s'))
  /\ (forall r s, exists ev s', coast_body b r s = (ev, next s')).
Proof.
  split; [| split]; intros r s.
  - destruct (gravity_turn_body_turn b r s) as (e & s' & -> & _). eauto.
  - destruct (ascent_body_turn b r s) as (e & s' & -> & _). eauto.
  - destruct (coast_body_turn b r s) as (e & s' & -> & _). eauto.
Qed.

Lemma test_failed (x limit : Q) : (x <? limit) = false -> ~ x < limit.
Proof.
  intros Hf Hlt. apply Qltb_lt in Hlt. congruence.
Qed.

(** X8.  A run of [main] that returns has left each loop on a reading that
    failed the loop's test: an altitude that is not below 10000, an apoapsis
    that is not below 80000, an altitude that is not below 78000.  It ends in
    MissionSummary only after a periapsis reading that is not below 75000,
    and in Aborted only after a reading of fuel or oxidizer of at most 0.1
    with the periapsis read below 75000, and then the event log has the line
    that the fuel ran out.  The failed tests are stated as negations, which
    is all the code has established when the reading is not a number. *)
Theorem completed_mission_met_its_thresholds (w : world) (ev : list event) (fe : bool) :
  main w = Some (ev, mission_over fe) ->
  Exists (fun r => ~ gt_altitude r < 10000) (gravity_turn w)
  /\ Exists (fun r => ~ as_apoapsis r < 80000) (ascent w)
  /\ Exists (fun r => ~ co_altitude r < 78000) (coast w)
  /\ (if fe
      then Exists (fun r => bu_periapsis r < 75000
                            /\ (bu_fuel r <= 0.1 \/ bu_oxidizer r <= 0.1)) (burn w)
           /\ In (say [T "  ✗ ТОПЛИВО КОНЧИЛОСЬ!"]) ev
      else Exists (fun r => ~ bu_periapsis r < 75000) (burn w)).
Proof.
  intros Hmain.
  destruct (main_inv w ev fe Hmain)
    as (_ & e1 & v1 & e2 & v2 & e3 & v3 & e4 & v4 & H1 & H2 & H3 & H4 & Hfe & Hev).
  set (b := snd (recorder_init w)) in *.
  destruct (bodies_run_to_the_bottom b) as (R1 & R2 & R3).
  repeat apply conj.
  - eapply Exists_impl; [| exact (while_left_at _ _ R1 _ _ _ _ H1)].
    intros r. apply test_failed.
  - eapply Exists_impl; [| exact (while_left_at _ _ R2 _ _ _ _ H2)].
    intros r. apply test_failed.
  - eapply Exists_impl; [| exact (while_left_at _ _ R3 _ _ _ _ H3)].
    intros r. apply test_failed.
  - pose proof (burn_loop_left_at w b _ _ _ _ H4 eq_refl) as Hb.
    rewrite <- Hfe in Hb. destruct fe; [| exact Hb].
    destruct Hb as (Hex & ev0 & He4). split; [exact Hex |].
    rewrite Hev, He4. do 16 (apply in_or_app; right).
    apply in_or_app. left. apply in_or_app. right. now left.
Qed.

Lemma completed_mission_met_its_thresholds_witness :
  exists ev,
    main dry_flight = Some (ev, mission_over true)
    /\ Exists (fun r => bu_periapsis r < 75000
                        /\ (bu_fuel r <= 0.1 \/ bu_oxidizer r <= 0.1)) (burn dry_flight)
    /\ In (say [T "  ✗ ТОПЛИВО КОНЧИЛОСЬ!"]) ev.
Proof.
  assert (H : exists ev, main dry_flight = Some (ev, mission_over true))
    by (eexists; vm_compute; reflexivity).
  destruct H as (ev & H). exists ev. split; [exact H |].
  destruct (completed_mission_met_its_thresholds dry_flight ev true H)
    as (_ & _ & _ & Hb).
  exact Hb.
Defined.

(** ** The calls made to the recorder *)

Lemma while_recorded {I S : Type} (test : I -> bool)
    (body : I -> S -> list event * flow S) (sample_of : I -> FlightDataLogger.sample) :
  (forall r s, recorder_calls (fst (body r s)) = []
               \/ recorder_calls (fst (body r s)) = [log_data (sample_of r)]) ->
  forall rs s ev s',
    while test body rs s = Some (ev, s') ->
    exists ds, recorder_calls ev = map log_data ds /\ incl ds (map sample_of rs).
Proof.
  intros Hb rs. induction rs as [| r rs IH]; intros s ev s'; simpl; [discriminate |].
  destruct (test r); [| intros [= <- <-]; now exists []].
  specialize (Hb r s). destruct (body r s) as [ev1 [s1 | s1]]; cbn [fst] in Hb.
  - destruct (while test body rs s1) as [[ev2 s2] |] eqn:Hw; [| discriminate].
    intros [= <- <-]. destruct (IH s1 ev2 s2 Hw) as (ds & Hds & Hin).
    rewrite recorder_calls_app, Hds. destruct Hb as [-> | ->].
    + exists ds. split; [reflexivity | now apply incl_tl].
    + exists (sample_of r :: ds). split; [reflexivity |].
      apply incl_cons; [now left | now apply incl_tl].
  - intros [= <- <-]. destruct Hb as [-> | ->].
    + now exists [].
    + exists [sample_of r]. split; [reflexivity |].
      apply incl_cons; [now left | apply incl_nil_l].
Qed.

Lemma record_step_calls (b : bool) (interval t : Q) (s : FlightDataLogger.sample)
    (v : locals) :
  fst (record_step b interval t s v) = []
  \/ (b = true /\ fst (record_step b interval t s v) = [log_data s]).
Proof.
  unfold record_step. destruct (t - last_data_log v >? interval), b; simpl; auto.
Qed.

Lemma gravity_turn_body_recorded (b : bool) (r : gravity_turn_reading) (v : locals) :
  recorder_calls (fst (gravity_turn_body b r v)) = []
  \/ recorder_calls (fst (gravity_turn_body b r v)) = [log_data (gt_sample r)].
Proof.
  unfold gravity_turn_body.
  destruct (record_step_calls b 0.5 (gt_time r) (gt_sample r) v) as [H | [_ H]];
    destruct (record_step b 0.5 (gt_time r) (gt_sample r) v) as [ev1 v1];
    cbn [fst] in H; subst ev1; decide_tests; auto.
Qed.

Lemma ascent_body_recorded (b : bool) (r : ascent_reading) (v : locals) :
  recorder_calls (fst (ascent_body b r v)) = []
  \/ recorder_calls (fst (ascent_body b r v)) = [log_data (as_sample r)].
Proof.
  unfold ascent_body, pitch_step, fuel_warning.
  destruct (record_step_calls b 0.5 (as_time r) (as_sample r) v) as [H | [_ H]];
    destruct (record_step b 0.5 (as_time r) (as_sample r) v) as [ev1 v1];
    cbn [fst] in H; subst ev1; decide_tests; auto.
Qed.

Lemma coast_body_recorded (b : bool) (r : coast_reading) (v : locals) :
  recorder_calls (fst (coast_body b r v)) = []
  \/ recorder_calls (fst (coast_body b r v)) = [log_data (co_sample r)].
Proof.
  unfold coast_body.
  destruct (record_step_calls b 1.0 (co_time r) (co_sample r) v) as [H | [_ H]];
    destruct (record_step b 1.0 (co_time r) (co_sample r) v) as [ev1 v1];
    cbn [fst] in H; subst ev1;
    destruct (78000 - co_altitude_remaining r <? 5000); auto.
Qed.

Lemma burn_body_recorded (w : world) (b : bool) (r : burn_reading) (v : locals) :
  recorder_calls (fst (burn_body w b r v)) = []
  \/ recorder_calls (fst (burn_body w b r v)) = [log_data (bu_sample r)].
Proof.
  unfold burn_body.
  destruct (record_step_calls b 0.3 (bu_time r) (bu_sample r) v) as [H | [_ H]];
    destruct (record_step b 0.3 (bu_time r) (bu_sample r) v) as [ev1 v1];
    cbn [fst] in H; subst ev1;
    destruct ((bu_fuel r <=? 0.1) || (bu_oxidizer r <=? 0.1));
    decide_tests; auto.
Qed.

(** Without a recorder a turn of a loop makes no call to it. *)
Lemma while_silent {I S : Type} (test : I -> bool)
    (body : I -> S -> list event * flow S) :
  (forall r s, recorder_calls (fst (body r s)) = []) ->
  forall rs s ev s',
    while test body rs s = Some (ev, s') -> recorder_calls ev = [].
Proof.
  intros Hb rs. induction rs as [| r rs IH]; intros s ev s'; simpl; [discriminate |].
  destruct (test r); [| now intros [= <- <-]].
  specialize (Hb r s). destruct (body r s) as [ev1 [s1 | s1]]; cbn [fst] in Hb.
  - destruct (while test body rs s1) as [[ev2 s2] |] eqn:Hw; [| discriminate].
    intros [= <- <-]. now rewrite recorder_calls_app, Hb, (IH s1 ev2 s2 Hw).
  - now intros [= <- <-].
Qed.

Lemma bodies_silent (w : world) :
  (forall r v, recorder_calls (fst (gravity_turn_body false r v)) = [])
  /\ (forall r v, recorder_calls (fst (ascent_body false r v)) = [])
  /\ (forall r v, recorder_calls (fst (coast_body false r v)) = [])
  /\ (forall r v, recorder_calls (fst (burn_body w false r v)) = []).
Proof.
  split; [| split; [| split]]; intros r v.
  - unfold gravity_turn_body, record_step. rewrite andb_false_r. now decide_tests.
  - unfold ascent_body, record_step, pitch_step, fuel_warning.
    rewrite andb_false_r. now decide_tests.
  - unfold coast_body, record_step. rewrite andb_false_r.
    now destruct (78000 - co_altitude_remaining r <? 5000).
  - unfold burn_body, record_step. rewrite andb_false_r.
    destruct ((bu_fuel r <=? 0.1) || (bu_oxidizer r <=? 0.1)); now decide_tests.
Qed.

Lemma recorder_calls_deployment (w : world) (b : bool) :
  recorder_calls (deployment w b)
  = if_recorder b [log_status [T "РАЗВЕРТЫВАНИЕ СОЛНЕЧНЫХ ПАНЕЛЕЙ"]].
Proof.
  unfold deployment. rewrite !recorder_calls_app.
  pose proof (deploy_panels_events (solar_panels w) 0 0) as H.
  destruct (deploy_panels (solar_panels w) 0 0) as [ev n]. cbn [fst] in H.
  rewrite recorder_calls_app, (recorder_calls_deploys ev H).
  destruct b, (0 <? n)%nat; reflexivity.
Qed.

Lemma recorder_calls_blocks (w : world) (b : bool) :
  recorder_calls banner = []
  /\ recorder_calls (vessel_info w b)
     = if_recorder b [log_status [T "СТАРТ МИССИИ - РАКЕТА НА СТАРТОВОЙ ПЛОЩАДКЕ"]]
  /\ recorder_calls (ignition w b)
     = if_recorder b [log_status [T "ЗАПУСК ДВИГАТЕЛЯ - ПОЛНЫЙ ГАЗ"]]
  /\ recorder_calls gravity_turn_entry = []
  /\ recorder_calls (turn w b)
     = if_recorder b [log_status [T "ДОСТИГНУТО 10 КМ - ГРАВИТАЦИОННЫЙ ПОВОРОТ"]]
  /\ recorder_calls ascent_entry = []
  /\ recorder_calls (cutoff w b)
     = if_recorder b
         [log_status [ T "ДОСТИГНУТ АПОАПСИС "; F ".1f" (apoapsis_status w / 1000);
                       T " КМ - ВЫКЛЮЧЕНИЕ ДВИГАТЕЛЯ" ]]
  /\ recorder_calls (coast_entry b)
     = if_recorder b [log_status [T "ОЖИДАНИЕ АПОАПСИСА 80 КМ"]]
  /\ recorder_calls (burn_entry w b)
     = if_recorder b
         [ log_status [T "НАЧАЛО ОРБИТАЛЬНОГО МАНЕВРА"];
           log_status [T "ВКЛЮЧЕНИЕ ДВИГАТЕЛЯ ДЛЯ ОРБИТАЛЬНОГО МАНЕВРА"] ]
  /\ recorder_calls (shutdown w b)
     = if_recorder b
         [log_status [ T "ЗАВЕРШЕНИЕ МАНЕВРА - ПЕРИАПСИС ";
                       F ".1f" (periapsis_status w / 1000); T " КМ" ]]
  /\ recorder_calls (finish b)
     = if_recorder b [log_status [T "ЗАВЕРШЕНИЕ МИССИИ"]; recorder_close].
Proof.
  unfold ignition, burn_entry, try_sas_mode.
  destruct b, (sas_radial w), (sas_prograde w); repeat apply conj; reflexivity.
Qed.

(** X9.  The calls a completed mission makes to the recorder.  When its
    construction raised there is none after it.  Otherwise they are, in
    order: the construction, the ten status lines at their places between
    the loops, the samples of each loop, which are samples read in that
    loop, and [close] once, as the last call. *)
Theorem recorder_calls_of_a_completed_mission (w : world) (ev : list event) (fe : bool) :
  main w = Some (ev, mission_over fe) ->
  match recorder w with
  | Some _ => recorder_calls ev = [recorder_new]
  | None =>
      exists d1 d2 d3 d4,
        recorder_calls ev
        = [ recorder_new;
            log_status [T "СТАРТ МИССИИ - РАКЕТА НА СТАРТОВОЙ ПЛОЩАДКЕ"];
            log_status [T "ЗАПУСК ДВИГАТЕЛЯ - ПОЛНЫЙ ГАЗ"] ]
          ++ map log_data d1
          ++ [ log_status [T "ДОСТИГНУТО 10 КМ - ГРАВИТАЦИОННЫЙ ПОВОРОТ"] ]
          ++ map log_data d2
          ++ [ log_status [ T "ДОСТИГНУТ АПОАПСИС "; F ".1f" (apoapsis_status w / 1000);
                            T " КМ - ВЫКЛЮЧЕНИЕ ДВИГАТЕЛЯ" ];
               log_status [T "РАЗВЕРТЫВАНИЕ СОЛНЕЧНЫХ ПАНЕЛЕЙ"];
               log_status [T "ОЖИДАНИЕ АПОАПСИСА 80 КМ"] ]
          ++ map log_data d3
          ++ [ log_status [T "НАЧАЛО ОРБИТАЛЬНОГО МАНЕВРА"];
               log_status [T "ВКЛЮЧЕНИЕ ДВИГАТЕЛЯ ДЛЯ ОРБИТАЛЬНОГО МАНЕВРА"] ]
          ++ map log_data d4
          ++ [ log_status [ T "ЗАВЕРШЕНИЕ МАНЕВРА - ПЕРИАПСИС ";
                            F ".1f" (periapsis_status w / 1000); T " КМ" ];
               log_status [T "ЗАВЕРШЕНИЕ МИССИИ"];
               recorder_close ]
        /\ incl d1 (map gt_sample (gravity_turn w))
        /\ incl d2 (map as_sample (ascent w))
        /\ incl d3 (map co_sample (coast w))
        /\ incl d4 (map bu_sample (burn w))
  end.
Proof.
  intros Hmain.
  destruct (main_inv w ev fe Hmain)
    as (_ & e1 & v1 & e2 & v2 & e3 & v3 & e4 & v4 & H1 & H2 & H3 & H4 & _ & Hev).
  cbv zeta in H1, H2, H3, H4, Hev.
  destruct (recorder_calls_blocks w (snd (recorder_init w)))
    as (B1 & B2 & B3 & B4 & B5 & B6 & B7 & B8 & B9 & B10 & B11).
  rewrite Hev, !recorder_calls_app, B1, B2, B3, B4, B5, B6, B7, B8, B9, B10, B11,
    recorder_calls_deployment, recorder_calls_summary.
  clear B1 B2 B3 B4 B5 B6 B7 B8 B9 B10 B11 Hev Hmain.
  unfold recorder_init in *. destruct (recorder w) as [e |]; cbn [fst snd] in *.
  - destruct (bodies_silent w) as (S1 & S2 & S3 & S4).
    rewrite (while_silent _ _ S1 _ _ _ _ H1), (while_silent _ _ S2 _ _ _ _ H2),
      (while_silent _ _ S3 _ _ _ _ H3), (while_silent _ _ S4 _ _ _ _ H4).
    reflexivity.
  - destruct (while_recorded _ _ gt_sample (gravity_turn_body_recorded true) _ _ _ _ H1)
      as (d1 & -> & I1).
    destruct (while_recorded _ _ as_sample (ascent_body_recorded true) _ _ _ _ H2)
      as (d2 & -> & I2).
    destruct (while_recorded _ _ co_sample (coast_body_recorded true) _ _ _ _ H3)
      as (d3 & -> & I3).
    destruct (while_recorded _ _ bu_sample (burn_body_recorded w true) _ _ _ _ H4)
      as (d4 & -> & I4).
    exists d1, d2, d3, d4. split; [| now repeat split].
    cbn [if_recorder recorder_calls filter is_recorder_call say app].
    rewrite <- ?app_assoc. reflexivity.
Qed.

Lemma recorder_calls_of_a_completed_mission_witness :
  exists ev,
    main flight = Some (ev, mission_over false)
    /\ In recorder_close (recorder_calls ev).
Proof.
  assert (H : exists ev, main flight = Some (ev, mission_over false))
    by (eexists; vm_compute; reflexivity).
  destruct H as (ev & H). exists ev. split; [exact H |].
  pose proof (recorder_calls_of_a_completed_mission flight ev false H) as Hr.
  change (recorder flight) with (@None exn) in Hr. cbv iota in Hr.
  destruct Hr as (d1 & d2 & d3 & d4 & -> & _).
  rewrite !in_app_iff. do 8 right. right. right. now left.
Defined.

(** ** The three calls that [main] guards *)

Lemma main_run (w : world) (e1 e2 e3 e4 : list event) (v1 v2 v3 v4 : locals) :
  let b := snd (recorder_init w) in
  connect w = None ->
  gravity_turn_loop b (gravity_turn w)
    (set_last_data_log (set_last_report unassigned (gt_last_report w))
       (gt_last_data_log w)) = Some (e1, v1) ->
  ascent_loop b (ascent w)
    (set_target_pitch
       (set_fuel_warnings (set_last_report v1 (as_last_report w)) 0)
       (pitch_snapshot w)) = Some (e2, v2) ->
  coast_loop b (coast w) v2 = Some (e3, v3) ->
  burn_loop w b (burn w)
    (set_fuel_empty (set_last_report v3 (bu_last_report w)) false) = Some (e4, v4) ->
  main w
  = Some (banner ++ [say connecting] ++ [say connected] ++ fst (recorder_init w)
          ++ vessel_info w b ++ ignition w b
          ++ gravity_turn_entry ++ e1 ++ turn w b
          ++ ascent_entry ++ e2 ++ cutoff w b ++ deployment w b
          ++ coast_entry b ++ e3
          ++ burn_entry w b ++ e4 ++ shutdown w b
          ++ summary w (fuel_empty v4) ++ finish b,
          mission_over (fuel_empty v4)).
Proof.
  intros b Hc H1 H2 H3 H4. subst b. unfold main. rewrite Hc.
  destruct (recorder_init w) as [ev_rec b]. cbn [fst snd] in *.
  unfold fly, gravity_turn_phase, ascent_phase, coast_phase, burn_phase.
  cbn [bind tell ret]. rewrite H1.
  cbn [bind tell ret]. rewrite H2.
  cbn [bind tell ret]. rewrite H3.
  cbn [bind tell ret]. rewrite H4.
  cbn [bind tell ret].
  rewrite !app_nil_r, <- !app_assoc. reflexivity.
Qed.

Lemma main_ending (w : world) (ev : list event) (r : ending) :
  main w = Some (ev, r) ->
  match r with
  | no_connection =>
      exists e, connect w = Some e
                /\ ev = banner ++ [say connecting] ++ connection_failed e
  | mission_over _ => connect w = None
  end.
Proof.
  unfold main. destruct (connect w) as [e |].
  - intros H. assert (Hr := f_equal (fun o => match o with
                                               | Some (_, x) => x
                                               | None => no_connection
                                               end) H).
    cbv beta iota in Hr. subst r. exists e. split; [reflexivity |].
    now injection H as <-.
  - destruct (recorder_init w) as [ev_rec b].
    destruct (fly w b) as [[ev_fly v] |]; [| discriminate].
    intros H. assert (Hr := f_equal (fun o => match o with
                                               | Some (_, x) => x
                                               | None => no_connection
                                               end) H).
    cbv beta iota in Hr. now subst r.
Qed.

Lemma same_but_wording_refl (ev : list event) : Forall2 same_but_wording ev ev.
Proof.
  induction ev; constructor; [now left | assumption].
Qed.

Lemma same_but_wording_observed (ev ev' : list event) :
  Forall2 same_but_wording ev ev' ->
  commands ev = commands ev'
  /\ recorder_calls ev = recorder_calls ev'
  /\ phases ev = phases ev'
  /\ length ev = length ev'.
Proof.
  unfold commands, recorder_calls, phases.
  induction 1 as [| e e' ev ev' [<- | (m & m' & -> & ->)] _ (IH1 & IH2 & IH3 & IH4)].
  - now repeat split.
  - destruct e; simpl; rewrite ?IH1, ?IH2, ?IH3, ?IH4; now repeat split.
  - simpl. rewrite ?IH1, ?IH2, ?IH3, ?IH4; now repeat split.
Qed.

Lemma with_guarded_same (w : world) :
  with_guarded w (sas_radial w) (sas_prograde w) (eccentricity w) = w.
Proof. now destruct w. Qed.

Lemma guarded_blocks (w : world) (a p : option exn) (c : result Q) (b fe : bool) :
  Forall2 same_but_wording (ignition w b) (ignition (with_guarded w a p c) b)
  /\ Forall2 same_but_wording (burn_entry w b) (burn_entry (with_guarded w a p c) b)
  /\ Forall2 same_but_wording (summary w fe) (summary (with_guarded w a p c) fe).
Proof.
  repeat apply conj.
  - unfold ignition, try_sas_mode.
    repeat (apply Forall2_app; [apply same_but_wording_refl |]).
    constructor; [now left |]. constructor; [| constructor].
    right. cbn [sas_radial with_guarded]. unfold say.
    destruct (sas_radial w), a; eauto.
  - unfold burn_entry, try_sas_mode.
    do 6 (apply Forall2_app; [apply same_but_wording_refl |]).
    apply Forall2_app; [| apply same_but_wording_refl].
    constructor; [now left |]. constructor; [| constructor].
    right. cbn [sas_prograde with_guarded]. unfold say.
    destruct (sas_prograde w), p; eauto.
  - unfold summary.
    do 2 (apply Forall2_app; [apply same_but_wording_refl |]).
    apply Forall2_app; [| apply same_but_wording_refl].
    do 3 (constructor; [now left |]).
    constructor; [| apply same_but_wording_refl].
    right. cbn [eccentricity with_guarded]. unfold say.
    destruct (eccentricity w), c; eauto.
Qed.

Lemma guarded_transfer (w : world) (a p : option exn) (c : result Q)
    (ev : list event) (r : ending) :
  main w = Some (ev, r) ->
  exists ev', main (with_guarded w a p c) = Some (ev', r)
              /\ Forall2 same_but_wording ev ev'.
Proof.
  intros Hmain. pose proof (main_ending w ev r Hmain) as He. destruct r as [| fe].
  - destruct He as (e & Hc & ->). exists (banner ++ [say connecting] ++ connection_failed e).
    split; [| apply same_but_wording_refl].
    unfold main. cbn [connect with_guarded]. rewrite Hc. reflexivity.
  - destruct (main_inv w ev fe Hmain)
      as (_ & e1 & v1 & e2 & v2 & e3 & v3 & e4 & v4 & H1 & H2 & H3 & H4 & -> & ->).
    cbv zeta in H1, H2, H3, H4.
    pose proof (main_run (with_guarded w a p c) e1 e2 e3 e4 v1 v2 v3 v4
                  He H1 H2 H3 H4) as Hrun.
    eexists. split; [exact Hrun |].
    destruct (guarded_blocks w a p c (snd (recorder_init w)) (fuel_empty v4))
      as (G1 & G2 & G3).
    change (snd (recorder_init (with_guarded w a p c))) with (snd (recorder_init w)).
    repeat first
      [ apply Forall2_app;
        [ first [exact G1 | exact G2 | exact G3 | apply same_but_wording_refl] |]
      | apply same_but_wording_refl ].
Qed.

(** X10.  The three calls that [main] guards with [try]: setting the SAS
    mode to radial (l.264-268) and to prograde (l.425-429), and reading the
    eccentricity (l.498-502).  Whether each of them raises or not, for the
    same readings the run returns exactly when the other does, with the same
    ending, and event by event the two runs are the same but for the wording
    of lines of the event log; so the commands to the vehicle, the calls to
    the recorder and the phases are the same. *)
Theorem guarded_failures_only_reword_the_log
    (w : world) (radial prograde : option exn) (ecc : result Q) :
  match main w, main (with_guarded w radial prograde ecc) with
  | Some (ev, r), Some (ev', r') =>
      r = r'
      /\ Forall2 same_but_wording ev ev'
      /\ commands ev = commands ev'
      /\ recorder_calls ev = recorder_calls ev'
      /\ phases ev = phases ev'
  | None, None => True
  | _, _ => False
  end.
Proof.
  destruct (main w) as [[ev r] |] eqn:Hw;
    destruct (main (with_guarded w radial prograde ecc)) as [[ev' r'] |] eqn:Hw'.
  - destruct (guarded_transfer w radial prograde ecc ev r Hw) as (ev2 & Hrun & Hsame).
    rewrite Hw' in Hrun. injection Hrun as <- <-.
    destruct (same_but_wording_observed ev ev' Hsame) as (Hc & Hr & Hp & _).
    now repeat split.
  - destruct (guarded_transfer w radial prograde ecc ev r Hw) as (ev2 & Hrun & _).
    congruence.
  - destruct (guarded_transfer _ (sas_radial w) (sas_prograde w) (eccentricity w)
                ev' r' Hw') as (ev2 & Hrun & _).
    change (with_guarded (with_guarded w radial prograde ecc)
              (sas_radial w) (sas_prograde w) (eccentricity w))
      with (with_guarded w (sas_radial w) (sas_prograde w) (eccentricity w)) in Hrun.
    rewrite with_guarded_same in Hrun. congruence.
  - exact I.
Qed.

(** ** The pace of the recording *)

Lemma count_app (p : event -> bool) (ev1 ev2 : list event) :
  count p (ev1 ++ ev2) = (count p ev1 + count p ev2)%nat.
Proof.
  unfold count. now rewrite filter_app, length_app.
Qed.

Lemma Qn_add (a b : nat) : Qn (a + b) == Qn a + Qn b.
Proof.
  unfold Qn. now rewrite Nat2Z.inj_add, inject_Z_plus.
Qed.

(** A loop whose turns each move a clock of the state forward by at least
    [interval] for each event of a kind moves it by at least [interval] for
    each such event of the whole run. *)
Lemma while_paced {I S : Type} (test : I -> bool)
    (body : I -> S -> list event * flow S)
    (clock : S -> Q) (p : event -> bool) (interval : Q) :
  (forall r s, Qn (count p (fst (body r s))) * interval
               <= clock (state_of (snd (body r s))) - clock s) ->
  forall rs s ev s',
    while test body rs s = Some (ev, s') ->
    Qn (count p ev) * interval <= clock s' - clock s.
Proof.
  intros Hb rs. induction rs as [| r rs IH]; intros s ev s'; simpl; [discriminate |].
  destruct (test r).
  - specialize (Hb r s). destruct (body r s) as [ev1 [s1 | s1]]; cbn [fst snd state_of] in Hb.
    + destruct (while test body rs s1) as [[ev2 s2] |] eqn:Hw; [| discriminate].
      intros [= <- <-]. specialize (IH s1 ev2 s2 Hw).
      rewrite count_app, Qn_add. lra.
    + intros [= <- <-]. exact Hb.
  - intros [= <- <-]. change (Qn (count p [])) with 0. lra.
Qed.

Lemma record_step_paced (b : bool) (interval t : Q) (s : FlightDataLogger.sample)
    (v : locals) :
  let (ev, v') := record_step b interval t s v in
  Qn (count is_data ev) * interval <= last_data_log v' - last_data_log v
  /\ Forall (fun e => is_data e = true) ev
  /\ last_report v' = last_report v.
Proof.
  unfold record_step. destruct (t - last_data_log v >? interval) eqn:Ht, b; cbn [andb].
  - apply Qgtb_gt in Ht. repeat split; [| repeat constructor].
    change (Qn (count is_data [log_data s])) with 1. cbn [last_data_log set_last_data_log].
    lra.
  - repeat split; [| constructor]. change (Qn (count is_data [])) with 0. lra.
  - repeat split; [| constructor]. change (Qn (count is_data [])) with 0. lra.
  - repeat split; [| constructor]. change (Qn (count is_data [])) with 0. lra.
Qed.

Lemma count_all (p : event -> bool) (ev : list event) :
  Forall (fun e => p e = true) ev -> count p ev = length ev.
Proof.
  unfold count. induction 1 as [| e ev He _ IH]; [reflexivity |].
  cbn [filter]. rewrite He. cbn [length]. now rewrite IH.
Qed.

Lemma gravity_turn_body_paced (b : bool) (r : gravity_turn_reading) (v : locals) :
  Qn (count is_data (fst (gravity_turn_body b r v))) * 0.5
  <= last_data_log (state_of (snd (gravity_turn_body b r v))) - last_data_log v.
Proof.
  unfold gravity_turn_body.
  pose proof (record_step_paced b 0.5 (gt_time r) (gt_sample r) v) as H.
  destruct (record_step b 0.5 (gt_time r) (gt_sample r) v) as [ev1 v1].
  destruct H as (H & _ & _).
  destruct (gt_time r - last_report v1 >? 2); cbn [fst snd state_of];
    rewrite count_app; unfold count at 2; cbn [filter is_data app say length];
    rewrite Nat.add_0_r; exact H.
Qed.

Lemma ascent_body_paced (b : bool) (r : ascent_reading) (v : locals) :
  Qn (count is_data (fst (ascent_body b r v))) * 0.5
  <= last_data_log (state_of (snd (ascent_body b r v))) - last_data_log v.
Proof.
  unfold ascent_body, pitch_step, fuel_warning.
  pose proof (record_step_paced b 0.5 (as_time r) (as_sample r) v) as H.
  destruct (record_step b 0.5 (as_time r) (as_sample r) v) as [ev1 v1].
  destruct H as (H & _ & _).
  decide_tests; cbn [fst snd state_of];
    rewrite count_app; unfold count at 2; cbn [filter is_data app say length];
    rewrite Nat.add_0_r; exact H.
Qed.

Lemma coast_body_paced (b : bool) (r : coast_reading) (v : locals) :
  Qn (count is_data (fst (coast_body b r v))) * 1.0
  <= last_data_log (state_of (snd (coast_body b r v))) - last_data_log v.
Proof.
  unfold coast_body.
  pose proof (record_step_paced b 1.0 (co_time r) (co_sample r) v) as H.
  destruct (record_step b 1.0 (co_time r) (co_sample r) v) as [ev1 v1].
  destruct H as (H & _ & _).
  destruct (78000 - co_altitude_remaining r <? 5000); cbn [fst snd state_of];
    rewrite count_app; unfold count at 2; cbn [filter is_data app say length];
    rewrite Nat.add_0_r; exact H.
Qed.

Lemma burn_body_paced (w : world) (b : bool) (r : burn_reading) (v : locals) :
  Qn (count is_data (fst (burn_body w b r v))) * 0.3
  <= last_data_log (state_of (snd (burn_body w b r v))) - last_data_log v.
Proof.
  unfold burn_body.
  pose proof (record_step_paced b 0.3 (bu_time r) (bu_sample r) v) as H.
  destruct (record_step b 0.3 (bu_time r) (bu_sample r) v) as [ev1 v1].
  destruct H as (H & _ & _).
  destruct ((bu_fuel r <=? 0.1) || (bu_oxidizer r <=? 0.1));
    decide_tests; cbn [fst snd state_of];
    rewrite count_app; unfold count at 2; cbn [filter is_data app say length];
    rewrite Nat.add_0_r; exact H.
Qed.

(** X11.  The recording step at the head of each loop body is rate limited:
    over a run of a loop, the clock kept in [last_data_log] has moved
    forward by at least the loop's interval (0.5, 0.5, 1.0 and 0.3 seconds)
    for each call of [log_data] made. *)
Theorem recording_is_rate_limited (w : world) (b : bool) (v v' : locals)
    (ev : list event) :
  (forall rs, gravity_turn_loop b rs v = Some (ev, v') ->
              Qn (count is_data ev) * 0.5 <= last_data_log v' - last_data_log v)
  /\ (forall rs, ascent_loop b rs v = Some (ev, v') ->
                 Qn (count is_data ev) * 0.5 <= last_data_log v' - last_data_log v)
  /\ (forall rs, coast_loop b rs v = Some (ev, v') ->
                 Qn (count is_data ev) * 1.0 <= last_data_log v' - last_data_log v)
  /\ (forall rs, burn_loop w b rs v = Some (ev, v') ->
                 Qn (count is_data ev) * 0.3 <= last_data_log v' - last_data_log v).
Proof.
  split; [| split; [| split]]; intros rs.
  - exact (while_paced _ _ last_data_log is_data 0.5 (gravity_turn_body_paced b) rs v ev v').
  - exact (while_paced _ _ last_data_log is_data 0.5 (ascent_body_paced b) rs v ev v').
  - exact (while_paced _ _ last_data_log is_data 1.0 (coast_body_paced b) rs v ev v').
  - exact (while_paced _ _ last_data_log is_data 0.3 (burn_body_paced w b) rs v ev v').
Qed.

Lemma gravity_turn_body_reports (b : bool) (r : gravity_turn_reading) (v : locals) :
  Qn (count is_log (fst (gravity_turn_body b r v))) * 2
  <= last_report (state_of (snd (gravity_turn_body b r v))) - last_report v.
Proof.
  unfold gravity_turn_body.
  pose proof (record_step_paced b 0.5 (gt_time r) (gt_sample r) v) as H.
  destruct (record_step b 0.5 (gt_time r) (gt_sample r) v) as [ev1 v1].
  destruct H as (_ & Hd & <-).
  assert (Hq : count is_log ev1 = 0%nat).
  { unfold count. clear -Hd. induction Hd as [| e ev He _ IH]; [reflexivity |].
    destruct e; try discriminate. exact IH. }
  destruct (gt_time r - last_report v1 >? 2) eqn:Ht; cbn [fst snd state_of];
    rewrite count_app, Hq; unfold count; cbn [filter is_log app say length Nat.add].
  - apply Qgtb_gt in Ht. change (Qn 1) with 1.
    cbn [last_report set_last_report]. lra.
  - change (Qn 0) with 0. lra.
Qed.

Lemma recording_is_rate_limited_witness :
  exists ev v',
    gravity_turn_loop true to_10_km unassigned = Some (ev, v')
    /\ Qn (count is_data ev) * 0.5 <= last_data_log v' - last_data_log unassigned.
Proof.
  assert (H : exists ev v', gravity_turn_loop true to_10_km unassigned = Some (ev, v'))
    by (do 2 eexists; vm_compute; reflexivity).
  destruct H as (ev & v' & H). exists ev, v'. split; [exact H |].
  exact (proj1 (recording_is_rate_limited flight true unassigned v' ev) to_10_km H).
Defined.

(** X12.  The progress reports of the gravity turn (l.284-291) are rate
    limited: over a run of the loop, the clock kept in [last_report] has
    moved forward by at least 2 seconds for each line written to the event
    log. *)
Theorem gravity_turn_reports_are_rate_limited (b : bool)
    (rs : list gravity_turn_reading) (v v' : locals) (ev : list event) :
  gravity_turn_loop b rs v = Some (ev, v') ->
  Qn (length (logged ev)) * 2 <= last_report v' - last_report v.
Proof.
  exact (while_paced _ _ last_report is_log 2 (gravity_turn_body_reports b) rs v ev v').
Qed.

Lemma gravity_turn_reports_are_rate_limited_witness :
  exists ev v',
    gravity_turn_loop true to_10_km unassigned = Some (ev, v')
    /\ Qn (length (logged ev)) * 2 <= last_report v' - last_report unassigned.
Proof.
  assert (H : exists ev v', gravity_turn_loop true to_10_km unassigned = Some (ev, v'))
    by (do 2 eexists; vm_compute; reflexivity).
  destruct H as (ev & v' & H). exists ev, v'. split; [exact H |].
  exact (gravity_turn_reports_are_rate_limited true to_10_km unassigned v' ev H).
Defined.
